(** * The XTerm input decoder of textual ([src/textual/_xterm_parser.py])

    A shallow embedding of [XTermParser]: the two mouse regular
    expressions, [parse_mouse_code], and the [parse] generator, written as
    a machine that is resumed at each of its three [yield] points. *)

From Stdlib Require Import String Ascii ZArith List Bool Lia.
Import ListNotations.
Local Open Scope string_scope.
Local Open Scope Z_scope.

Set Implicit Arguments.

(** ** Python values the parser works with *)

(** The ESC character ['\x1b'] and the string made of it alone. *)
Definition ESC_char : ascii := "027"%char.
Definition ESC : string := String ESC_char "".

(** Truth value of a [str]: empty strings are false. *)
Definition str_truthy (s : string) : bool :=
  match s with
  | EmptyString => false
  | String _ _ => true
  end.

(** Exceptions that the modelled code could raise. *)
Inductive PyExn : Type :=
| ValueError
| StopIteration.

(** A call either returns a value or raises. *)
Inductive outcome (A : Type) : Type :=
| Returned (a : A)
| Raised (e : PyExn).
Arguments Returned {A} a.
Arguments Raised {A} e.

Definition bind {A B : Type} (m : outcome A) (k : A -> outcome B) : outcome B :=
  match m with
  | Returned a => k a
  | Raised e => Raised e
  end.

Notation "x <- m ;; k" := (bind m (fun x => k))
  (at level 61, m at next level, right associativity).
Notation "' pat <- m ;; k" := (bind m (fun x => match x with pat => k end))
  (at level 61, pat pattern, m at next level, right associativity).

(** [\d] on the characters of this model (code points 0 to 255): the ten
    ASCII digits. *)
Definition is_digit (c : ascii) : bool :=
  let n := nat_of_ascii c in (48 <=? n)%nat && (n <=? 57)%nat.

Definition digit_value (c : ascii) : Z := Z.of_nat (nat_of_ascii c) - 48.

Fixpoint all_digits (s : string) : bool :=
  match s with
  | EmptyString => true
  | String c r => is_digit c && all_digits r
  end.

Fixpoint int_acc (acc : Z) (s : string) : Z :=
  match s with
  | EmptyString => acc
  | String c r => int_acc (10 * acc + digit_value c) r
  end.

(** The interpreter's limit on the number of digits of a decimal string
    that [int] converts: [sys.get_int_max_str_digits()], 4300 unless the
    interpreter is started with another value. Every digit counts,
    leading zeros too. *)
Definition int_max_str_digits : Z := 4300.

Definition within_int_limit (s : string) : bool :=
  Z.of_nat (String.length s) <=? int_max_str_digits.

(** [int(s)] on the strings the parser gives it, which are [\d+] groups:
    the value of a non-empty string of decimal digits that is within the
    limit, and a [ValueError] for one beyond the limit ("Exceeds the
    limit (4300 digits) for integer string conversion"). On any other
    string the model answers [ValueError], as [int] does for a malformed
    literal; the signs, blanks and underscores that [int] also accepts
    never reach it from a [\d+] group. *)
Definition py_int (s : string) : outcome Z :=
  if str_truthy s && all_digits s then
    if within_int_limit s then Returned (int_acc 0 s) else Raised ValueError
  else Raised ValueError.

(** [bool(n)] for an integer. *)
Definition py_bool (n : Z) : bool := negb (n =? 0).

(** ** Regular expressions *)

Module Regex.

(** The fragment of [re] syntax the two patterns are written in. *)
Inductive t : Type :=
| Void
| Eps
| Class (p : ascii -> bool)
| Cat (r1 r2 : t)
| Alt (r1 r2 : t)
| Star (r : t).

Definition Chr (c : ascii) : t := Class (Ascii.eqb c).
Definition Plus (r : t) : t := Cat r (Star r).
Definition Opt (r : t) : t := Alt r Eps.
(** [.] without DOTALL: any character but a newline. *)
Definition Dot : t := Class (fun c => negb (Ascii.eqb c "010"%char)).

Fixpoint nullable (r : t) : bool :=
  match r with
  | Void => false
  | Eps => true
  | Class _ => false
  | Cat r1 r2 => nullable r1 && nullable r2
  | Alt r1 r2 => nullable r1 || nullable r2
  | Star _ => true
  end.

(** Brzozowski derivative. *)
Fixpoint der (c : ascii) (r : t) : t :=
  match r with
  | Void => Void
  | Eps => Void
  | Class p => if p c then Eps else Void
  | Cat r1 r2 =>
      if nullable r1 then Alt (Cat (der c r1) r2) (der c r2)
      else Cat (der c r1) r2
  | Alt r1 r2 => Alt (der c r1) (der c r2)
  | Star r1 => Cat (der c r1) (Star r1)
  end.

(** Whole-string match: what [match] decides for a pattern closed by [\Z]. *)
Fixpoint fullmatch (r : t) (s : string) : bool :=
  match s with
  | EmptyString => nullable r
  | String c rest => fullmatch (der c r) rest
  end.

(** The language of a pattern, for reference. *)
Inductive matches : t -> string -> Prop :=
| m_eps : matches Eps ""
| m_class p c : p c = true -> matches (Class p) (String c "")
| m_cat r1 r2 s1 s2 : matches r1 s1 -> matches r2 s2 -> matches (Cat r1 r2) (s1 ++ s2)
| m_alt_l r1 r2 s : matches r1 s -> matches (Alt r1 r2) s
| m_alt_r r1 r2 s : matches r2 s -> matches (Alt r1 r2) s
| m_star_nil r : matches (Star r) ""
| m_star_cons r c s1 s2 :
    matches r (String c s1) -> matches (Star r) s2 ->
    matches (Star r) (String c s1 ++ s2).

End Regex.

Import Regex.

Definition digit_class : Regex.t := Class is_digit.
(** The pattern matching exactly the string [s]. *)
Fixpoint lit (s : string) : Regex.t :=
  match s with
  | EmptyString => Eps
  | String c r => Cat (Chr c) (lit r)
  end.

(** [_re_mouse_event]: ["^" + re.escape("\x1b[") + r"(<?[\d;]+[mM]|M...)\Z"]. *)
Definition _re_mouse_event : Regex.t :=
  Cat (lit (String ESC_char "["))
      (Alt (Cat (Opt (Chr "<"))
                (Cat (Plus (Class (fun c => is_digit c || Ascii.eqb c ";")))
                     (Class (fun c => Ascii.eqb c "m" || Ascii.eqb c "M"))))
           (Cat (Chr "M") (Cat Dot (Cat Dot Dot)))).

(** [_re_mouse_event.match(sequence)]; on success [group(0)] is the whole
    of [sequence], the pattern being anchored at both ends. *)
Definition re_mouse_event_match (sequence : string) : option string :=
  if fullmatch _re_mouse_event sequence then Some sequence else None.

(** [_re_sgr_mouse]: [r"\x1b\[<(\d+);(\d+);(\d+)([Mm])"], as a pattern. *)
Definition _re_sgr_mouse : Regex.t :=
  Cat (lit (String ESC_char "[<"))
      (Cat (Plus digit_class)
           (Cat (Chr ";")
                (Cat (Plus digit_class)
                     (Cat (Chr ";")
                          (Cat (Plus digit_class)
                               (Class (fun c => Ascii.eqb c "M" || Ascii.eqb c "m"))))))).

(** Longest run of digits at the head of a string, and what follows it. *)
Fixpoint span_digits (s : string) : string * string :=
  match s with
  | EmptyString => ("", "")
  | String c r =>
      if is_digit c then let (d, t) := span_digits r in (String c d, t)
      else ("", s)
  end.

(** A group [(\d+)]: at least one digit, taken greedily. *)
Definition group_digits (s : string) : option (string * string) :=
  let (d, t) := span_digits s in
  if str_truthy d then Some (d, t) else None.

Definition expect (c : ascii) (s : string) : option string :=
  match s with
  | EmptyString => None
  | String d r => if Ascii.eqb c d then Some r else None
  end.

Definition obind {A B : Type} (m : option A) (k : A -> option B) : option B :=
  match m with
  | Some a => k a
  | None => None
  end.

(** [_re_sgr_mouse.match(code)] followed by [.groups()]: the pattern is
    anchored at the start of [code] only, so trailing text is ignored.
    Each [\d+] is followed by a character that is not a digit, so the
    greedy run is the only candidate for the group. *)
Definition re_sgr_mouse_match (code : string)
  : option (string * string * string * string) :=
  obind (expect ESC_char code) (fun r0 =>
  obind (expect "[" r0) (fun r1 =>
  obind (expect "<" r1) (fun r2 =>
  obind (group_digits r2) (fun '(_buttons, r3) =>
  obind (expect ";" r3) (fun r4 =>
  obind (group_digits r4) (fun '(_x, r5) =>
  obind (expect ";" r5) (fun r6 =>
  obind (group_digits r6) (fun '(_y, r7) =>
  match r7 with
  | String c _ =>
      if Ascii.eqb c "M" || Ascii.eqb c "m"
      then Some (_buttons, _x, _y, String c "")
      else None
  | EmptyString => None
  end)))))))).

(** ** Events *)

Section Decoder.

(** The type of [sender] ([MessageTarget], from [_types]). *)
Variable MessageTarget : Type.

(** [ANSI_SEQUENCES.get] (the table itself lives in [_ansi_sequences]):
    the key names mapped to a sequence, in the table's order. *)
Variable get_ansi_sequence : string -> option (list string).

(** Python's [repr] of a [str] and [str] of the looked-up keys, used
    only to format debug lines. *)
Variable repr : string -> string.
Variable str_keys : option (list string) -> string.

(** The arguments [parse_mouse_code] passes to a button or motion event:
    nine positional ones, then [screen_x] and [screen_y]. *)
Record MouseArgs : Type := {
  x : Z;
  y : Z;
  delta_x : Z;
  delta_y : Z;
  button : Z;
  shift : bool;
  meta : bool;
  ctrl : bool;
  screen_x : Z;
  screen_y : Z
}.

(** The events the parser constructs, each with the arguments it is
    constructed with. *)
Inductive Event : Type :=
| Key (sender : MessageTarget) (key : string)
| MouseMove (sender : MessageTarget) (args : MouseArgs)
| MouseDown (sender : MessageTarget) (args : MouseArgs)
| MouseUp (sender : MessageTarget) (args : MouseArgs)
| MouseScrollDown (sender : MessageTarget) (x y : Z)
| MouseScrollUp (sender : MessageTarget) (x y : Z).

(** What an event was given, read back; [None] where the constructor
    call passed no such argument. *)
Definition event_x (e : Event) : option Z :=
  match e with
  | Key _ _ => None
  | MouseMove _ a | MouseDown _ a | MouseUp _ a => Some (x a)
  | MouseScrollDown _ ex _ | MouseScrollUp _ ex _ => Some ex
  end.

Definition event_y (e : Event) : option Z :=
  match e with
  | Key _ _ => None
  | MouseMove _ a | MouseDown _ a | MouseUp _ a => Some (y a)
  | MouseScrollDown _ _ ey | MouseScrollUp _ _ ey => Some ey
  end.

Definition event_args (e : Event) : option MouseArgs :=
  match e with
  | MouseMove _ a | MouseDown _ a | MouseUp _ a => Some a
  | _ => None
  end.

Definition event_delta_x (e : Event) : option Z := option_map delta_x (event_args e).
Definition event_delta_y (e : Event) : option Z := option_map delta_y (event_args e).
Definition event_button (e : Event) : option Z := option_map button (event_args e).
Definition event_modifiers (e : Event) : option (bool * bool * bool) :=
  option_map (fun a => (shift a, meta a, ctrl a)) (event_args e).

Definition is_mouse_event (e : Event) : bool :=
  match e with
  | Key _ _ => false
  | _ => true
  end.

(** An event carries a column, a row, both deltas, a button identity and
    the modifier flags. *)
Definition carries_full_report (e : Event) : Prop :=
  event_x e <> None /\ event_y e <> None /\
  event_delta_x e <> None /\ event_delta_y e <> None /\
  event_button e <> None /\ event_modifiers e <> None.

(** ** The parser object *)

(** The request objects of [_parser] that [parse] yields. *)
Inductive Awaitable : Type :=
| Read1
| PeekBuffer.

(** A value that [parse] can yield: a request object, or a plain [bool]. *)
Inductive Yielded : Type :=
| YAwaitable (a : Awaitable)
| YBool (b : bool).

(** Truth value: a request object defines neither [__bool__] nor
    [__len__] as far as the parser's annotations tell ([parse] yields
    [Awaitable] objects), so it is true as every plain object is. *)
Definition truthy (v : Yielded) : bool :=
  match v with
  | YAwaitable _ => true
  | YBool b => b
  end.

(** [a or b]: [a] when it is true, else [b]. *)
Definition py_or (a b : Yielded) : Yielded := if truthy a then a else b.

(** Where the generator [parse] is suspended, with its live locals. *)
Inductive Frame : Type :=
| AtRead1
| AtPeek (sequence : string) (has_more_data : bool)
| AtRead1Seq (sequence : string) (has_more_data : bool)
| Finished.

(** The instance: [more_data] is the driver's callable, answered here by
    the number of calls made before; [_debug_log_file] is the list of
    writes made to the open file, or [None]; [is_eof] is the flag of the
    [Parser] base class, which the driver sets when it signals the end of
    the stream; [frame] is the state of the generator. *)
Record XTermParser : Type := {
  sender : MessageTarget;
  more_data : nat -> bool;
  more_data_calls : nat;
  last_x : Z;
  last_y : Z;
  _debug_log_file : option (list string);
  is_eof : bool;
  frame : Frame
}.

Definition set_frame (self : XTermParser) (f : Frame) : XTermParser :=
  {| sender := sender self; more_data := more_data self;
     more_data_calls := more_data_calls self;
     last_x := last_x self; last_y := last_y self;
     _debug_log_file := _debug_log_file self;
     is_eof := is_eof self; frame := f |}.

Definition set_last (self : XTermParser) (nx ny : Z) : XTermParser :=
  {| sender := sender self; more_data := more_data self;
     more_data_calls := more_data_calls self;
     last_x := nx; last_y := ny;
     _debug_log_file := _debug_log_file self;
     is_eof := is_eof self; frame := frame self |}.

Definition set_debug_log_file (self : XTermParser) (f : option (list string))
  : XTermParser :=
  {| sender := sender self; more_data := more_data self;
     more_data_calls := more_data_calls self;
     last_x := last_x self; last_y := last_y self;
     _debug_log_file := f;
     is_eof := is_eof self; frame := frame self |}.

(** [self.more_data()]. *)
Definition call_more_data (self : XTermParser) : bool * XTermParser :=
  (more_data self (more_data_calls self),
   {| sender := sender self; more_data := more_data self;
      more_data_calls := S (more_data_calls self);
      last_x := last_x self; last_y := last_y self;
      _debug_log_file := _debug_log_file self;
      is_eof := is_eof self; frame := frame self |}).

(** [" ".join(args)]. *)
Fixpoint join (args : list string) : string :=
  match args with
  | [] => ""
  | [a] => a
  | a :: rest => a ++ " " ++ join rest
  end.

Definition newline : string := String "010"%char "".

Definition debug_log (self : XTermParser) (args : list string) : XTermParser :=
  match _debug_log_file self with
  | Some written => set_debug_log_file self (Some (List.app written [join args ++ newline]))
  | None => self
  end.

(** [__init__]; [debug] tells whether [TEXTUAL_DEBUG] is in the
    environment. The base class constructor it ends with is not among the
    sources: as the design has it, the decoder starts in Idle on an open
    stream, that is with [parse] run up to its first [yield]. *)
Definition new_parser (sender0 : MessageTarget) (more_data0 : nat -> bool)
           (debug : bool) : XTermParser :=
  {| sender := sender0; more_data := more_data0; more_data_calls := 0%nat;
     last_x := 0; last_y := 0;
     _debug_log_file := if debug then Some [] else None;
     is_eof := false; frame := AtRead1 |}.

Definition parse_mouse_code (self : XTermParser) (code : string)
           (sender0 : MessageTarget) : outcome (XTermParser * option Event) :=
  match re_sgr_mouse_match code with
  | Some (_buttons, _x, _y, state) =>
      buttons <- py_int _buttons ;;
      let button0 := Z.land (buttons + 1) 3 in
      ix <- py_int _x ;;
      let x0 := ix - 1 in
      iy <- py_int _y ;;
      let y0 := iy - 1 in
      let delta_x0 := x0 - last_x self in
      let delta_y0 := y0 - last_y self in
      let self := set_last self x0 y0 in
      let event :=
        if py_bool (Z.land buttons 64) then
          (if button0 =? 1 then MouseScrollDown else MouseScrollUp) sender0 x0 y0
        else
          (if py_bool (Z.land buttons 32) then MouseMove
           else if String.eqb state "M" then MouseDown else MouseUp)
            sender0
            {| x := x0; y := y0; delta_x := delta_x0; delta_y := delta_y0;
               button := button0;
               shift := py_bool (Z.land buttons 4);
               meta := py_bool (Z.land buttons 8);
               ctrl := py_bool (Z.land buttons 16);
               screen_x := x0; screen_y := y0 |} in
      Returned (self, Some event)
  | None => Returned (self, None)
  end.

(** The value yielded at each suspension point. At the loop condition
    [(yield self.peek_buffer() or has_more_data)] the operand of [yield]
    is the whole disjunction, [yield] binding weaker than [or]. *)
Definition awaiting (f : Frame) : option Yielded :=
  match f with
  | AtRead1 => Some (YAwaitable Read1)
  | AtPeek _ has_more_data => Some (py_or (YAwaitable PeekBuffer) (YBool has_more_data))
  | AtRead1Seq _ _ => Some (YAwaitable Read1)
  | Finished => None
  end.

(** Back at [while not self.is_eof]: suspend on [yield read1()], or
    fall off the end of the generator. *)
Definition loop_top (self : XTermParser) : XTermParser :=
  set_frame self (if is_eof self then Finished else AtRead1).

Definition key_events (self : XTermParser) (keys : list string) : list Event :=
  map (Key (sender self)) keys.

(** Sending [sent] into the generator: [parse] runs from the suspension
    point in [frame self] to the next one, and the events it gives to
    [on_token] on the way are collected. The value of each [yield]
    expression is [sent]; at the loop condition its truth decides whether
    the loop goes on. An event object counts as true in [if event:]. A
    generator that has returned raises [StopIteration]. *)
Definition resume (self : XTermParser) (sent : string)
  : outcome (list Event * XTermParser) :=
  match frame self with
  | AtRead1 =>
      let character := sent in
      let self := debug_log self ["character=" ++ repr character] in
      let (has_more_data, self) := call_more_data self in
      if String.eqb character ESC then
        let sequence := character in
        Returned ([], set_frame self (AtPeek sequence has_more_data))
      else
        match get_ansi_sequence character with
        | Some keys => Returned (key_events self keys, loop_top self)
        | None => Returned ([Key (sender self) character], loop_top self)
        end
  | AtPeek sequence has_more_data =>
      if str_truthy sent then
        Returned ([], set_frame self (AtRead1Seq sequence has_more_data))
      else Returned ([], loop_top self)
  | AtRead1Seq sequence has_more_data =>
      let sequence := sequence ++ sent in
      let self := debug_log self ["sequence=" ++ repr sequence] in
      let keys := get_ansi_sequence sequence in
      let self := debug_log self ["matched ansi sequences: " ++ str_keys keys] in
      match keys with
      | Some keys => Returned (key_events self keys, loop_top self)
      | None =>
          match re_mouse_event_match sequence with
          | Some mouse_code =>
              '(self, event) <- parse_mouse_code self mouse_code (sender self) ;;
              match event with
              | Some event => Returned ([event], loop_top self)
              | None => Returned ([], loop_top self)
              end
          | None => Returned ([], set_frame self (AtPeek sequence has_more_data))
          end
      end
  | Finished => Raised StopIteration
  end.

(** ** The driver *)

(** Modelled from the spec: the driver loop of the Suspension Engine
    ([Parser.feed] in [_parser], which is not among the sources). It
    holds the units of one delivery, [data]. A [Read1] request
    ([next_unit()]) is answered with the next unit, and suspends the
    decoder when none is left; a [PeekBuffer] request
    ([has_buffered_input()]) never suspends and is answered with the
    units still held, the empty string when there are none. Units left
    when the generator has returned are dropped. An exception raised in
    the generator is not caught: it ends the delivery and reaches the
    caller. The end of the stream is a signal of its own
    ([end_of_stream] below), not a delivery. *)
Definition settle_peek (self : XTermParser) (buffered : string)
  : outcome (list Event * XTermParser) :=
  match awaiting (frame self) with
  | Some (YAwaitable PeekBuffer) => resume self buffered
  | _ => Returned ([], self)
  end.

Fixpoint feed (self : XTermParser) (data : string)
  : outcome (list Event * XTermParser) :=
  match data with
  | EmptyString => settle_peek self ""
  | String c rest =>
      '(ev1, self) <- settle_peek self data ;;
      match awaiting (frame self) with
      | Some (YAwaitable Read1) =>
          '(ev2, self) <- resume self (String c "") ;;
          '(ev3, self) <- feed self rest ;;
          Returned (List.app ev1 (List.app ev2 ev3), self)
      | _ => Returned (ev1, self)
      end
  end.

(** Successive deliveries, one [feed] each. *)
Fixpoint feed_all (self : XTermParser) (deliveries : list string)
  : outcome (list Event * XTermParser) :=
  match deliveries with
  | [] => Returned ([], self)
  | data :: more =>
      '(ev1, self) <- feed self data ;;
      '(ev2, self) <- feed_all self more ;;
      Returned (List.app ev1 ev2, self)
  end.

Definition set_is_eof (self : XTermParser) (eof : bool) : XTermParser :=
  {| sender := sender self; more_data := more_data self;
     more_data_calls := more_data_calls self;
     last_x := last_x self; last_y := last_y self;
     _debug_log_file := _debug_log_file self;
     is_eof := eof; frame := frame self |}.

(** Modelled from the spec: the sentinel result with which [next_unit()]
    resumes the decoder when the stream has ended ([_parser] is not
    among the sources). The generator receives [str] values; the read
    that has no unit to give gives the empty string. *)
Definition eof_sentinel : string := "".

(** Modelled from the spec: the end of the stream, as the Suspension
    Engine signals it ([Parser.feed] in [_parser], which is not among the
    sources). From then on [is_end_of_stream()] is true ([is_eof]), and
    the decoder, suspended in [next_unit()], is resumed with the
    sentinel. An availability check, before or after that read, finds
    nothing buffered. Nothing is sent to a generator that has
    returned. *)
Definition end_of_stream (self : XTermParser) : outcome (list Event * XTermParser) :=
  let self := set_is_eof self true in
  '(ev1, self) <- settle_peek self "" ;;
  match awaiting (frame self) with
  | Some (YAwaitable Read1) =>
      '(ev2, self) <- resume self eof_sentinel ;;
      '(ev3, self) <- settle_peek self "" ;;
      Returned (List.app ev1 (List.app ev2 ev3), self)
  | _ => Returned (ev1, self)
  end.

(** Modelled from the spec: a whole stream, its deliveries and then its
    end. *)
Definition feed_to_end (self : XTermParser) (deliveries : list string)
  : outcome (list Event * XTermParser) :=
  '(ev1, self) <- feed_all self deliveries ;;
  '(ev2, self) <- end_of_stream self ;;
  Returned (List.app ev1 ev2, self).

(** The events of a run, or the exception it ended with. *)
Definition events_of (r : outcome (list Event * XTermParser)) : outcome (list Event) :=
  '(ev, _) <- r ;; Returned ev.

(** [has_buffered_input()], as the decoder reads the answer to its
    [PeekBuffer] request. *)
Definition has_buffered_input (answer : string) : bool := str_truthy answer.

(** The decoder states of the design: [Idle] is the suspension at the
    top-level read, [InEscape] the two suspensions inside the loop that
    extends a sequence. *)
Inductive DecoderState : Type :=
| Idle
| InEscape (pending : string)
| Terminated.

Definition decoder_state (self : XTermParser) : DecoderState :=
  match frame self with
  | AtRead1 => Idle
  | AtPeek sequence _ => InEscape sequence
  | AtRead1Seq sequence _ => InEscape sequence
  | Finished => Terminated
  end.

(** The PendingSequence of the design: what the escape attempt under way
    has accumulated, and nothing outside an attempt. *)
Definition pending_sequence (self : XTermParser) : string :=
  match frame self with
  | AtPeek sequence _ => sequence
  | AtRead1Seq sequence _ => sequence
  | _ => ""
  end.

(** The decoder asks for a further character. *)
Definition demands_character (self : XTermParser) : bool :=
  match frame self with
  | AtRead1Seq _ _ => true
  | _ => false
  end.

(** ** Notions used to state the properties *)

(** The last-seen mouse position. *)
Definition MouseState (self : XTermParser) : Z * Z := (last_x self, last_y self).

(** The position a stream of events leaves behind: that of its last mouse
    event, or [pos] when it has none. *)
Definition track_step (pos : Z * Z) (e : Event) : Z * Z :=
  if is_mouse_event e then
    match event_x e, event_y e with
    | Some ex, Some ey => (ex, ey)
    | _, _ => pos
    end
  else pos.

Definition track (pos : Z * Z) (events : list Event) : Z * Z :=
  fold_left track_step events pos.

(** What relates an instance, the events of a run and the instance the run
    leaves: the position follows the events, and the sender, the driver's
    callable and the end-of-stream flag are not touched. *)
Definition step_ok (self : XTermParser) (ev : list Event) (self' : XTermParser) : Prop :=
  MouseState self' = track (MouseState self) ev /\
  sender self' = sender self /\
  more_data self' = more_data self /\
  is_eof self' = is_eof self.

(** Two instances that differ at most in what was written to the debug
    file, in the number of calls made to [more_data] and in where the
    generator is suspended. *)
Definition same_instance (self self' : XTermParser) : Prop :=
  sender self' = sender self /\
  more_data self' = more_data self /\
  last_x self' = last_x self /\
  last_y self' = last_y self /\
  is_eof self' = is_eof self.

(** The same instance without a debug file. *)
Definition without_debug (self : XTermParser) : XTermParser :=
  set_debug_log_file self None.

Definition erase_log (r : outcome (list Event * XTermParser))
  : outcome (list Event * XTermParser) :=
  '(ev, self) <- r ;; Returned (ev, without_debug self).

(** A sequence resolves the escape attempt when it is a key of the table
    or a full match of [_re_mouse_event]. *)
Definition resolves (sequence : string) : bool :=
  match get_ansi_sequence sequence with
  | Some _ => true
  | None => fullmatch _re_mouse_event sequence
  end.

(** No extension of [sequence] by a non-empty proper prefix of [rest]
    resolves the attempt. *)
Fixpoint unresolved_before (sequence rest : string) : bool :=
  match rest with
  | EmptyString => true
  | String c rest' =>
      match rest' with
      | EmptyString => true
      | String _ _ =>
          negb (resolves (sequence ++ String c "")) &&
          unresolved_before (sequence ++ String c "") rest'
      end
  end.

(** No extension of [sequence] by a non-empty prefix of [rest], [rest]
    itself included, is a key of the table. *)
Fixpoint no_key_from (sequence rest : string) : bool :=
  match rest with
  | EmptyString => true
  | String c rest' =>
      match get_ansi_sequence (sequence ++ String c "") with
      | Some _ => false
      | None => no_key_from (sequence ++ String c "") rest'
      end
  end.

End Decoder.

Arguments Key {MessageTarget} sender key.
Arguments MouseMove {MessageTarget} sender args.
Arguments MouseDown {MessageTarget} sender args.
Arguments MouseUp {MessageTarget} sender args.
Arguments MouseScrollDown {MessageTarget} sender x y.
Arguments MouseScrollUp {MessageTarget} sender x y.

(** ** Sample data *)

(** A table with no entry. *)
Definition empty_table (sequence : string) : option (list string) := None.

(** A small table in the style of [ANSI_SEQUENCES]: the escape key, the
    up arrow, Control-A, an entry with two key names, and an entry whose
    sequence has the shape of a mouse report. *)
Definition sample_table (sequence : string) : option (list string) :=
  if String.eqb sequence ESC then Some ["escape"]
  else if String.eqb sequence (String ESC_char "[A") then Some ["up"]
  else if String.eqb sequence (String "001"%char "") then Some ["ctrl+a"]
  else if String.eqb sequence (String ESC_char (String ESC_char "[A"))
       then Some ["escape"; "up"]
  else if String.eqb sequence (String ESC_char "[<0;3;4M") then Some ["f20"]
  else None.

(** A table in which one key is a proper prefix of another. *)
Definition ambiguous_table (sequence : string) : option (list string) :=
  if String.eqb sequence (String ESC_char "O") then Some ["escape"; "O"]
  else if String.eqb sequence (String ESC_char "OP") then Some ["f1"]
  else None.

(** Stand-ins for the two formatting functions. *)
Definition plain_repr (s : string) : string := "'" ++ s ++ "'".
Definition plain_str_keys (keys : option (list string)) : string :=
  match keys with
  | Some ks => "(" ++ String.concat ", " ks ++ ")"
  | None => "None"
  end.



(** A driver that never expects more data, and one that always does. *)
Definition never_more (calls : nat) : bool := false.
Definition always_more (calls : nat) : bool := true.

(** A freshly created decoder without a debug file, whose driver never
    expects more data, and the same with a driver that always does. *)
Definition fresh_decoder : XTermParser unit := new_parser tt never_more false.
Definition eager_decoder : XTermParser unit := new_parser tt always_more false.

(** ** Notions used to state properties of whole runs *)

Section Runs.

Variable MessageTarget : Type.
Variable get_ansi_sequence : string -> option (list string).
Variable repr : string -> string.
Variable str_keys : option (list string) -> string.

(** The sender an event was constructed with. *)
Definition event_sender (e : Event MessageTarget) : MessageTarget :=
  match e with
  | Key s _ | MouseMove s _ | MouseDown s _ | MouseUp s _
  | MouseScrollDown s _ _ | MouseScrollUp s _ _ => s
  end.

(** [P] holds of every event of a stream, each taken with the position
    that the events before it left behind. *)
Fixpoint chain (P : Z * Z -> Event MessageTarget -> Prop) (pos : Z * Z)
         (events : list (Event MessageTarget)) : Prop :=
  match events with
  | [] => True
  | e :: rest => P pos e /\ chain P (track_step pos e) rest
  end.

(** The deltas of a button or motion event are its position minus [pos]. *)
Definition deltas_from (pos : Z * Z) (e : Event MessageTarget) : Prop :=
  match event_args e with
  | Some a => delta_x a = x a - fst pos /\ delta_y a = y a - snd pos
  | None => True
  end.

(** The ranges of what a mouse event carries. *)
Definition in_range (e : Event MessageTarget) : Prop :=
  match e with
  | Key _ _ => True
  | MouseMove _ a | MouseDown _ a | MouseUp _ a =>
      0 <= button a <= 3 /\ -1 <= x a /\ -1 <= y a /\
      screen_x a = x a /\ screen_y a = y a
  | MouseScrollDown _ ex ey | MouseScrollUp _ ex ey => -1 <= ex /\ -1 <= ey
  end.

(** The three together, for the events of a decoder whose sender is
    [target]. *)
Definition event_ok (target : MessageTarget) (pos : Z * Z)
           (e : Event MessageTarget) : Prop :=
  event_sender e = target /\ deltas_from pos e /\ in_range e.

(** A suspension point with the flag of [more_data] blanked, and an
    instance with its callable, the count of calls and that flag blanked. *)
Definition forget_flag (f : Frame) : Frame :=
  match f with
  | AtPeek sequence _ => AtPeek sequence false
  | AtRead1Seq sequence _ => AtRead1Seq sequence false
  | AtRead1 => AtRead1
  | Finished => Finished
  end.

Definition forget_more_data (self : XTermParser MessageTarget)
  : XTermParser MessageTarget :=
  {| sender := sender self; more_data := fun _ => false;
     more_data_calls := 0%nat;
     last_x := last_x self; last_y := last_y self;
     _debug_log_file := _debug_log_file self;
     is_eof := is_eof self; frame := forget_flag (frame self) |}.

Definition forget_more_data_in
           (r : outcome (list (Event MessageTarget) * XTermParser MessageTarget))
  : outcome (list (Event MessageTarget) * XTermParser MessageTarget) :=
  '(ev, self) <- r ;; Returned (ev, forget_more_data self).

(** The generator driven by any driver whatever: [answers] are the
    values sent into it at its successive suspension points, and the
    events of all the steps are collected. *)
Fixpoint send_all (self : XTermParser MessageTarget) (answers : list string)
  : outcome (list (Event MessageTarget) * XTermParser MessageTarget) :=
  match answers with
  | [] => Returned ([], self)
  | sent :: more =>
      '(ev1, self) <- resume get_ansi_sequence repr str_keys self sent ;;
      '(ev2, self) <- send_all self more ;;
      Returned (List.app ev1 ev2, self)
  end.

(** A pending sequence begins with ESC. *)
Definition pending_begins_with_ESC (self : XTermParser MessageTarget) : Prop :=
  match decoder_state self with
  | InEscape pending => exists rest, pending = String ESC_char rest
  | _ => True
  end.

(** What the debug file holds after a run, given what it held before:
    the same lines followed by new ones, each ended by a newline; and no
    file after when there was none before. *)
Definition log_extended (before after : option (list string)) : Prop :=
  match before with
  | Some written =>
      exists added, after = Some (List.app written added) /\
        Forall (fun line => exists text, line = (text ++ newline)%string) added
  | None => after = None
  end.

(** A non-empty decimal number, and the SGR report with the given fields
    and final character. *)
Definition is_number (s : string) : bool := str_truthy s && all_digits s.

Definition is_final (c : ascii) : bool := Ascii.eqb c "M" || Ascii.eqb c "m".

Definition sgr_body (sb sx sy : string) (c : ascii) : string :=
  "[<" ++ sb ++ ";" ++ sx ++ ";" ++ sy ++ String c "".

Definition sgr_report (sb sx sy : string) (c : ascii) : string :=
  String ESC_char (sgr_body sb sx sy c).

(** Every character of a string passes a test. *)
Fixpoint forall_chars (p : ascii -> bool) (s : string) : bool :=
  match s with
  | EmptyString => true
  | String c r => p c && forall_chars p r
  end.

(** A complete token: one character other than ESC, or ESC followed by
    characters of which the last, and no earlier one, resolves the
    escape attempt. *)
Definition complete_token (token : string) : bool :=
  match token with
  | EmptyString => false
  | String c rest =>
      if Ascii.eqb c ESC_char then
        str_truthy rest &&
        unresolved_before get_ansi_sequence ESC rest &&
        resolves get_ansi_sequence token
      else
        match rest with
        | EmptyString => true
        | String _ _ => false
        end
  end.

(** The Key events of one character read at the top level: those of its
    entry in the table, or one named by the character itself. *)
Definition character_events (target : MessageTarget) (c : ascii)
  : list (Event MessageTarget) :=
  match get_ansi_sequence (String c "") with
  | Some keys => map (Key target) keys
  | None => [Key target (String c "")]
  end.

(** An escape sequence none of whose prefixes resolves the attempt. *)
Definition unrecognised (rest : string) : bool :=
  unresolved_before get_ansi_sequence ESC rest &&
  (negb (str_truthy rest) || negb (resolves get_ansi_sequence (String ESC_char rest))).

End Runs.

(** * Properties *)

Unset Implicit Arguments.

(** ** Matching by derivatives decides the language of a pattern *)

Lemma append_assoc (a b c : string) : ((a ++ b) ++ c = a ++ (b ++ c))%string.
Proof. induction a as [|x a IH]; simpl; [reflexivity|now rewrite IH]. Qed.

Lemma append_eq_nil (s1 s2 : string) : (s1 ++ s2)%string = "" -> s1 = "" /\ s2 = "".
Proof. destruct s1; simpl; [auto|discriminate]. Qed.

Lemma nullable_matches (r : Regex.t) : nullable r = true <-> matches r "".
Proof.
  split.
  - induction r as [| |p|r1 IH1 r2 IH2|r1 IH1 r2 IH2|r IH]; simpl; intros H;
      try discriminate.
    + constructor.
    + apply andb_prop in H. destruct H as [H1 H2].
      change "" with ("" ++ "")%string. constructor; auto.
    + apply orb_prop in H. destruct H as [H|H];
        [apply m_alt_l|apply m_alt_r]; auto.
    + constructor.
  - intros H. remember "" as s eqn:E. induction H; simpl; try reflexivity;
      try discriminate.
    + apply append_eq_nil in E. destruct E as [-> ->].
      now rewrite IHmatches1, IHmatches2.
    + now rewrite IHmatches.
    + rewrite IHmatches by assumption. apply orb_true_r.
Qed.

Lemma der_sound (c : ascii) (r : Regex.t) : forall s,
  matches (der c r) s -> matches r (String c s).
Proof.
  induction r as [| |p|r1 IH1 r2 IH2|r1 IH1 r2 IH2|r IH]; simpl; intros s H.
  - inversion H.
  - inversion H.
  - destruct (p c) eqn:Hp; inversion H; subst. now constructor.
  - assert (Hcat : forall t, matches (Cat (der c r1) r2) t ->
                             matches (Cat r1 r2) (String c t)).
    { intros t Ht. inversion Ht; subst.
      change (String c (s1 ++ s2)) with (String c s1 ++ s2)%string.
      constructor; auto. }
    destruct (nullable r1) eqn:Hn; [|auto].
    inversion H; subst; [auto|].
    change (String c s) with ("" ++ String c s)%string.
    constructor; [now apply nullable_matches|auto].
  - inversion H; subst; [apply m_alt_l|apply m_alt_r]; auto.
  - inversion H; subst.
    change (String c (s1 ++ s2)) with (String c s1 ++ s2)%string.
    constructor; auto.
Qed.

Lemma der_complete (r : Regex.t) (w : string) :
  matches r w -> forall c s, w = String c s -> matches (der c r) s.
Proof.
  induction 1 as [|p c0 Hp|r1 r2 s1 s2 H1 IH1 H2 IH2|r1 r2 s0 H IH|r1 r2 s0 H IH
                  |r|r c0 s1 s2 H1 IH1 H2 IH2];
    intros c s E; simpl.
  - discriminate.
  - injection E as -> <-. rewrite Hp. constructor.
  - destruct s1 as [|c1 s1'].
    + simpl in E. subst s2.
      apply nullable_matches in H1. rewrite H1. apply m_alt_r. now apply IH2.
    + simpl in E. injection E as -> <-.
      assert (Hc : matches (Cat (der c r1) r2) (s1' ++ s2))
        by (constructor; [now apply IH1|assumption]).
      destruct (nullable r1); [now apply m_alt_l|assumption].
  - apply m_alt_l. now apply IH.
  - apply m_alt_r. now apply IH.
  - discriminate.
  - simpl in E. injection E as -> <-. constructor; [now apply IH1|assumption].
Qed.

(** [fullmatch] is membership in the language of the pattern. *)
Lemma fullmatch_matches (s : string) : forall r,
  fullmatch r s = true <-> matches r s.
Proof.
  induction s as [|c s IH]; intros r; simpl.
  - apply nullable_matches.
  - rewrite IH. split; [apply der_sound|].
    intros H. now apply (der_complete r (String c s) H).
Qed.

(** ** Digits, [int] and the SGR pattern *)

Lemma span_digits_all (s : string) : all_digits (fst (span_digits s)) = true.
Proof.
  induction s as [|c r IH]; simpl; [reflexivity|].
  destruct (is_digit c) eqn:Hc; [|reflexivity].
  destruct (span_digits r) as [d t]; simpl in *.
  now rewrite Hc, IH.
Qed.

Lemma span_digits_app (s : string) :
  s = fst (span_digits s) ++ snd (span_digits s).
Proof.
  induction s as [|c r IH]; simpl; [reflexivity|].
  destruct (is_digit c); [|reflexivity].
  destruct (span_digits r) as [d t]; simpl in *. now rewrite <- IH.
Qed.

Lemma group_digits_inv (s d t : string) :
  group_digits s = Some (d, t) ->
  str_truthy d = true /\ all_digits d = true /\ s = d ++ t.
Proof.
  unfold group_digits. intros H.
  pose proof (span_digits_all s) as Hall.
  pose proof (span_digits_app s) as Happ.
  destruct (span_digits s) as [d' t']; simpl in *.
  destruct (str_truthy d') eqn:Hd; [|discriminate].
  injection H as <- <-. auto.
Qed.

(** [int] on a number: its value within the limit, [ValueError] beyond. *)
Lemma py_int_number (d : string) :
  is_number d = true ->
  py_int d = if within_int_limit d then Returned (int_acc 0 d) else Raised ValueError.
Proof. unfold py_int, is_number. now intros ->. Qed.

Lemma py_int_digits (d : string) :
  is_number d = true -> within_int_limit d = true -> py_int d = Returned (int_acc 0 d).
Proof. intros H1 H2. now rewrite (py_int_number d H1), H2. Qed.

Lemma py_int_over_limit (d : string) :
  within_int_limit d = false -> py_int d = Raised ValueError.
Proof. unfold py_int. intros ->. now destruct (str_truthy d && all_digits d)%bool. Qed.

Lemma length_append (s1 s2 : string) :
  String.length (s1 ++ s2) = (String.length s1 + String.length s2)%nat.
Proof. induction s1 as [|c s1 IH]; simpl; [reflexivity|now rewrite IH]. Qed.

Lemma within_int_limit_spec (s : string) :
  within_int_limit s = true <-> Z.of_nat (String.length s) <= int_max_str_digits.
Proof. unfold within_int_limit. apply Z.leb_le. Qed.

Lemma expect_inv (c : ascii) (s r : string) :
  expect c s = Some r -> s = String c r.
Proof.
  destruct s as [|d s']; simpl; [discriminate|].
  destruct (Ascii.eqb c d) eqn:E; [|discriminate].
  apply Ascii.eqb_eq in E. subst. now intros [= ->].
Qed.

(** What a successful match of [_re_sgr_mouse] captured. *)
Lemma re_sgr_mouse_match_inv (code b x y st : string) :
  re_sgr_mouse_match code = Some (b, x, y, st) ->
  is_number b = true /\
  is_number x = true /\
  is_number y = true /\
  (st = "M" \/ st = "m") /\
  exists rest,
    code = String ESC_char "[<" ++ b ++ ";" ++ x ++ ";" ++ y ++ st ++ rest.
Proof.
  unfold re_sgr_mouse_match, obind. intros H.
  destruct (expect ESC_char code) as [r0|] eqn:E0; [|discriminate].
  destruct (expect "[" r0) as [r1|] eqn:E1; [|discriminate].
  destruct (expect "<" r1) as [r2|] eqn:E2; [|discriminate].
  destruct (group_digits r2) as [[b' r3]|] eqn:G1; [|discriminate].
  destruct (expect ";" r3) as [r4|] eqn:E3; [|discriminate].
  destruct (group_digits r4) as [[x' r5]|] eqn:G2; [|discriminate].
  destruct (expect ";" r5) as [r6|] eqn:E4; [|discriminate].
  destruct (group_digits r6) as [[y' r7]|] eqn:G3; [|discriminate].
  destruct r7 as [|c rest]; [discriminate|].
  destruct (Ascii.eqb c "M" || Ascii.eqb c "m")%bool eqn:Ec; [|discriminate].
  injection H as <- <- <- <-.
  apply expect_inv in E0, E1, E2, E3, E4.
  apply group_digits_inv in G1, G2, G3.
  destruct G1 as (Tb & Db & ->), G2 as (Tx & Dx & ->), G3 as (Ty & Dy & ->).
  subst. unfold is_number. rewrite Tb, Db, Tx, Dx, Ty, Dy. repeat split.
  - apply orb_prop in Ec. destruct Ec as [E|E]; apply Ascii.eqb_eq in E; subst; auto.
  - exists rest. reflexivity.
Qed.

(** *** [re_sgr_mouse_match] is the prefix match of [_re_sgr_mouse] *)

Lemma matches_cat_inv (r1 r2 : Regex.t) (w : string) :
  matches (Cat r1 r2) w ->
  exists s1 s2, w = (s1 ++ s2)%string /\ matches r1 s1 /\ matches r2 s2.
Proof. intros H. inversion H; subst. eauto. Qed.

Lemma matches_class_inv (p : ascii -> bool) (w : string) :
  matches (Class p) w -> exists c, w = String c "" /\ p c = true.
Proof. intros H. inversion H; subst. eauto. Qed.

Lemma matches_lit (s : string) : matches (lit s) s.
Proof.
  induction s as [|c s IH]; simpl; [constructor|].
  change (String c s) with (String c "" ++ s)%string.
  constructor; [|exact IH]. constructor. apply Ascii.eqb_refl.
Qed.

Lemma matches_lit_inv (s : string) : forall w, matches (lit s) w -> w = s.
Proof.
  induction s as [|c s IH]; simpl; intros w H.
  - now inversion H.
  - apply matches_cat_inv in H. destruct H as (s1 & s2 & -> & H1 & H2).
    apply matches_class_inv in H1. destruct H1 as (c' & -> & Hc).
    apply Ascii.eqb_eq in Hc. subst c'. simpl. f_equal. now apply IH.
Qed.

Lemma matches_star_digits (d : string) :
  all_digits d = true -> matches (Star digit_class) d.
Proof.
  induction d as [|c d IH]; simpl; intros H; [constructor|].
  apply andb_prop in H. destruct H as [Hc Hd].
  change (String c d) with (String c "" ++ d)%string.
  constructor; [now constructor|auto].
Qed.

Lemma matches_star_digits_inv (w : string) :
  matches (Star digit_class) w -> all_digits w = true.
Proof.
  intros H. remember (Star digit_class) as r eqn:E.
  induction H; try discriminate; [reflexivity|].
  injection E as ->.
  apply matches_class_inv in H. destruct H as (c' & [= -> ->] & Hc).
  simpl. rewrite Hc. now apply IHmatches2.
Qed.

Lemma matches_plus_digits (d : string) :
  str_truthy d = true -> all_digits d = true -> matches (Plus digit_class) d.
Proof.
  destruct d as [|c d]; simpl; intros Ht Hd; [discriminate|].
  apply andb_prop in Hd. destruct Hd as [Hc Hd].
  change (String c d) with (String c "" ++ d)%string.
  constructor; [now constructor|now apply matches_star_digits].
Qed.

Lemma matches_plus_digits_inv (w : string) :
  matches (Plus digit_class) w -> str_truthy w = true /\ all_digits w = true.
Proof.
  intros H. apply matches_cat_inv in H. destruct H as (s1 & s2 & -> & H1 & H2).
  apply matches_class_inv in H1. destruct H1 as (c & -> & Hc).
  apply matches_star_digits_inv in H2. simpl. now rewrite Hc, H2.
Qed.

Lemma span_digits_stop (d : string) (c : ascii) (t : string) :
  all_digits d = true -> is_digit c = false ->
  span_digits (d ++ String c t) = (d, String c t).
Proof.
  intros Hd Hc. induction d as [|a d IH]; simpl in *.
  - now rewrite Hc.
  - apply andb_prop in Hd. destruct Hd as [Ha Hd].
    rewrite Ha, (IH Hd). reflexivity.
Qed.

Lemma group_digits_stop (d : string) (c : ascii) (t : string) :
  str_truthy d = true -> all_digits d = true -> is_digit c = false ->
  group_digits (d ++ String c t) = Some (d, String c t).
Proof.
  intros Ht Hd Hc. unfold group_digits.
  rewrite (span_digits_stop d c t Hd Hc). now rewrite Ht.
Qed.

(** The text matched by the whole pattern with the given groups. *)
Lemma re_sgr_mouse_match_sound (code b x y st : string) :
  re_sgr_mouse_match code = Some (b, x, y, st) ->
  exists rest,
    code = ((String ESC_char "[<" ++ b ++ ";" ++ x ++ ";" ++ y ++ st) ++ rest)%string /\
    matches _re_sgr_mouse (String ESC_char "[<" ++ b ++ ";" ++ x ++ ";" ++ y ++ st).
Proof.
  unfold re_sgr_mouse_match, obind. intros H.
  destruct (expect ESC_char code) as [r0|] eqn:E0; [|discriminate].
  destruct (expect "[" r0) as [r1|] eqn:E1; [|discriminate].
  destruct (expect "<" r1) as [r2|] eqn:E2; [|discriminate].
  destruct (group_digits r2) as [[b' r3]|] eqn:G1; [|discriminate].
  destruct (expect ";" r3) as [r4|] eqn:E3; [|discriminate].
  destruct (group_digits r4) as [[x' r5]|] eqn:G2; [|discriminate].
  destruct (expect ";" r5) as [r6|] eqn:E4; [|discriminate].
  destruct (group_digits r6) as [[y' r7]|] eqn:G3; [|discriminate].
  destruct r7 as [|c rest]; [discriminate|].
  destruct (Ascii.eqb c "M" || Ascii.eqb c "m")%bool eqn:Ec; [|discriminate].
  injection H as <- <- <- <-.
  apply expect_inv in E0, E1, E2, E3, E4.
  apply group_digits_inv in G1, G2, G3.
  destruct G1 as (Tb & Db & ->), G2 as (Tx & Dx & ->), G3 as (Ty & Dy & ->).
  subst. exists rest. split.
  - simpl. rewrite !append_assoc. simpl. rewrite !append_assoc. simpl.
    rewrite !append_assoc. reflexivity.
  - unfold _re_sgr_mouse.
    apply m_cat; [apply matches_lit|].
    apply m_cat; [now apply matches_plus_digits|].
    apply m_cat; [constructor; reflexivity|].
    apply m_cat; [now apply matches_plus_digits|].
    apply m_cat; [constructor; reflexivity|].
    apply m_cat; [now apply matches_plus_digits|].
    constructor. exact Ec.
Qed.

(** Whenever a prefix of [code] is in the language of the pattern, the
    match succeeds and its groups spell that prefix. *)
Lemma re_sgr_mouse_match_complete (p rest : string) :
  matches _re_sgr_mouse p ->
  exists b x y st,
    re_sgr_mouse_match (p ++ rest) = Some (b, x, y, st) /\
    p = (String ESC_char "[<" ++ b ++ ";" ++ x ++ ";" ++ y ++ st)%string.
Proof.
  unfold _re_sgr_mouse. intros H.
  apply matches_cat_inv in H. destruct H as (s0 & t0 & -> & H0 & H).
  apply matches_lit_inv in H0. subst s0.
  apply matches_cat_inv in H. destruct H as (b & t1 & -> & Hb & H).
  apply matches_cat_inv in H. destruct H as (k1 & t2 & -> & Hk1 & H).
  apply matches_cat_inv in H. destruct H as (x & t3 & -> & Hx & H).
  apply matches_cat_inv in H. destruct H as (k2 & t4 & -> & Hk2 & H).
  apply matches_cat_inv in H. destruct H as (y & t5 & -> & Hy & H).
  apply matches_class_inv in Hk1. destruct Hk1 as (c1 & -> & Hc1).
  apply matches_class_inv in Hk2. destruct Hk2 as (c2 & -> & Hc2).
  apply matches_class_inv in H. destruct H as (c & -> & Hc).
  apply Ascii.eqb_eq in Hc1, Hc2. subst c1 c2.
  apply matches_plus_digits_inv in Hb, Hx, Hy.
  destruct Hb as [Tb Db], Hx as [Tx Dx], Hy as [Ty Dy].
  exists b, x, y, (String c ""). split; [|reflexivity].
  unfold re_sgr_mouse_match. simpl.
  rewrite !append_assoc. simpl. rewrite !append_assoc. simpl.
  rewrite !append_assoc. simpl.
  rewrite (group_digits_stop b ";" _ Tb Db eq_refl). simpl.
  rewrite (group_digits_stop x ";" _ Tx Dx eq_refl). simpl.
  assert (Hnd : is_digit c = false).
  { apply orb_prop in Hc. destruct Hc as [E|E]; apply Ascii.eqb_eq in E; now subst c. }
  rewrite (group_digits_stop y c _ Ty Dy Hnd). simpl.
  now rewrite Hc.
Qed.

(** So the match succeeds exactly on the strings with a prefix that the
    derivative matcher accepts for [_re_sgr_mouse]. *)
Lemma re_sgr_mouse_match_prefix (code : string) :
  re_sgr_mouse_match code <> None <->
  exists p rest, code = (p ++ rest)%string /\ fullmatch _re_sgr_mouse p = true.
Proof.
  split.
  - destruct (re_sgr_mouse_match code) as [[[[b x] y] st]|] eqn:H; [|congruence].
    intros _. destruct (re_sgr_mouse_match_sound code b x y st H) as (rest & E & M).
    eexists _, rest. split; [exact E|]. now apply fullmatch_matches.
  - intros (p & rest & -> & M). apply fullmatch_matches in M.
    destruct (re_sgr_mouse_match_complete p rest M) as (b & x & y & st & -> & _).
    discriminate.
Qed.

(** ** [parse_mouse_code] *)

Section MouseCode.

Variable MessageTarget : Type.
Implicit Types (self : XTermParser MessageTarget) (target : MessageTarget).

Lemma parse_mouse_code_no_match self code target :
  re_sgr_mouse_match code = None ->
  parse_mouse_code self code target = Returned (self, None).
Proof. intros H. unfold parse_mouse_code. now rewrite H. Qed.

(** The fields of a match are shorter than the string matched. *)
Lemma re_sgr_mouse_match_within (code sb sx sy st : string) :
  re_sgr_mouse_match code = Some (sb, sx, sy, st) ->
  within_int_limit code = true ->
  within_int_limit sb = true /\ within_int_limit sx = true /\ within_int_limit sy = true.
Proof.
  intros H Hc. apply re_sgr_mouse_match_inv in H.
  destruct H as (_ & _ & _ & _ & rest & ->).
  rewrite !within_int_limit_spec in *. unfold int_max_str_digits in *.
  repeat first [rewrite length_append in Hc
               | progress cbn [append String.length] in Hc].
  repeat split; lia.
Qed.

(** On a match whose three fields are within the limit of [int], the
    fields convert without error, the instance records the new position
    and an event is returned. *)
Lemma parse_mouse_code_match self code target sb sx sy st :
  re_sgr_mouse_match code = Some (sb, sx, sy, st) ->
  within_int_limit sb = true -> within_int_limit sx = true ->
  within_int_limit sy = true ->
  exists event,
    parse_mouse_code self code target =
      Returned (set_last self (int_acc 0 sx - 1) (int_acc 0 sy - 1), Some event) /\
    is_mouse_event event = true /\
    event_x event = Some (int_acc 0 sx - 1) /\
    event_y event = Some (int_acc 0 sy - 1).
Proof.
  intros H Lb Lx Ly. unfold parse_mouse_code. rewrite H.
  apply re_sgr_mouse_match_inv in H. destruct H as (Hb & Hx & Hy & _ & _).
  rewrite (py_int_digits sb Hb Lb), (py_int_digits sx Hx Lx), (py_int_digits sy Hy Ly).
  simpl.
  eexists. split; [reflexivity|].
  destruct (py_bool (Z.land (int_acc 0 sb) 64)).
  - destruct (Z.land (int_acc 0 sb + 1) 3 =? 1); auto.
  - destruct (py_bool (Z.land (int_acc 0 sb) 32)); [auto|].
    destruct (String.eqb st "M"); auto.
Qed.

Lemma parse_mouse_code_wheel self code target sb sx sy st :
  re_sgr_mouse_match code = Some (sb, sx, sy, st) ->
  within_int_limit sb = true -> within_int_limit sx = true ->
  within_int_limit sy = true ->
  py_bool (Z.land (int_acc 0 sb) 64) = true ->
  parse_mouse_code self code target =
    Returned (set_last self (int_acc 0 sx - 1) (int_acc 0 sy - 1),
              Some ((if Z.land (int_acc 0 sb + 1) 3 =? 1
                     then MouseScrollDown else MouseScrollUp)
                      target (int_acc 0 sx - 1) (int_acc 0 sy - 1))).
Proof.
  intros H Lb Lx Ly Hw. unfold parse_mouse_code. rewrite H.
  apply re_sgr_mouse_match_inv in H. destruct H as (Hb & Hx & Hy & _ & _).
  rewrite (py_int_digits sb Hb Lb), (py_int_digits sx Hx Lx), (py_int_digits sy Hy Ly).
  simpl. now rewrite Hw.
Qed.

Lemma parse_mouse_code_button self code target sb sx sy st :
  re_sgr_mouse_match code = Some (sb, sx, sy, st) ->
  within_int_limit sb = true -> within_int_limit sx = true ->
  within_int_limit sy = true ->
  py_bool (Z.land (int_acc 0 sb) 64) = false ->
  parse_mouse_code self code target =
    Returned (set_last self (int_acc 0 sx - 1) (int_acc 0 sy - 1),
              Some ((if py_bool (Z.land (int_acc 0 sb) 32) then MouseMove
                     else if String.eqb st "M" then MouseDown else MouseUp)
                      target
                      {| x := int_acc 0 sx - 1; y := int_acc 0 sy - 1;
                         delta_x := int_acc 0 sx - 1 - last_x self;
                         delta_y := int_acc 0 sy - 1 - last_y self;
                         button := Z.land (int_acc 0 sb + 1) 3;
                         shift := py_bool (Z.land (int_acc 0 sb) 4);
                         meta := py_bool (Z.land (int_acc 0 sb) 8);
                         ctrl := py_bool (Z.land (int_acc 0 sb) 16);
                         screen_x := int_acc 0 sx - 1;
                         screen_y := int_acc 0 sy - 1 |})).
Proof.
  intros H Lb Lx Ly Hw. unfold parse_mouse_code. rewrite H.
  apply re_sgr_mouse_match_inv in H. destruct H as (Hb & Hx & Hy & _ & _).
  rewrite (py_int_digits sb Hb Lb), (py_int_digits sx Hx Lx), (py_int_digits sy Hy Ly).
  simpl. now rewrite Hw.
Qed.

(** On a match with a field beyond the limit, [int] raises and
    [parse_mouse_code] with it: nothing in it catches the exception. *)
Lemma parse_mouse_code_over_limit self code target sb sx sy st :
  re_sgr_mouse_match code = Some (sb, sx, sy, st) ->
  within_int_limit sb && within_int_limit sx && within_int_limit sy = false ->
  parse_mouse_code self code target = Raised ValueError.
Proof.
  intros H L. unfold parse_mouse_code. rewrite H.
  apply re_sgr_mouse_match_inv in H. destruct H as (Hb & Hx & Hy & _ & _).
  rewrite (py_int_number sb Hb), (py_int_number sx Hx), (py_int_number sy Hy).
  destruct (within_int_limit sb); [|reflexivity].
  destruct (within_int_limit sx); [|reflexivity].
  destruct (within_int_limit sy); [discriminate|reflexivity].
Qed.

(** When [parse_mouse_code] returns, the position it leaves is that of
    the event it returns, or the one it found when it returns none, and
    nothing else of the instance has changed. *)
Lemma parse_mouse_code_fields self code target self' event :
  parse_mouse_code self code target = Returned (self', event) ->
  MouseState self' =
    track (MouseState self) (match event with Some e => [e] | None => [] end) /\
  sender self' = sender self /\ more_data self' = more_data self /\
  more_data_calls self' = more_data_calls self /\
  _debug_log_file self' = _debug_log_file self /\
  is_eof self' = is_eof self /\ frame self' = frame self.
Proof.
  intros H.
  destruct (re_sgr_mouse_match code) as [[[[sb sx] sy] st]|] eqn:Hm.
  - destruct (within_int_limit sb && within_int_limit sx && within_int_limit sy)
      eqn:L.
    + apply andb_prop in L. destruct L as [L Ly].
      apply andb_prop in L. destruct L as [Lb Lx].
      destruct (parse_mouse_code_match self code target _ _ _ _ Hm Lb Lx Ly)
        as (e & He & Hme & Hx & Hy).
      rewrite He in H. injection H as <- <-.
      split; [|now simpl].
      unfold track, track_step, MouseState. simpl. now rewrite Hme, Hx, Hy.
    + rewrite (parse_mouse_code_over_limit self code target _ _ _ _ Hm L) in H.
      discriminate.
  - rewrite (parse_mouse_code_no_match self code target Hm) in H.
    injection H as <- <-. repeat split.
Qed.

(** [parse_mouse_code] returns on every string within the limit. *)
Lemma parse_mouse_code_returns self code target :
  within_int_limit code = true ->
  exists self' event, parse_mouse_code self code target = Returned (self', event).
Proof.
  intros Hc. destruct (re_sgr_mouse_match code) as [[[[sb sx] sy] st]|] eqn:Hm.
  - destruct (re_sgr_mouse_match_within _ _ _ _ _ Hm Hc) as (Lb & Lx & Ly).
    destruct (parse_mouse_code_match self code target _ _ _ _ Hm Lb Lx Ly)
      as (e & He & _).
    eauto.
  - rewrite (parse_mouse_code_no_match self code target Hm). eauto.
Qed.

(** The one exception it can raise is the [ValueError] of [int]. *)
Lemma parse_mouse_code_raises self code target e :
  parse_mouse_code self code target = Raised e -> e = ValueError.
Proof.
  unfold parse_mouse_code.
  destruct (re_sgr_mouse_match code) as [[[[sb sx] sy] st]|]; [|discriminate].
  unfold py_int.
  destruct (str_truthy sb && all_digits sb)%bool; [|now intros [= <-]].
  destruct (within_int_limit sb); [|now intros [= <-]].
  destruct (str_truthy sx && all_digits sx)%bool; [|now intros [= <-]].
  destruct (within_int_limit sx); [|now intros [= <-]].
  destruct (str_truthy sy && all_digits sy)%bool; [|now intros [= <-]].
  destruct (within_int_limit sy); [discriminate|now intros [= <-]].
Qed.

End MouseCode.

(** ** The generator and its driver *)

Section Generator.

Variable MessageTarget : Type.
Variable get_ansi_sequence : string -> option (list string).
Variable repr : string -> string.
Variable str_keys : option (list string) -> string.

Implicit Types (self : XTermParser MessageTarget) (sent data : string).

Local Abbreviation resume_ := (resume get_ansi_sequence repr str_keys).
Local Abbreviation settle_peek_ := (settle_peek get_ansi_sequence repr str_keys).
Local Abbreviation feed_ := (feed get_ansi_sequence repr str_keys).
Local Abbreviation feed_all_ := (feed_all get_ansi_sequence repr str_keys).
Local Abbreviation end_of_stream_ := (end_of_stream get_ansi_sequence repr str_keys).
Local Abbreviation feed_to_end_ := (feed_to_end get_ansi_sequence repr str_keys).
Local Abbreviation resolves_ := (resolves get_ansi_sequence).
Local Abbreviation unresolved_before_ := (unresolved_before get_ansi_sequence).
Local Abbreviation no_key_from_ := (no_key_from get_ansi_sequence).

(** *** The debug file is write-only *)

Lemma without_debug_debug_log self args :
  without_debug (debug_log self args) = without_debug self.
Proof. unfold debug_log. now destruct (_debug_log_file self). Qed.

Lemma resume_without_debug self sent :
  resume_ (without_debug self) sent = erase_log (resume_ self sent).
Proof.
  unfold resume. change (frame (without_debug self)) with (frame self).
  destruct (frame self) as [|sequence h|sequence h|].
  - destruct self as [s md n lx ly [written|] eof fr]; simpl;
      destruct (String.eqb sent ESC); try reflexivity;
      destruct (get_ansi_sequence sent); reflexivity.
  - destruct (str_truthy sent); reflexivity.
  - destruct self as [s md n lx ly log eof fr].
    assert (E : forall a b,
      without_debug (debug_log (debug_log
        (Build_XTermParser s md n lx ly log eof fr) a) b) =
      Build_XTermParser s md n lx ly None eof fr)
      by (intros; now rewrite !without_debug_debug_log).
    destruct log as [written|]; simpl;
      (destruct (get_ansi_sequence (sequence ++ sent)); [reflexivity|]);
      (destruct (re_mouse_event_match (sequence ++ sent)) as [code|]; [|reflexivity]);
      unfold parse_mouse_code;
      (destruct (re_sgr_mouse_match code) as [[[[sb sx] sy] st]|]; [|reflexivity]);
      (destruct (py_int sb); [|reflexivity]);
      (destruct (py_int sx); [|reflexivity]);
      (destruct (py_int sy); reflexivity).
  - reflexivity.
Qed.

Lemma settle_peek_without_debug self data :
  settle_peek_ (without_debug self) data = erase_log (settle_peek_ self data).
Proof.
  unfold settle_peek. change (frame (without_debug self)) with (frame self).
  destruct (awaiting (frame self)) as [[[|]|]|]; try reflexivity.
  apply resume_without_debug.
Qed.

Lemma feed_without_debug data : forall self,
  feed_ (without_debug self) data = erase_log (feed_ self data).
Proof.
  induction data as [|c rest IH]; intros self.
  - apply settle_peek_without_debug.
  - cbn [feed]. rewrite settle_peek_without_debug.
    destruct (settle_peek_ self (String c rest)) as [[ev1 self1]|e]; [|reflexivity].
    cbn [erase_log bind]. change (frame (without_debug self1)) with (frame self1).
    destruct (awaiting (frame self1)) as [[[|]|]|]; try reflexivity.
    rewrite resume_without_debug.
    destruct (resume_ self1 (String c "")) as [[ev2 self2]|e]; [|reflexivity].
    cbn [erase_log bind]. rewrite IH.
    destruct (feed_ self2 rest) as [[ev3 self3]|e]; reflexivity.
Qed.

Lemma feed_all_without_debug deliveries : forall self,
  feed_all_ (without_debug self) deliveries = erase_log (feed_all_ self deliveries).
Proof.
  induction deliveries as [|data more IH]; intros self; [reflexivity|].
  cbn [feed_all]. rewrite feed_without_debug.
  destruct (feed_ self data) as [[ev1 self1]|e]; [|reflexivity].
  cbn [erase_log bind]. rewrite IH.
  destruct (feed_all_ self1 more) as [[ev2 self2]|e]; reflexivity.
Qed.

Lemma events_of_erase_log (r : outcome (list (Event MessageTarget) * XTermParser MessageTarget)) :
  events_of (erase_log r) = events_of r.
Proof. now destruct r as [[ev self]|e]. Qed.

(** *** The position follows the events *)

Lemma track_app (pos : Z * Z) (ev1 ev2 : list (Event MessageTarget)) :
  track pos (ev1 ++ ev2)%list = track (track pos ev1) ev2.
Proof. apply fold_left_app. Qed.

Lemma track_keys (pos : Z * Z) (target : MessageTarget) (keys : list string) :
  track pos (map (Key target) keys) = pos.
Proof. induction keys as [|k ks IH]; [reflexivity|exact IH]. Qed.

Lemma debug_log_fields self args :
  let self' := debug_log self args in
  sender self' = sender self /\ more_data self' = more_data self /\
  more_data_calls self' = more_data_calls self /\
  last_x self' = last_x self /\ last_y self' = last_y self /\
  is_eof self' = is_eof self /\ frame self' = frame self.
Proof. unfold debug_log. destruct (_debug_log_file self); simpl; repeat split. Qed.

Lemma step_ok_refl self : step_ok self [] self.
Proof. repeat split. Qed.

Lemma step_ok_trans self1 ev1 self2 ev2 self3 :
  step_ok self1 ev1 self2 -> step_ok self2 ev2 self3 ->
  step_ok self1 (ev1 ++ ev2)%list self3.
Proof.
  intros (P1 & S1 & M1 & E1) (P2 & S2 & M2 & E2).
  repeat split; try congruence. rewrite track_app. congruence.
Qed.

(** Whatever a step emits, the position follows it. *)
Lemma resume_step_ok self sent ev self' :
  resume_ self sent = Returned (ev, self') -> step_ok self ev self'.
Proof.
  unfold resume.
  destruct (frame self) as [|sequence h|sequence h|] eqn:Ef; [| | |discriminate].
  - destruct (debug_log_fields self ["character=" ++ repr sent])
      as (S1 & M1 & _ & X1 & Y1 & E1 & _).
    set (self1 := debug_log self ["character=" ++ repr sent]) in *.
    cbn [call_more_data].
    destruct (String.eqb sent ESC).
    + intros [= <- <-].
      unfold step_ok, MouseState; cbn. rewrite X1, Y1. auto.
    + destruct (get_ansi_sequence sent) as [keys|]; intros [= <- <-].
      * unfold step_ok, MouseState, key_events; cbn. rewrite track_keys, X1, Y1. auto.
      * unfold step_ok, MouseState; cbn. rewrite X1, Y1. auto.
  - destruct (str_truthy sent); intros [= <- <-]; repeat split.
  - set (a1 := ["sequence=" ++ repr (sequence ++ sent)]).
    set (a2 := ["matched ansi sequences: " ++ str_keys (get_ansi_sequence (sequence ++ sent))]).
    destruct (debug_log_fields self a1) as (S1 & M1 & _ & X1 & Y1 & E1 & _).
    destruct (debug_log_fields (debug_log self a1) a2) as (S2 & M2 & _ & X2 & Y2 & E2 & _).
    cbv zeta in *.
    set (self2 := debug_log (debug_log self a1) a2) in *.
    assert (Hbase : step_ok self [] self2).
    { unfold step_ok, MouseState. cbn. repeat split; congruence. }
    destruct (get_ansi_sequence (sequence ++ sent)) as [keys|].
    + intros [= <- <-].
      unfold step_ok, MouseState, key_events in *; cbn. rewrite track_keys.
      cbn in Hbase. exact Hbase.
    + destruct (re_mouse_event_match (sequence ++ sent)) as [code|].
      * destruct (parse_mouse_code self2 code (sender self2)) as [[self3 event]|e] eqn:Hp;
          cbn [bind]; [|discriminate].
        destruct (parse_mouse_code_fields _ self2 code (sender self2) self3 event Hp)
          as (Ht & S3 & M3 & _ & _ & E3 & _).
        assert (Hstep : step_ok self2
                  (match event with Some e => [e] | None => [] end) self3)
          by (repeat split; assumption).
        pose proof (step_ok_trans _ _ _ _ _ Hbase Hstep) as Hall. cbn [List.app] in Hall.
        destruct event as [e|]; intros [= <- <-];
          unfold step_ok, MouseState, loop_top in *; cbn in *; exact Hall.
      * intros [= <- <-].
        unfold step_ok, MouseState in *; cbn in *. exact Hbase.
Qed.

Lemma awaiting_not_finished (f : Frame) (v : Yielded) :
  awaiting f = Some v -> f <> Finished.
Proof. now destruct f. Qed.

Lemma settle_peek_step_ok self data ev self' :
  settle_peek_ self data = Returned (ev, self') -> step_ok self ev self'.
Proof.
  unfold settle_peek.
  destruct (awaiting (frame self)) as [[[|]|]|];
    try (intros [= <- <-]; apply step_ok_refl).
  apply resume_step_ok.
Qed.

Lemma feed_step_ok data : forall self ev self',
  feed_ self data = Returned (ev, self') -> step_ok self ev self'.
Proof.
  induction data as [|c rest IH]; intros self ev self' H.
  - exact (settle_peek_step_ok self "" ev self' H).
  - cbn [feed] in H.
    destruct (settle_peek_ self (String c rest)) as [[ev1 self1]|e] eqn:H1; [|discriminate].
    cbn [bind] in H. apply settle_peek_step_ok in H1.
    destruct (awaiting (frame self1)) as [[[|]|]|];
      try (injection H as <- <-; exact H1).
    destruct (resume_ self1 (String c "")) as [[ev2 self2]|e] eqn:H2; [|discriminate].
    cbn [bind] in H. apply resume_step_ok in H2.
    destruct (feed_ self2 rest) as [[ev3 self3]|e] eqn:H3; [|discriminate].
    cbn [bind] in H. injection H as <- <-. apply IH in H3.
    eapply step_ok_trans; [exact H1|]. eapply step_ok_trans; eassumption.
Qed.

Lemma feed_all_step_ok deliveries : forall self ev self',
  feed_all_ self deliveries = Returned (ev, self') -> step_ok self ev self'.
Proof.
  induction deliveries as [|data more IH]; intros self ev self' H.
  - injection H as <- <-. apply step_ok_refl.
  - cbn [feed_all] in H.
    destruct (feed_ self data) as [[ev1 self1]|e] eqn:H1; [|discriminate].
    cbn [bind] in H. apply feed_step_ok in H1.
    destruct (feed_all_ self1 more) as [[ev2 self2]|e] eqn:H2; [|discriminate].
    cbn [bind] in H. injection H as <- <-. apply IH in H2.
    eapply step_ok_trans; eassumption.
Qed.

(** *** The one failure that can reach the driver *)

(** A step of a generator that has not returned raises nothing but the
    [ValueError] of [int], and only from [parse_mouse_code]. *)
Lemma resume_raises self sent e :
  resume_ self sent = Raised e ->
  (e = StopIteration /\ frame self = Finished) \/
  (e = ValueError /\ exists sequence h,
     frame self = AtRead1Seq sequence h /\
     within_int_limit (sequence ++ sent) = false).
Proof.
  unfold resume.
  destruct (frame self) as [|sequence h|sequence h|] eqn:Ef.
  - cbn [call_more_data]. destruct (String.eqb sent ESC); [discriminate|].
    destruct (get_ansi_sequence sent); discriminate.
  - destruct (str_truthy sent); discriminate.
  - destruct (get_ansi_sequence (sequence ++ sent)) as [keys|]; [discriminate|].
    unfold re_mouse_event_match.
    destruct (fullmatch _re_mouse_event (sequence ++ sent)); [|discriminate].
    set (self2 := debug_log (debug_log self _) _).
    destruct (parse_mouse_code self2 (sequence ++ sent) (sender self2))
      as [[self3 [ev|]]|e'] eqn:Hp; cbn [bind]; try discriminate.
    intros [= <-]. right. split; [exact (parse_mouse_code_raises _ _ _ _ _ Hp)|].
    exists sequence, h. split; [reflexivity|].
    destruct (within_int_limit (sequence ++ sent)) eqn:L; [|reflexivity].
    destruct (parse_mouse_code_returns _ self2 (sequence ++ sent) (sender self2) L)
      as (s' & ev' & Hr).
    congruence.
  - intros [= <-]. now left.
Qed.

(** *** Escape attempts over buffered input *)

(** A step from [AtPeek] with input buffered, then the read it asked for. *)
Lemma feed_AtPeek_cons self sequence h c rest :
  frame self = AtPeek sequence h ->
  feed_ self (String c rest) =
  ('(ev2, self2) <- resume_ (set_frame self (AtRead1Seq sequence h)) (String c "") ;;
   '(ev3, self3) <- feed_ self2 rest ;;
   Returned ((ev2 ++ ev3)%list, self3)).
Proof.
  intros Hf. cbn [feed]. unfold settle_peek. rewrite Hf. cbn [awaiting py_or truthy].
  unfold resume at 1. rewrite Hf. cbn [str_truthy bind frame set_frame awaiting].
  destruct (resume_ (set_frame self (AtRead1Seq sequence h)) (String c "")) as [[ev2 self2]|e];
    [|reflexivity].
  cbn [bind]. destruct (feed_ self2 rest) as [[ev3 self3]|e]; reflexivity.
Qed.

Lemma feed_top_nil self :
  feed_ (loop_top self) "" = Returned ([], loop_top self).
Proof.
  cbn [feed]. unfold settle_peek, loop_top. cbn.
  now destruct (is_eof self).
Qed.

Lemma same_instance_trans self1 self2 self3 :
  same_instance self1 self2 -> same_instance self2 self3 -> same_instance self1 self3.
Proof.
  intros (A1 & A2 & A3 & A4 & A5) (B1 & B2 & B3 & B4 & B5).
  repeat split; congruence.
Qed.

Lemma same_instance_debug_log self args : same_instance self (debug_log self args).
Proof. unfold debug_log. destruct (_debug_log_file self); repeat split. Qed.

Lemma same_instance_set_frame self f : same_instance self (set_frame self f).
Proof. repeat split. Qed.

(** The three ways a read inside an escape attempt can end. *)
Lemma resume_AtRead1Seq_key self sequence h sent keys :
  frame self = AtRead1Seq sequence h ->
  get_ansi_sequence (sequence ++ sent) = Some keys ->
  exists self', same_instance self self' /\
    resume_ self sent = Returned (key_events self keys, loop_top self').
Proof.
  intros Hf Hk. unfold resume. rewrite Hf, Hk.
  set (self' := debug_log (debug_log self _) _).
  assert (Hs : same_instance self self')
    by (eapply same_instance_trans; apply same_instance_debug_log).
  exists self'. split; [exact Hs|].
  unfold key_events. destruct Hs as (-> & _). reflexivity.
Qed.

Lemma resume_AtRead1Seq_mouse self sequence h sent :
  frame self = AtRead1Seq sequence h ->
  get_ansi_sequence (sequence ++ sent) = None ->
  fullmatch _re_mouse_event (sequence ++ sent) = true ->
  exists self', same_instance self self' /\
    resume_ self sent =
    ('(self3, event) <- parse_mouse_code self' (sequence ++ sent) (sender self) ;;
     Returned (match event with Some e => [e] | None => [] end, loop_top self3)).
Proof.
  intros Hf Hk Hm. unfold resume, re_mouse_event_match. rewrite Hf, Hk, Hm.
  set (self' := debug_log (debug_log self _) _).
  assert (Hs : same_instance self self')
    by (eapply same_instance_trans; apply same_instance_debug_log).
  exists self'. split; [exact Hs|].
  destruct Hs as (-> & _).
  destruct (parse_mouse_code self' (sequence ++ sent) (sender self)) as [[self3 [e|]]|];
    reflexivity.
Qed.

Lemma resume_AtRead1Seq_unresolved self sequence h sent :
  frame self = AtRead1Seq sequence h ->
  resolves_ (sequence ++ sent) = false ->
  exists self', same_instance self self' /\
    resume_ self sent = Returned ([], set_frame self' (AtPeek (sequence ++ sent) h)).
Proof.
  intros Hf Hr. unfold resolves in Hr. unfold resume, re_mouse_event_match. rewrite Hf.
  destruct (get_ansi_sequence (sequence ++ sent)); [discriminate|]. rewrite Hr.
  eexists. split; [|reflexivity].
  eapply same_instance_trans; apply same_instance_debug_log.
Qed.

Lemma unresolved_before_cons sequence c c2 r2 :
  unresolved_before_ sequence (String c (String c2 r2)) =
  negb (resolves_ (sequence ++ String c "")) &&
  unresolved_before_ (sequence ++ String c "") (String c2 r2).
Proof. reflexivity. Qed.

(** What [unresolved_before] says: splitting [rest] into a non-empty
    prefix and a non-empty remainder, the sequence extended by the prefix
    is neither a key of the table nor a full match of [_re_mouse_event]. *)
Lemma unresolved_before_spec rest : forall sequence,
  unresolved_before_ sequence rest = true <->
  (forall t u, rest = (t ++ u)%string -> t <> "" -> u <> "" ->
               resolves_ (sequence ++ t) = false).
Proof.
  induction rest as [|c r IH]; intros sequence.
  - split; [|reflexivity]. intros _ t u E Ht _.
    symmetry in E. apply append_eq_nil in E. now destruct E.
  - destruct r as [|c2 r2].
    + split; [|reflexivity]. intros _ t u E Ht Hu.
      destruct t as [|a t]; [congruence|]. simpl in E. injection E as _ E.
      symmetry in E. apply append_eq_nil in E. now destruct E.
    + rewrite unresolved_before_cons, andb_true_iff, negb_true_iff, IH. split.
      * intros [H1 H2] t u E Ht Hu.
        destruct t as [|a t]; [congruence|]. simpl in E. injection E as <- E.
        destruct t as [|a' t'].
        -- exact H1.
        -- specialize (H2 (String a' t') u E ltac:(discriminate) Hu).
           rewrite append_assoc in H2. exact H2.
      * intros H. split.
        -- apply (H (String c "") (String c2 r2)); [reflexivity|discriminate|discriminate].
        -- intros t u E Ht Hu. rewrite append_assoc.
           apply (H (String c t) u); [simpl; now rewrite E|discriminate|exact Hu].
Qed.

(** Buffered input whose proper prefixes resolve nothing is consumed up
    to its last character, which is then read from [AtRead1Seq]. *)
Lemma feed_escape_scan rest : forall sequence self h,
  frame self = AtPeek sequence h ->
  rest <> "" ->
  unresolved_before_ sequence rest = true ->
  exists self2 pending c,
    same_instance self self2 /\
    frame self2 = AtRead1Seq pending h /\
    (pending ++ String c "")%string = (sequence ++ rest)%string /\
    feed_ self rest =
    ('(ev2, self3) <- resume_ self2 (String c "") ;;
     '(ev3, self4) <- feed_ self3 "" ;;
     Returned ((ev2 ++ ev3)%list, self4)).
Proof.
  induction rest as [|c r IH]; intros sequence self h Hf Hne Hu; [congruence|].
  rewrite (@feed_AtPeek_cons self sequence h c r Hf).
  destruct r as [|c2 r2].
  - exists (set_frame self (AtRead1Seq sequence h)), sequence, c.
    repeat split.
  - rewrite unresolved_before_cons in Hu. apply andb_prop in Hu. destruct Hu as [Hn Hu].
    apply negb_true_iff in Hn.
    destruct (@resume_AtRead1Seq_unresolved
                (set_frame self (AtRead1Seq sequence h)) sequence h (String c "")
                eq_refl Hn) as (self1 & Hs1 & ->).
    cbn [bind].
    destruct (IH (sequence ++ String c "")%string
                 (set_frame self1 (AtPeek (sequence ++ String c "") h)) h
                 eq_refl ltac:(discriminate) Hu)
      as (self2 & pending & c' & Hs2 & Hf2 & Hp & ->).
    exists self2, pending, c'. split; [|split; [|split]].
    + eapply same_instance_trans; [|exact Hs2].
      eapply same_instance_trans; [apply same_instance_set_frame|].
      eapply same_instance_trans; [exact Hs1|apply same_instance_set_frame].
    + exact Hf2.
    + rewrite Hp. rewrite append_assoc. reflexivity.
    + destruct (resume_ self2 (String c' "")) as [[ev2 self3]|e]; [|reflexivity].
      cbn [bind]. destruct (feed_ self3 "") as [[ev3 self4]|e]; reflexivity.
Qed.

(** Reading ESC at the top level opens an escape attempt. *)
Lemma resume_AtRead1_ESC self :
  frame self = AtRead1 ->
  exists self1, same_instance self self1 /\
    resume_ self ESC =
    Returned ([], set_frame self1 (AtPeek ESC (more_data self (more_data_calls self)))).
Proof.
  intros Hf. unfold resume. rewrite Hf.
  destruct (same_instance_debug_log self ["character=" ++ repr ESC])
    as (S1 & M1 & X1 & Y1 & E1).
  assert (C1 : more_data_calls (debug_log self ["character=" ++ repr ESC]) =
               more_data_calls self)
    by apply debug_log_fields.
  cbn [call_more_data]. rewrite String.eqb_refl, M1, C1.
  eexists. split; [|reflexivity]. repeat split; assumption.
Qed.

Lemma feed_ESC_cons self rest :
  frame self = AtRead1 ->
  exists self1 h, same_instance self self1 /\ frame self1 = AtPeek ESC h /\
    h = more_data self (more_data_calls self) /\
    feed_ self (String ESC_char rest) = feed_ self1 rest.
Proof.
  intros Hf. destruct (resume_AtRead1_ESC self Hf) as (self1 & Hs & Hr).
  exists (set_frame self1 (AtPeek ESC (more_data self (more_data_calls self)))),
    (more_data self (more_data_calls self)).
  split; [|split; [reflexivity|split; [reflexivity|]]].
  - eapply same_instance_trans; [exact Hs|apply same_instance_set_frame].
  - cbn [feed]. unfold settle_peek. rewrite Hf. cbn [awaiting bind].
    rewrite Hf. cbn [awaiting]. change (String ESC_char "") with ESC. rewrite Hr.
    cbn [bind]. destruct (feed_ _ rest) as [[ev3 self3]|e]; reflexivity.
Qed.

Lemma frame_loop_top self : frame (loop_top self) = if is_eof self then Finished else AtRead1.
Proof. reflexivity. Qed.

(** A buffered escape sequence that is a key of the table, no proper
    prefix of which resolves the attempt. *)
Lemma feed_escape_key self rest keys :
  frame self = AtRead1 ->
  rest <> "" ->
  unresolved_before_ ESC rest = true ->
  get_ansi_sequence (String ESC_char rest) = Some keys ->
  exists self', same_instance self self' /\
    feed_ self (String ESC_char rest) = Returned (key_events self keys, loop_top self').
Proof.
  intros Hf Hne Hu Hk.
  destruct (@feed_ESC_cons self rest Hf) as (self1 & h & Hs1 & Hf1 & _ & ->).
  destruct (@feed_escape_scan rest ESC self1 h Hf1 Hne Hu)
    as (self2 & pending & c & Hs2 & Hf2 & Hp & ->).
  change (ESC ++ rest)%string with (String ESC_char rest) in Hp.
  rewrite <- Hp in Hk.
  destruct (@resume_AtRead1Seq_key self2 pending h (String c "") keys Hf2 Hk)
    as (self3 & Hs3 & ->).
  cbn [bind]. rewrite feed_top_nil. cbn [bind]. rewrite app_nil_r.
  pose proof (same_instance_trans _ _ _ Hs1 Hs2) as Hs12.
  exists self3. split.
  - eapply same_instance_trans; eassumption.
  - unfold key_events. destruct Hs12 as (-> & _). reflexivity.
Qed.

(** A buffered escape sequence that is no key of the table but a full
    match of [_re_mouse_event]: [parse_mouse_code] decides. *)
Lemma feed_escape_mouse self rest :
  frame self = AtRead1 ->
  rest <> "" ->
  unresolved_before_ ESC rest = true ->
  get_ansi_sequence (String ESC_char rest) = None ->
  fullmatch _re_mouse_event (String ESC_char rest) = true ->
  exists self2, same_instance self self2 /\
    feed_ self (String ESC_char rest) =
    ('(self3, event) <- parse_mouse_code self2 (String ESC_char rest) (sender self) ;;
     Returned (match event with Some e => [e] | None => [] end, loop_top self3)).
Proof.
  intros Hf Hne Hu Hk Hm.
  destruct (@feed_ESC_cons self rest Hf) as (self1 & h & Hs1 & Hf1 & _ & ->).
  destruct (@feed_escape_scan rest ESC self1 h Hf1 Hne Hu)
    as (self2 & pending & c & Hs2 & Hf2 & Hp & ->).
  change (ESC ++ rest)%string with (String ESC_char rest) in Hp.
  rewrite <- Hp in Hk, Hm.
  destruct (@resume_AtRead1Seq_mouse self2 pending h (String c "") Hf2 Hk Hm)
    as (self3 & Hs3 & ->).
  pose proof (same_instance_trans _ _ _ Hs1 Hs2) as Hs12.
  exists self3. split; [eapply same_instance_trans; eassumption|].
  rewrite Hp. destruct Hs12 as (-> & _).
  destruct (parse_mouse_code self3 (String ESC_char rest) (sender self))
    as [[self4 event]|e]; [|reflexivity].
  cbn [bind]. rewrite feed_top_nil. cbn [bind]. now rewrite app_nil_r.
Qed.

(** *** The availability check *)

(** The flag returned by [more_data] is the right operand of an [or]
    whose left operand, a request object, is true: the value yielded at
    the check is always the [PeekBuffer] request. *)
Lemma peek_request_yielded sequence has_more_data :
  awaiting (AtPeek sequence has_more_data) = Some (YAwaitable PeekBuffer).
Proof. reflexivity. Qed.

(** So the attempt goes on exactly when the answer to that request is a
    non-empty string. *)
Lemma resume_AtPeek self sequence has_more_data answer :
  frame self = AtPeek sequence has_more_data ->
  resume_ self answer =
  Returned ([], if has_buffered_input answer
                then set_frame self (AtRead1Seq sequence has_more_data)
                else loop_top self).
Proof.
  intros Hf. unfold resume, has_buffered_input. rewrite Hf.
  now destruct (str_truthy answer).
Qed.

(** In particular the flag has no part in it: the two values of
    [has_more_data] give the same step, the flag carried along apart. *)
Lemma resume_AtPeek_any_flag self sequence answer :
  resume_ (set_frame self (AtPeek sequence true)) answer =
    Returned ([], if has_buffered_input answer
                  then set_frame self (AtRead1Seq sequence true)
                  else loop_top self) /\
  resume_ (set_frame self (AtPeek sequence false)) answer =
    Returned ([], if has_buffered_input answer
                  then set_frame self (AtRead1Seq sequence false)
                  else loop_top self).
Proof.
  split.
  - rewrite (resume_AtPeek (set_frame self (AtPeek sequence true))
               sequence true answer eq_refl).
    now destruct (has_buffered_input answer).
  - rewrite (resume_AtPeek (set_frame self (AtPeek sequence false))
               sequence false answer eq_refl).
    now destruct (has_buffered_input answer).
Qed.

(** *** Table hits *)

(** C6: when the accumulated sequence is a key of the table, the mapped
    Key events are emitted in the table's order and the attempt ends,
    whether or not the sequence also has the shape of a mouse report: the
    last-seen mouse position is left as it was and no mouse event is
    emitted. *)
Theorem table_hit_precedes_mouse_decode self sequence has_more_data sent keys :
  frame self = AtRead1Seq sequence has_more_data ->
  get_ansi_sequence (sequence ++ sent) = Some keys ->
  exists self',
    resume_ self sent = Returned (map (Key (sender self)) keys, self') /\
    MouseState self' = MouseState self /\
    existsb (@is_mouse_event MessageTarget) (map (Key (sender self)) keys) = false /\
    frame self' = (if is_eof self then Finished else AtRead1).
Proof.
  intros Hf Hk.
  destruct (resume_AtRead1Seq_key self sequence has_more_data sent keys Hf Hk)
    as (self1 & (S1 & M1 & X1 & Y1 & E1) & Hr).
  exists (loop_top self1). split; [exact Hr|].
  split; [unfold MouseState; cbn; congruence|].
  split.
  - clear. induction keys as [|k ks IH]; [reflexivity|exact IH].
  - rewrite frame_loop_top. now rewrite E1.
Qed.

(** *** Single characters *)

Lemma eqb_single_ESC c : c <> ESC_char -> String.eqb (String c "") ESC = false.
Proof.
  intros Hc. apply String.eqb_neq. intros [= E]. now apply Hc.
Qed.

(** Reading a character other than ESC at the top level. *)
Lemma resume_AtRead1_plain self c :
  frame self = AtRead1 ->
  c <> ESC_char ->
  exists self1, same_instance self self1 /\
    resume_ self (String c "") =
      Returned (match get_ansi_sequence (String c "") with
                | Some keys => map (Key (sender self)) keys
                | None => [Key (sender self) (String c "")]
                end, loop_top self1).
Proof.
  intros Hf Hc. unfold resume. rewrite Hf, (eqb_single_ESC c Hc).
  cbn [call_more_data].
  destruct (same_instance_debug_log self ["character=" ++ repr (String c "")])
    as (S1 & M1 & X1 & Y1 & E1).
  set (self1 := debug_log self _) in *.
  set (self2 := Build_XTermParser _ _ _ _ _ _ _ _).
  exists self2. split; [repeat split; assumption|].
  unfold key_events. subst self2. cbn [sender]. rewrite S1.
  now destruct (get_ansi_sequence (String c "")).
Qed.

Lemma feed_single_character self c :
  frame self = AtRead1 ->
  is_eof self = false ->
  c <> ESC_char ->
  exists self',
    feed_ self (String c "") =
      Returned (match get_ansi_sequence (String c "") with
                | Some keys => map (Key (sender self)) keys
                | None => [Key (sender self) (String c "")]
                end, self') /\
    decoder_state self' = Idle /\
    MouseState self' = MouseState self.
Proof.
  intros Hf He Hc.
  destruct (resume_AtRead1_plain self c Hf Hc) as (self1 & (S1 & M1 & X1 & Y1 & E1) & Hr).
  exists (loop_top self1). split.
  - cbn [feed]. unfold settle_peek at 1. rewrite Hf. cbn [awaiting bind].
    rewrite Hf. cbn [awaiting]. rewrite Hr. cbn [bind].
    change (settle_peek_ (loop_top self1) "") with (feed_ (loop_top self1) "").
    rewrite feed_top_nil. cbn [bind List.app]. now rewrite app_nil_r.
  - unfold decoder_state, MouseState, loop_top. cbn. rewrite E1, He, X1, Y1. auto.
Qed.

(** C7: a single character other than ESC, read at the top level, emits
    the Key events of its table entry, in the table's order, when it has
    one, and otherwise exactly one Key event named by the character
    itself; the decoder stays in Idle. This holds of the step of the
    generator that reads the character, and of a delivery made of that
    character alone. *)
Theorem single_character_decodes_to_keys self c :
  frame self = AtRead1 ->
  is_eof self = false ->
  c <> ESC_char ->
  (exists self',
     resume_ self (String c "") =
       Returned (match get_ansi_sequence (String c "") with
                 | Some keys => map (Key (sender self)) keys
                 | None => [Key (sender self) (String c "")]
                 end, self') /\
     decoder_state self' = Idle /\
     MouseState self' = MouseState self) /\
  (exists self',
     feed_ self (String c "") =
       Returned (match get_ansi_sequence (String c "") with
                 | Some keys => map (Key (sender self)) keys
                 | None => [Key (sender self) (String c "")]
                 end, self') /\
     decoder_state self' = Idle /\
     MouseState self' = MouseState self).
Proof.
  intros Hf He Hc. split.
  - destruct (resume_AtRead1_plain self c Hf Hc)
      as (self1 & (S1 & M1 & X1 & Y1 & E1) & Hr).
    exists (loop_top self1). split; [exact Hr|].
    unfold decoder_state, MouseState, loop_top. cbn. rewrite E1, He, X1, Y1. auto.
  - apply feed_single_character; assumption.
Qed.

(** *** ESC with nothing after it, and the end of the stream *)

(** A lone ESC delivered to a decoder in Idle, with nothing buffered
    behind it, emits no event: the read emits none and suspends on the
    availability check, whose empty answer ends the attempt; the decoder
    is back at the top-level loop. *)
Lemma lone_ESC_is_dropped self :
  frame self = AtRead1 ->
  exists self', same_instance self self' /\
    feed_ self ESC = Returned ([], loop_top self').
Proof.
  intros Hf.
  destruct (feed_ESC_cons self "" Hf) as (self1 & h & Hs & Hf1 & _ & Hfeed).
  exists self1. split; [exact Hs|].
  change (String ESC_char "") with ESC in Hfeed. rewrite Hfeed.
  cbn [feed]. unfold settle_peek. rewrite Hf1. cbn [awaiting py_or truthy].
  now rewrite (resume_AtPeek self1 ESC h "" Hf1).
Qed.

(** Reading at the top level anything that is not ESC. *)
Lemma resume_AtRead1_not_ESC self sent :
  frame self = AtRead1 ->
  sent <> ESC ->
  exists self1, same_instance self self1 /\
    resume_ self sent =
      Returned (match get_ansi_sequence sent with
                | Some keys => map (Key (sender self)) keys
                | None => [Key (sender self) sent]
                end, loop_top self1).
Proof.
  intros Hf Hc. unfold resume. rewrite Hf.
  apply String.eqb_neq in Hc. rewrite Hc.
  cbn [call_more_data].
  destruct (same_instance_debug_log self ["character=" ++ repr sent])
    as (S1 & M1 & X1 & Y1 & E1).
  set (self1 := debug_log self _) in *.
  set (self2 := Build_XTermParser _ _ _ _ _ _ _ _).
  exists self2. split; [repeat split; assumption|].
  unfold key_events. subst self2. cbn [sender]. rewrite S1.
  now destruct (get_ansi_sequence sent).
Qed.

(** The end of the stream signalled to a decoder in Idle: the sentinel
    answers the read of line 85 and is decoded by lines 110 to 115 as a
    character would be, before the loop condition of line 84 is tested;
    the generator then returns. *)
Lemma end_of_stream_at_idle self :
  frame self = AtRead1 ->
  exists self',
    end_of_stream_ self =
      Returned (match get_ansi_sequence eof_sentinel with
                | Some keys => map (Key (sender self)) keys
                | None => [Key (sender self) eof_sentinel]
                end, self') /\
    frame self' = Finished /\ is_eof self' = true /\
    MouseState self' = MouseState self /\ sender self' = sender self.
Proof.
  intros Hf. unfold end_of_stream.
  set (self0 := set_is_eof self true).
  assert (Hf0 : frame self0 = AtRead1) by exact Hf.
  unfold settle_peek at 1. rewrite Hf0. cbn [awaiting bind]. rewrite Hf0. cbn [awaiting].
  destruct (resume_AtRead1_not_ESC self0 eof_sentinel Hf0 ltac:(discriminate))
    as (self1 & (S1 & M1 & X1 & Y1 & E1) & ->).
  cbn [bind]. unfold settle_peek.
  assert (Hfin : frame (loop_top self1) = Finished).
  { rewrite frame_loop_top, E1. reflexivity. }
  rewrite Hfin. cbn [awaiting bind List.app]. rewrite app_nil_r.
  exists (loop_top self1). split; [reflexivity|]. split; [exact Hfin|].
  unfold MouseState. cbn. rewrite E1, X1, Y1. auto.
Qed.

(** Where a step leaves the generator: back at the loop condition of
    line 84, at the availability check, or, when the step answered that
    check, at the read inside the attempt. *)
Lemma resume_next_frame self sent ev self' :
  resume_ self sent = Returned (ev, self') ->
  frame self' = (if is_eof self then Finished else AtRead1) \/
  (exists sequence h, frame self' = AtPeek sequence h) \/
  (exists sequence h, frame self = AtPeek sequence h /\
                      frame self' = AtRead1Seq sequence h).
Proof.
  unfold resume.
  destruct (frame self) as [|sequence h|sequence h|] eqn:Ef; [| | |discriminate].
  - destruct (debug_log_fields self ["character=" ++ repr sent])
      as (_ & _ & _ & _ & _ & E1 & _).
    set (self1 := debug_log self ["character=" ++ repr sent]) in *.
    cbn [call_more_data].
    destruct (String.eqb sent ESC).
    + intros [= _ <-]. right. left. cbn [frame set_frame]. eauto.
    + destruct (get_ansi_sequence sent); intros [= _ <-]; left;
        rewrite frame_loop_top; cbn [is_eof]; now rewrite E1.
  - destruct (str_truthy sent); intros [= _ <-].
    + right. right. exists sequence, h. split; reflexivity.
    + left. apply frame_loop_top.
  - set (a1 := ["sequence=" ++ repr (sequence ++ sent)]).
    set (a2 := ["matched ansi sequences: " ++ str_keys (get_ansi_sequence (sequence ++ sent))]).
    destruct (debug_log_fields self a1) as (_ & _ & _ & _ & _ & E1 & _).
    destruct (debug_log_fields (debug_log self a1) a2) as (_ & _ & _ & _ & _ & E2 & _).
    cbv zeta in *.
    set (self2 := debug_log (debug_log self a1) a2) in *.
    assert (E : is_eof self2 = is_eof self) by congruence.
    destruct (get_ansi_sequence (sequence ++ sent)) as [keys|].
    + intros [= _ <-]. left. rewrite frame_loop_top. now rewrite E.
    + destruct (re_mouse_event_match (sequence ++ sent)) as [code|].
      * destruct (parse_mouse_code self2 code (sender self2)) as [[self3 event]|e] eqn:Hp;
          cbn [bind]; [|discriminate].
        destruct (parse_mouse_code_fields _ self2 code (sender self2) self3 event Hp)
          as (_ & _ & _ & _ & _ & E3 & _).
        destruct event as [e|]; intros [= _ <-]; left;
          rewrite frame_loop_top; now rewrite E3, E.
      * intros [= _ <-]. right. left. cbn [frame set_frame]. eauto.
Qed.

(** The end of the stream always leaves the generator returned, when it
    raises nothing. *)
Lemma end_of_stream_terminates self ev self' :
  end_of_stream_ self = Returned (ev, self') -> frame self' = Finished.
Proof.
  unfold end_of_stream. set (self0 := set_is_eof self true).
  assert (He0 : is_eof self0 = true) by reflexivity.
  assert (Hpeek : forall (s : XTermParser MessageTarget) ev1 s1,
            is_eof s = true ->
            settle_peek_ s "" = Returned (ev1, s1) ->
            is_eof s1 = true /\
            match frame s with
            | AtRead1 | AtRead1Seq _ _ => frame s1 = frame s
            | _ => frame s1 = Finished
            end).
  { intros s ev1 s1 He. unfold settle_peek.
    destruct (frame s) as [|sequence h|sequence h|] eqn:Ef; cbn [awaiting py_or truthy].
    - intros [= _ <-]. auto.
    - rewrite (resume_AtPeek s sequence h "" Ef). cbn [has_buffered_input str_truthy].
      intros [= _ <-]. rewrite frame_loop_top, He. auto.
    - intros [= _ <-]. auto.
    - intros [= _ <-]. auto. }
  destruct (settle_peek_ self0 "") as [[ev1 self1]|e] eqn:H1; [|discriminate].
  cbn [bind]. destruct (Hpeek self0 ev1 self1 He0 H1) as (He1 & Hf1).
  assert (Hread : forall ev2 self2 ev3 self3,
            (frame self1 = AtRead1 \/
             exists sequence h, frame self1 = AtRead1Seq sequence h) ->
            resume_ self1 eof_sentinel = Returned (ev2, self2) ->
            settle_peek_ self2 "" = Returned (ev3, self3) ->
            frame self3 = Finished).
  { intros ev2 self2 ev3 self3 Hfr H2 H3.
    pose proof (resume_step_ok self1 eof_sentinel ev2 self2 H2) as (_ & _ & _ & E2).
    assert (He2 : is_eof self2 = true) by congruence.
    destruct (Hpeek self2 ev3 self3 He2 H3) as (_ & Hf3).
    destruct (resume_next_frame self1 eof_sentinel ev2 self2 H2)
      as [F2|[(sq & h2 & F2)|(sq & h2 & F1 & _)]].
    - rewrite He1 in F2. now rewrite F2 in Hf3.
    - now rewrite F2 in Hf3.
    - destruct Hfr as [Hfr|(sq' & h' & Hfr)]; congruence. }
  destruct (frame self0) as [|sequence h|sequence h|] eqn:Ef0.
  - rewrite Hf1. cbn [awaiting].
    destruct (resume_ self1 eof_sentinel) as [[ev2 self2]|e] eqn:H2; [|discriminate].
    cbn [bind].
    destruct (settle_peek_ self2 "") as [[ev3 self3]|e] eqn:H3; [|discriminate].
    cbn [bind]. intros [= _ <-].
    apply (Hread ev2 self2 ev3 self3); [left; exact Hf1|reflexivity|exact H3].
  - rewrite Hf1. cbn [awaiting]. intros [= _ <-]. exact Hf1.
  - rewrite Hf1. cbn [awaiting].
    destruct (resume_ self1 eof_sentinel) as [[ev2 self2]|e] eqn:H2; [|discriminate].
    cbn [bind].
    destruct (settle_peek_ self2 "") as [[ev3 self3]|e] eqn:H3; [|discriminate].
    cbn [bind]. intros [= _ <-].
    apply (Hread ev2 self2 ev3 self3); [right; eauto|reflexivity|exact H3].
  - rewrite Hf1. cbn [awaiting]. intros [= _ <-]. exact Hf1.
Qed.

(** *** Keys of the table *)

(** C5, amended: a key of the table that is a single character other than
    ESC, or ESC followed by at least one character such that no proper
    prefix of two or more characters is itself a key or a complete mouse
    report, delivered at the top level with the whole sequence buffered,
    emits exactly its Key events in the table's order and leaves the
    decoder in Idle. *)
Theorem table_key_decodes_to_mapped_keys self s keys :
  frame self = AtRead1 ->
  is_eof self = false ->
  get_ansi_sequence s = Some keys ->
  (exists c, s = String c "" /\ c <> ESC_char) \/
  (exists rest, s = String ESC_char rest /\ rest <> "" /\
                unresolved_before_ ESC rest = true) ->
  exists self',
    feed_ self s = Returned (map (Key (sender self)) keys, self') /\
    decoder_state self' = Idle /\
    MouseState self' = MouseState self.
Proof.
  intros Hf He Hk [(c & -> & Hc)|(rest & -> & Hne & Hu)].
  - destruct (feed_single_character self c Hf He Hc) as (self' & Hr & Hd).
    rewrite Hk in Hr. exists self'. split; assumption.
  - destruct (feed_escape_key self rest keys Hf Hne Hu Hk)
      as (self1 & (S1 & M1 & X1 & Y1 & E1) & Hr).
    exists (loop_top self1). split; [exact Hr|].
    unfold decoder_state, MouseState, loop_top; cbn. rewrite E1, He, X1, Y1. auto.
Qed.

(** *** Mouse reports *)

(** C1, amended: a report whose button field has bit 0x40 set, and whose
    three fields are within the limit of [int], decodes to a wheel
    event, MouseScrollDown when [(B + 1) & 3] is 1 and MouseScrollUp
    otherwise, at the 0-based position; this holds of
    [parse_mouse_code], and of a buffered report fed at the top level
    when no prefix of it is a key of the table. *)
Theorem wheel_report_direction self sb sx sy st :
  Z.land (int_acc 0 sb) 64 <> 0 ->
  within_int_limit sb = true -> within_int_limit sx = true ->
  within_int_limit sy = true ->
  (forall code target,
     re_sgr_mouse_match code = Some (sb, sx, sy, st) ->
     parse_mouse_code self code target =
       Returned (set_last self (int_acc 0 sx - 1) (int_acc 0 sy - 1),
                 Some ((if Z.land (int_acc 0 sb + 1) 3 =? 1
                        then MouseScrollDown else MouseScrollUp)
                         target (int_acc 0 sx - 1) (int_acc 0 sy - 1)))) /\
  (forall rest,
     frame self = AtRead1 ->
     rest <> "" ->
     unresolved_before_ ESC rest = true ->
     get_ansi_sequence (String ESC_char rest) = None ->
     fullmatch _re_mouse_event (String ESC_char rest) = true ->
     re_sgr_mouse_match (String ESC_char rest) = Some (sb, sx, sy, st) ->
     events_of (feed_ self (String ESC_char rest)) =
       Returned [(if Z.land (int_acc 0 sb + 1) 3 =? 1
                  then MouseScrollDown else MouseScrollUp)
                   (sender self) (int_acc 0 sx - 1) (int_acc 0 sy - 1)]).
Proof.
  intros Hbit Lb Lx Ly.
  assert (Hw : py_bool (Z.land (int_acc 0 sb) 64) = true)
    by (unfold py_bool; apply negb_true_iff, Z.eqb_neq; exact Hbit).
  split.
  - intros code target Hm.
    apply (parse_mouse_code_wheel _ self code target sb sx sy st Hm Lb Lx Ly Hw).
  - intros rest Hf Hne Hu Hk Hfm Hm.
    destruct (feed_escape_mouse self rest Hf Hne Hu Hk Hfm) as (self2 & _ & ->).
    rewrite (parse_mouse_code_wheel _ self2 _ (sender self) sb sx sy st Hm Lb Lx Ly Hw).
    reflexivity.
Qed.

(** What a buffered button or motion report leaves behind. *)
Lemma feed_button_report self rest sb sx sy st :
  frame self = AtRead1 ->
  rest <> "" ->
  unresolved_before_ ESC rest = true ->
  get_ansi_sequence (String ESC_char rest) = None ->
  fullmatch _re_mouse_event (String ESC_char rest) = true ->
  re_sgr_mouse_match (String ESC_char rest) = Some (sb, sx, sy, st) ->
  within_int_limit sb = true -> within_int_limit sx = true ->
  within_int_limit sy = true ->
  py_bool (Z.land (int_acc 0 sb) 64) = false ->
  exists self',
    feed_ self (String ESC_char rest) =
      Returned ([(if py_bool (Z.land (int_acc 0 sb) 32) then MouseMove
                  else if String.eqb st "M" then MouseDown else MouseUp)
                   (sender self)
                   {| x := int_acc 0 sx - 1; y := int_acc 0 sy - 1;
                      delta_x := int_acc 0 sx - 1 - last_x self;
                      delta_y := int_acc 0 sy - 1 - last_y self;
                      button := Z.land (int_acc 0 sb + 1) 3;
                      shift := py_bool (Z.land (int_acc 0 sb) 4);
                      meta := py_bool (Z.land (int_acc 0 sb) 8);
                      ctrl := py_bool (Z.land (int_acc 0 sb) 16);
                      screen_x := int_acc 0 sx - 1;
                      screen_y := int_acc 0 sy - 1 |}], self') /\
    frame self' = (if is_eof self then Finished else AtRead1) /\
    MouseState self' = (int_acc 0 sx - 1, int_acc 0 sy - 1) /\
    sender self' = sender self /\ is_eof self' = is_eof self.
Proof.
  intros Hf Hne Hu Hk Hfm Hm Lb Lx Ly Hw.
  destruct (feed_escape_mouse self rest Hf Hne Hu Hk Hfm)
    as (self2 & (S2 & M2 & X2 & Y2 & E2) & ->).
  rewrite (parse_mouse_code_button _ self2 _ (sender self) sb sx sy st Hm Lb Lx Ly Hw).
  cbn [bind]. rewrite X2, Y2. eexists. split; [reflexivity|].
  unfold MouseState, loop_top; cbn. rewrite E2, S2. auto.
Qed.

(** With no key of the table in the way, only the shape of the sequence
    decides whether an attempt goes on. *)
Lemma no_key_from_unresolved rest : forall sequence,
  no_key_from_ sequence rest = true ->
  unresolved_before empty_table sequence rest = true ->
  unresolved_before_ sequence rest = true.
Proof.
  induction rest as [|c r IH]; intros sequence Hn Hu; [reflexivity|].
  destruct r as [|c2 r2]; [reflexivity|].
  rewrite unresolved_before_cons.
  change (unresolved_before empty_table sequence (String c (String c2 r2)))
    with (negb (resolves empty_table (sequence ++ String c "")) &&
          unresolved_before empty_table (sequence ++ String c "") (String c2 r2))
    in Hu.
  apply andb_prop in Hu. destruct Hu as [Hr Hu].
  cbn [no_key_from] in Hn. unfold resolves in *. cbn [empty_table] in Hr.
  destruct (get_ansi_sequence (sequence ++ String c "")); [discriminate|].
  rewrite Hr. cbn [andb]. apply IH; assumption.
Qed.

Lemma no_key_from_whole rest : forall sequence,
  rest <> "" ->
  no_key_from_ sequence rest = true ->
  get_ansi_sequence (sequence ++ rest) = None.
Proof.
  induction rest as [|c r IH]; intros sequence Hne Hn; [congruence|].
  cbn [no_key_from] in Hn.
  destruct (get_ansi_sequence (sequence ++ String c "")) eqn:Hk; [discriminate|].
  destruct r as [|c2 r2]; [exact Hk|].
  change (sequence ++ String c (String c2 r2))%string
    with (sequence ++ (String c "" ++ String c2 r2))%string.
  rewrite <- append_assoc. apply IH; [discriminate|exact Hn].
Qed.

(** C2, amended: a freshly created decoder fed the buffered report
    [ESC [ < 0 ; 11 ; 21 M], no prefix of which is a key of the table,
    emits MouseDown at column 10, row 20, with deltas 10 and 20 and with
    button [(0 + 1) & 3], that is 1; fed [ESC [ < 0 ; 12 ; 21 m] next, it
    emits MouseUp at column 11, row 20, with deltas 1 and 0. *)
Theorem press_then_release_reports target md debug :
  no_key_from_ ESC "[<0;11;21M" = true ->
  no_key_from_ ESC "[<0;12;21m" = true ->
  exists self1 self2,
    feed_ (new_parser target md debug) (String ESC_char "[<0;11;21M") =
      Returned ([MouseDown target
                   {| x := 10; y := 20; delta_x := 10; delta_y := 20;
                      button := 1; shift := false; meta := false; ctrl := false;
                      screen_x := 10; screen_y := 20 |}], self1) /\
    feed_ self1 (String ESC_char "[<0;12;21m") =
      Returned ([MouseUp target
                   {| x := 11; y := 20; delta_x := 1; delta_y := 0;
                      button := 1; shift := false; meta := false; ctrl := false;
                      screen_x := 11; screen_y := 20 |}], self2) /\
    MouseState self2 = (11, 20).
Proof.
  intros H1 H2.
  destruct (feed_button_report (new_parser target md debug)
              "[<0;11;21M" "0" "11" "21" "M" eq_refl ltac:(discriminate)
              (no_key_from_unresolved _ _ H1 eq_refl)
              (no_key_from_whole "[<0;11;21M" ESC ltac:(discriminate) H1)
              eq_refl eq_refl eq_refl eq_refl eq_refl eq_refl)
    as (self1 & R1 & F1 & P1 & S1 & E1).
  cbn in R1, F1, P1, S1, E1.
  injection P1 as X1 Y1.
  destruct (feed_button_report self1
              "[<0;12;21m" "0" "12" "21" "m" F1 ltac:(discriminate)
              (no_key_from_unresolved _ _ H2 eq_refl)
              (no_key_from_whole "[<0;12;21m" ESC ltac:(discriminate) H2)
              eq_refl eq_refl eq_refl eq_refl eq_refl eq_refl)
    as (self2 & R2 & F2 & P2 & S2 & E2).
  rewrite X1, Y1, S1 in R2. cbn in R2, P2.
  exists self1, self2. repeat split; assumption.
Qed.

(** C3, amended: the event decoded from a report whose three fields are
    within the limit of [int] carries the 0-based column and row; a
    MouseDown, MouseUp or MouseMove event (bit 0x40 clear) also carries
    both deltas, the button identity [(B + 1) & 3] and the shift, meta
    and control flags, whereas a MouseScrollUp or MouseScrollDown event
    (bit 0x40 set) is given the column and the row only. *)
Theorem mouse_event_contents self code target sb sx sy st :
  re_sgr_mouse_match code = Some (sb, sx, sy, st) ->
  within_int_limit sb = true -> within_int_limit sx = true ->
  within_int_limit sy = true ->
  exists e,
    parse_mouse_code self code target =
      Returned (set_last self (int_acc 0 sx - 1) (int_acc 0 sy - 1), Some e) /\
    is_mouse_event e = true /\
    event_x e = Some (int_acc 0 sx - 1) /\
    event_y e = Some (int_acc 0 sy - 1) /\
    if py_bool (Z.land (int_acc 0 sb) 64)
    then event_delta_x e = None /\ event_delta_y e = None /\
         event_button e = None /\ event_modifiers e = None
    else carries_full_report e /\
         event_delta_x e = Some (int_acc 0 sx - 1 - last_x self) /\
         event_delta_y e = Some (int_acc 0 sy - 1 - last_y self) /\
         event_button e = Some (Z.land (int_acc 0 sb + 1) 3) /\
         event_modifiers e = Some (py_bool (Z.land (int_acc 0 sb) 4),
                                   py_bool (Z.land (int_acc 0 sb) 8),
                                   py_bool (Z.land (int_acc 0 sb) 16)).
Proof.
  intros Hm Lb Lx Ly. destruct (py_bool (Z.land (int_acc 0 sb) 64)) eqn:Hw.
  - rewrite (parse_mouse_code_wheel _ self code target sb sx sy st Hm Lb Lx Ly Hw).
    eexists. split; [reflexivity|].
    destruct (Z.land (int_acc 0 sb + 1) 3 =? 1); repeat split.
  - rewrite (parse_mouse_code_button _ self code target sb sx sy st Hm Lb Lx Ly Hw).
    eexists. split; [reflexivity|].
    destruct (py_bool (Z.land (int_acc 0 sb) 32)); [|destruct (String.eqb st "M")];
      unfold carries_full_report; cbn; repeat split; discriminate.
Qed.

(** *** Steps and deliveries that return *)

(** A read at the top level always returns; it leaves no pending
    sequence longer than what was read. *)
Lemma resume_AtRead1_returns self sent :
  frame self = AtRead1 ->
  exists ev self', resume_ self sent = Returned (ev, self') /\
    demands_character self' = false /\
    (String.length (pending_sequence self') <= String.length sent)%nat.
Proof.
  intros Hf. unfold resume. rewrite Hf. cbn [call_more_data].
  destruct (String.eqb sent ESC) eqn:E.
  - eexists _, _. split; [reflexivity|]. split; [reflexivity|].
    unfold pending_sequence. cbn. lia.
  - destruct (get_ansi_sequence sent); eexists _, _; (split; [reflexivity|]);
      unfold demands_character, pending_sequence, loop_top; cbn;
      destruct (is_eof _); split; try reflexivity; cbn; lia.
Qed.

(** A read inside an escape attempt returns when the sequence it
    completes is within the limit of [int]. *)
Lemma resume_AtRead1Seq_returns self sequence h sent :
  frame self = AtRead1Seq sequence h ->
  within_int_limit (sequence ++ sent) = true ->
  exists ev self', resume_ self sent = Returned (ev, self') /\
    demands_character self' = false /\
    (String.length (pending_sequence self') <= String.length (sequence ++ sent))%nat.
Proof.
  intros Hf L. unfold resume. rewrite Hf.
  set (self2 := debug_log (debug_log self _) _).
  assert (Htop : forall s : XTermParser MessageTarget,
            demands_character (loop_top s) = false /\
            (String.length (pending_sequence (loop_top s)) <=
             String.length (sequence ++ sent))%nat).
  { intros s. unfold demands_character, pending_sequence, loop_top. cbn.
    destruct (is_eof s); split; try reflexivity; cbn; lia. }
  destruct (get_ansi_sequence (sequence ++ sent)) as [keys|].
  - eexists _, _. split; [reflexivity|]. apply Htop.
  - unfold re_mouse_event_match.
    destruct (fullmatch _re_mouse_event (sequence ++ sent)).
    + destruct (parse_mouse_code_returns _ self2 (sequence ++ sent) (sender self2) L)
        as (self3 & event & ->).
      cbn [bind]. destruct event; eexists _, _; (split; [reflexivity|]); apply Htop.
    + eexists _, _. split; [reflexivity|]. split; [reflexivity|].
      unfold pending_sequence. cbn. lia.
Qed.

(** A delivery returns when the pending sequence followed by the
    delivery is within the limit of [int]: no field of a report can then
    be beyond it. It leaves no pending sequence. *)
Lemma feed_returns data : forall self,
  demands_character self = false ->
  within_int_limit (pending_sequence self ++ data) = true ->
  exists ev self', feed_ self data = Returned (ev, self') /\
    pending_sequence self' = "" /\ demands_character self' = false.
Proof.
  induction data as [|c rest IH]; intros self Hd L.
  - cbn [feed]. unfold settle_peek.
    unfold demands_character, pending_sequence in *.
    destruct (frame self) as [|sequence h|sequence h|] eqn:Ef; try discriminate.
    + cbn. exists [], self. unfold demands_character, pending_sequence.
      rewrite Ef. auto.
    + cbn [awaiting py_or truthy].
      rewrite (resume_AtPeek self sequence h "" Ef). cbn.
      eexists _, _. split; [reflexivity|].
      unfold demands_character, pending_sequence, loop_top. cbn.
      destruct (is_eof self); auto.
    + cbn. exists [], self. unfold demands_character, pending_sequence.
      rewrite Ef. auto.
  - rewrite within_int_limit_spec, length_append in L. cbn [String.length] in L.
    unfold demands_character in Hd.
    destruct (frame self) as [|sequence h|sequence h|] eqn:Ef; try discriminate.
    + cbn [feed]. unfold settle_peek at 1. rewrite Ef. cbn [awaiting bind].
      rewrite Ef. cbn [awaiting].
      destruct (resume_AtRead1_returns self (String c "") Ef)
        as (ev2 & self2 & -> & D2 & P2).
      cbn [bind]. cbn [String.length] in P2.
      destruct (IH self2 D2) as (ev3 & self3 & -> & P3 & D3).
      { rewrite within_int_limit_spec, length_append. lia. }
      cbn [bind]. eexists _, _. split; [reflexivity|]. auto.
    + rewrite (feed_AtPeek_cons self sequence h c rest Ef).
      unfold pending_sequence in L. rewrite Ef in L.
      destruct (resume_AtRead1Seq_returns (set_frame self (AtRead1Seq sequence h))
                  sequence h (String c "") eq_refl)
        as (ev2 & self2 & -> & D2 & P2).
      { rewrite within_int_limit_spec, length_append. cbn [String.length]. lia. }
      cbn [bind]. rewrite length_append in P2. cbn [String.length] in P2.
      destruct (IH self2 D2) as (ev3 & self3 & -> & P3 & D3).
      { rewrite within_int_limit_spec, length_append. lia. }
      cbn [bind]. eexists _, _. split; [reflexivity|]. auto.
    + cbn [feed]. unfold settle_peek. rewrite Ef. cbn. rewrite Ef. cbn.
      exists [], self. unfold demands_character, pending_sequence.
      rewrite Ef. auto.
Qed.

(** So do successive deliveries none of which is longer than the limit,
    made to a decoder that is not inside an escape attempt. *)
Lemma feed_all_returns deliveries : forall self,
  pending_sequence self = "" ->
  demands_character self = false ->
  Forall (fun data => within_int_limit data = true) deliveries ->
  exists ev self', feed_all_ self deliveries = Returned (ev, self').
Proof.
  induction deliveries as [|data more IH]; intros self Hp Hd Hall.
  - exists [], self. reflexivity.
  - inversion Hall as [|d ds Hdata Hmore]; subst.
    cbn [feed_all].
    destruct (feed_returns data self Hd) as (ev1 & self1 & -> & P1 & D1).
    { now rewrite Hp. }
    cbn [bind].
    destruct (IH self1 P1 D1 Hmore) as (ev2 & self2 & ->).
    cbn [bind]. eauto.
Qed.

Lemma idle_not_pending self :
  decoder_state self = Idle ->
  pending_sequence self = "" /\ demands_character self = false.
Proof.
  unfold decoder_state, pending_sequence, demands_character.
  now destruct (frame self).
Qed.

(** *** The last-seen position *)


(** *** The debug file *)

(** C10: what the decoder emits does not depend on the debug file; a
    step of the generator from an instance without the file is the step
    from the instance with it, the written lines apart, and over any
    deliveries and any answers of [more_data] a decoder created with the
    file and one created without it emit the same events (or end alike). *)
Theorem debug_log_is_transparent :
  (forall self sent,
     resume_ (without_debug self) sent = erase_log (resume_ self sent)) /\
  (forall self deliveries,
     events_of (feed_all_ (without_debug self) deliveries) =
     events_of (feed_all_ self deliveries)) /\
  (forall (target : MessageTarget) md deliveries,
     events_of (feed_all_ (new_parser target md true) deliveries) =
     events_of (feed_all_ (new_parser target md false) deliveries)).
Proof.
  split; [exact resume_without_debug|]. split.
  - intros self deliveries. rewrite feed_all_without_debug. apply events_of_erase_log.
  - intros target md deliveries.
    change (new_parser target md false) with (without_debug (new_parser target md true)).
    rewrite feed_all_without_debug. symmetry. apply events_of_erase_log.
Qed.

End Generator.

(** * The properties on sample inputs *)

(** ** Wheel reports (C1) *)

(** C1 fails as stated: the report with button field 64, whose masked
    button [(64 + 1) & 3] is 1, decodes to MouseScrollDown and not to
    MouseScrollUp, and the report with button field 65 decodes to
    MouseScrollUp and not to MouseScrollDown. *)
Lemma wheel_64_decodes_to_scroll_down :
  Z.land (64 + 1) 3 = 1 /\
  events_of (feed empty_table plain_repr plain_str_keys fresh_decoder
               (String ESC_char "[<64;5;5M")) = Returned [MouseScrollDown tt 4 4] /\
  events_of (feed empty_table plain_repr plain_str_keys fresh_decoder
               (String ESC_char "[<64;5;5M")) <> Returned [MouseScrollUp tt 4 4] /\
  events_of (feed empty_table plain_repr plain_str_keys fresh_decoder
               (String ESC_char "[<65;5;5M")) = Returned [MouseScrollUp tt 4 4] /\
  events_of (feed empty_table plain_repr plain_str_keys fresh_decoder
               (String ESC_char "[<65;5;5M")) <> Returned [MouseScrollDown tt 4 4].
Proof. repeat split; try reflexivity; vm_compute; discriminate. Qed.

(** The two reports of C1 on a table without entries, and the report
    with button field 64 given to [parse_mouse_code]. *)
Lemma wheel_report_direction_witness :
  events_of (feed empty_table plain_repr plain_str_keys fresh_decoder
               (String ESC_char "[<64;5;5M")) = Returned [MouseScrollDown tt 4 4] /\
  events_of (feed empty_table plain_repr plain_str_keys fresh_decoder
               (String ESC_char "[<65;5;5M")) = Returned [MouseScrollUp tt 4 4] /\
  parse_mouse_code fresh_decoder (String ESC_char "[<64;5;5M") tt =
    Returned (set_last fresh_decoder 4 4, Some (MouseScrollDown tt 4 4)).
Proof.
  split; [|split].
  - apply (proj2 (wheel_report_direction unit empty_table plain_repr plain_str_keys
                    fresh_decoder "64" "5" "5" "M" ltac:(vm_compute; discriminate)
                    eq_refl eq_refl eq_refl)
             "[<64;5;5M" eq_refl ltac:(discriminate) eq_refl eq_refl eq_refl eq_refl).
  - apply (proj2 (wheel_report_direction unit empty_table plain_repr plain_str_keys
                    fresh_decoder "65" "5" "5" "M" ltac:(vm_compute; discriminate)
                    eq_refl eq_refl eq_refl)
             "[<65;5;5M" eq_refl ltac:(discriminate) eq_refl eq_refl eq_refl eq_refl).
  - apply (proj1 (wheel_report_direction unit empty_table plain_repr plain_str_keys
                    fresh_decoder "64" "5" "5" "M" ltac:(vm_compute; discriminate)
                    eq_refl eq_refl eq_refl)
             (String ESC_char "[<64;5;5M") tt eq_refl).
Defined.

(** ** Press and release (C2) *)

(** C2 fails as stated: the MouseDown event decoded from
    [ESC [ < 0 ; 11 ; 21 M] has button 1, not button 0. *)
Lemma press_report_has_button_1 :
  events_of (feed empty_table plain_repr plain_str_keys fresh_decoder
               (String ESC_char "[<0;11;21M")) =
    Returned [MouseDown tt {| x := 10; y := 20; delta_x := 10; delta_y := 20;
                              button := 1; shift := false; meta := false;
                              ctrl := false; screen_x := 10; screen_y := 20 |}] /\
  events_of (feed empty_table plain_repr plain_str_keys fresh_decoder
               (String ESC_char "[<0;11;21M")) <>
    Returned [MouseDown tt {| x := 10; y := 20; delta_x := 10; delta_y := 20;
                              button := 0; shift := false; meta := false;
                              ctrl := false; screen_x := 10; screen_y := 20 |}].
Proof. split; [reflexivity|vm_compute; discriminate]. Qed.

(** The two reports of C2 fed in turn to a fresh decoder, on a table
    without entries. *)
Lemma press_then_release_reports_witness :
  exists self1 self2,
    feed empty_table plain_repr plain_str_keys fresh_decoder
         (String ESC_char "[<0;11;21M") =
      Returned ([MouseDown tt
                   {| x := 10; y := 20; delta_x := 10; delta_y := 20;
                      button := 1; shift := false; meta := false; ctrl := false;
                      screen_x := 10; screen_y := 20 |}], self1) /\
    feed empty_table plain_repr plain_str_keys self1
         (String ESC_char "[<0;12;21m") =
      Returned ([MouseUp tt
                   {| x := 11; y := 20; delta_x := 1; delta_y := 0;
                      button := 1; shift := false; meta := false; ctrl := false;
                      screen_x := 11; screen_y := 20 |}], self2) /\
    MouseState self2 = (11, 20).
Proof.
  exact (press_then_release_reports unit empty_table plain_repr plain_str_keys
           tt never_more false eq_refl eq_refl).
Defined.

(** ** What mouse events carry (C3) *)

(** C3 fails as stated: the wheel report [ESC [ < 68 ; 5 ; 5 M], sent
    with shift held (bit 0x04), decodes to a MouseScrollDown event that is
    given the column and row only; it has no delta, button or modifier
    argument, and is the very event decoded from the report with button
    field 64 and no modifier. *)
Lemma wheel_event_carries_position_only :
  py_bool (Z.land 68 4) = true /\
  parse_mouse_code fresh_decoder (String ESC_char "[<68;5;5M") tt =
    Returned (set_last fresh_decoder 4 4, Some (MouseScrollDown tt 4 4)) /\
  events_of (feed empty_table plain_repr plain_str_keys fresh_decoder
               (String ESC_char "[<68;5;5M")) = Returned [MouseScrollDown tt 4 4] /\
  events_of (feed empty_table plain_repr plain_str_keys fresh_decoder
               (String ESC_char "[<64;5;5M")) = Returned [MouseScrollDown tt 4 4] /\
  event_modifiers (MouseScrollDown tt 4 4) = None /\
  event_button (MouseScrollDown tt 4 4) = None /\
  event_delta_x (MouseScrollDown tt 4 4) = None /\
  event_delta_y (MouseScrollDown tt 4 4) = None /\
  ~ carries_full_report (MouseScrollDown tt 4 4).
Proof.
  repeat split; try reflexivity.
  intros (_ & _ & H & _). now apply H.
Qed.

(** A press with shift held, at column 3 and row 9 on the wire. *)
Lemma mouse_event_contents_witness :
  exists e,
    parse_mouse_code fresh_decoder (String ESC_char "[<4;3;9M") tt =
      Returned (set_last fresh_decoder 2 8, Some e) /\
    is_mouse_event e = true /\
    event_x e = Some 2 /\ event_y e = Some 8 /\
    carries_full_report e /\
    event_delta_x e = Some 2 /\ event_delta_y e = Some 8 /\
    event_button e = Some 1 /\
    event_modifiers e = Some (true, false, false).
Proof.
  exact (mouse_event_contents unit fresh_decoder (String ESC_char "[<4;3;9M") tt
           "4" "3" "9" "M" eq_refl eq_refl eq_refl eq_refl).
Defined.

(** ** The availability check (C4) *)

(** C4: the check made before the pending sequence is extended is not
    the disjunction. A decoder whose driver always expects more data is
    fed ESC alone: [more_data] is called and answers true, and the flag
    is held in the frame; the value yielded at line 92 is the
    [PeekBuffer] request, not the flag; the empty answer to it ends the
    attempt although the disjunction of buffered input and the flag
    holds: no further character is demanded and the decoder is back in
    Idle. So the up arrow delivered one character at a time, the driver
    expecting more data after each, is not decoded as the up arrow,
    which it is when delivered whole. *)
Theorem attempt_abandoned_despite_flag :
  more_data eager_decoder (more_data_calls eager_decoder) = true /\
  (exists self1 self2,
     resume sample_table plain_repr plain_str_keys eager_decoder ESC =
       Returned ([], self1) /\
     frame self1 = AtPeek ESC true /\
     awaiting (frame self1) = Some (YAwaitable PeekBuffer) /\
     (has_buffered_input "" || true)%bool = true /\
     resume sample_table plain_repr plain_str_keys self1 "" = Returned ([], self2) /\
     demands_character self2 = false /\
     decoder_state self2 = Idle) /\
  events_of (feed_all sample_table plain_repr plain_str_keys eager_decoder
               [ESC; "["; "A"]) = Returned [Key tt "["; Key tt "A"] /\
  events_of (feed sample_table plain_repr plain_str_keys eager_decoder
               (String ESC_char "[A")) = Returned [Key tt "up"].
Proof.
  split; [reflexivity|]. split; [|split; reflexivity].
  eexists _, _. repeat split.
Qed.

(** ** Table hits (C6) *)

(** The last character of a sequence that is a key of the sample table
    and also a complete SGR report: the key wins, the position stays. *)
Lemma table_hit_precedes_mouse_decode_witness :
  re_mouse_event_match (String ESC_char "[<0;3;4M") = Some (String ESC_char "[<0;3;4M") /\
  re_sgr_mouse_match (String ESC_char "[<0;3;4M") = Some ("0", "3", "4", "M") /\
  exists self',
    resume sample_table plain_repr plain_str_keys
           (set_frame fresh_decoder (AtRead1Seq (String ESC_char "[<0;3;4") false)) "M" =
      Returned (map (Key tt) ["f20"], self') /\
    MouseState self' = (0, 0) /\
    existsb (@is_mouse_event unit) (map (Key tt) ["f20"]) = false /\
    frame self' = AtRead1.
Proof.
  split; [reflexivity|]. split; [reflexivity|].
  exact (table_hit_precedes_mouse_decode unit sample_table plain_repr plain_str_keys
           (set_frame fresh_decoder (AtRead1Seq (String ESC_char "[<0;3;4") false))
           (String ESC_char "[<0;3;4") false "M" ["f20"] eq_refl eq_refl).
Defined.

(** ** Single characters (C7) *)

(** A letter outside the table, and Control-A, which the sample table
    has. *)
Lemma single_character_witness :
  (exists self',
     feed sample_table plain_repr plain_str_keys fresh_decoder "a" =
       Returned ([Key tt "a"], self') /\
     decoder_state self' = Idle /\ MouseState self' = (0, 0)) /\
  (exists self',
     feed sample_table plain_repr plain_str_keys fresh_decoder (String "001"%char "") =
       Returned ([Key tt "ctrl+a"], self') /\
     decoder_state self' = Idle /\ MouseState self' = (0, 0)).
Proof.
  split.
  - exact (proj2 (single_character_decodes_to_keys unit sample_table plain_repr
                    plain_str_keys fresh_decoder "a"%char
                    eq_refl eq_refl ltac:(discriminate))).
  - exact (proj2 (single_character_decodes_to_keys unit sample_table plain_repr
                    plain_str_keys fresh_decoder "001"%char
                    eq_refl eq_refl ltac:(discriminate))).
Defined.

(** ** ESC alone, then the end of the stream (C8) *)

(** C8: ESC delivered alone, the driver expecting no more data, then the
    end of the stream. The ESC emits nothing and the decoder is back in
    Idle; the end of the stream then resumes the read of line 85 with
    the sentinel, which lines 110 to 115 decode as they would a
    character: a Key event with an empty name is emitted before line 84
    ends the loop. The stream as a whole emits one event, not zero. *)
Theorem end_of_stream_after_lone_ESC_emits_a_key :
  never_more 0%nat = false /\
  sample_table eof_sentinel = None /\
  (exists self1 self2,
     feed sample_table plain_repr plain_str_keys fresh_decoder ESC =
       Returned ([], self1) /\
     decoder_state self1 = Idle /\
     end_of_stream sample_table plain_repr plain_str_keys self1 =
       Returned ([Key tt ""], self2) /\
     decoder_state self2 = Terminated) /\
  events_of (feed_to_end sample_table plain_repr plain_str_keys fresh_decoder [ESC]) =
    Returned [Key tt ""] /\
  events_of (feed_to_end sample_table plain_repr plain_str_keys fresh_decoder [ESC]) <>
    Returned [].
Proof.
  split; [reflexivity|]. split; [reflexivity|]. split; [|split].
  - eexists _, _. repeat split.
  - reflexivity.
  - vm_compute. discriminate.
Qed.

(** ** Keys of the table (C5) *)

(** C5 fails as stated: in a table that has ESC itself as a key, feeding
    that key (one character, so "more data expected" is false) emits no
    event at all instead of the mapped Key event. *)
Lemma escape_key_alone_emits_nothing :
  sample_table ESC = Some ["escape"] /\
  never_more 0%nat = false /\
  events_of (feed sample_table plain_repr plain_str_keys fresh_decoder ESC) =
    Returned [] /\
  events_of (feed sample_table plain_repr plain_str_keys fresh_decoder ESC) <>
    Returned (map (Key tt) ["escape"]).
Proof. repeat split; try reflexivity. vm_compute. discriminate. Qed.

(** Two more ways in which a key of the table is not decoded to its
    entry. Delivered one character at a time, with nothing buffered, the
    up-arrow sequence is split although the driver expects more data
    after each character but the last... *)
Example unbuffered_key_is_split :
  sample_table (String ESC_char "[A") = Some ["up"] /\
  events_of (feed_all sample_table plain_repr plain_str_keys eager_decoder
               [ESC; "["; "A"]) = Returned [Key tt "["; Key tt "A"].
Proof. split; reflexivity. Qed.

(** ... and a key with a shorter key as a prefix is never reached. *)
Example longer_key_is_shadowed :
  ambiguous_table (String ESC_char "OP") = Some ["f1"] /\
  events_of (feed ambiguous_table plain_repr plain_str_keys fresh_decoder
               (String ESC_char "OP")) =
    Returned [Key tt "escape"; Key tt "O"; Key tt "P"].
Proof. split; reflexivity. Qed.

(** The up arrow, the two-name entry and Control-A of the sample table,
    each buffered whole. *)
Lemma table_key_witness :
  (exists self',
     feed sample_table plain_repr plain_str_keys fresh_decoder (String ESC_char "[A") =
       Returned (map (Key tt) ["up"], self') /\
     decoder_state self' = Idle /\ MouseState self' = (0, 0)) /\
  (exists self',
     feed sample_table plain_repr plain_str_keys fresh_decoder
          (String ESC_char (String ESC_char "[A")) =
       Returned (map (Key tt) ["escape"; "up"], self') /\
     decoder_state self' = Idle /\ MouseState self' = (0, 0)) /\
  (exists self',
     feed sample_table plain_repr plain_str_keys fresh_decoder (String "001"%char "") =
       Returned (map (Key tt) ["ctrl+a"], self') /\
     decoder_state self' = Idle /\ MouseState self' = (0, 0)).
Proof.
  split; [|split].
  - apply (table_key_decodes_to_mapped_keys unit sample_table plain_repr plain_str_keys
             fresh_decoder (String ESC_char "[A") ["up"] eq_refl eq_refl eq_refl).
    right. exists "[A". repeat split. discriminate.
  - apply (table_key_decodes_to_mapped_keys unit sample_table plain_repr plain_str_keys
             fresh_decoder (String ESC_char (String ESC_char "[A")) ["escape"; "up"]
             eq_refl eq_refl eq_refl).
    right. exists (String ESC_char "[A"). repeat split. discriminate.
  - apply (table_key_decodes_to_mapped_keys unit sample_table plain_repr plain_str_keys
             fresh_decoder (String "001"%char "") ["ctrl+a"] eq_refl eq_refl eq_refl).
    left. exists "001"%char. split; [reflexivity|discriminate].
Defined.

(** ** The last-seen position (C9) *)


(** Sequences with the outer shape of a mouse report that the SGR pattern
    rejects (two fields only, empty fields, no [<], the three-byte form),
    and one with a letter where a number is expected, which no pattern
    accepts. Each ends its attempt with no event and the position
    unchanged. *)
Example rejected_reports_emit_nothing :
  Forall (fun report =>
            exists self',
              feed empty_table plain_repr plain_str_keys
                   (set_last fresh_decoder 7 9) report = Returned ([], self') /\
              MouseState self' = (7, 9) /\ frame self' = AtRead1)
         [String ESC_char "[<1;2M"; String ESC_char "[<;;M";
          String ESC_char "[5;3m"; String ESC_char "[Mabc";
          String ESC_char "[<a;1;2M"].
Proof.
  repeat (apply Forall_cons;
          [eexists; (split; [vm_compute; reflexivity|split; reflexivity])|]).
  apply Forall_nil.
Qed.

(** * Further properties of the decoder *)

(** ** Ranges of what [parse_mouse_code] returns *)

Lemma int_acc_nonneg (s : string) : forall acc,
  all_digits s = true -> 0 <= acc -> 0 <= int_acc acc s.
Proof.
  induction s as [|c s IH]; cbn [int_acc all_digits]; intros acc Hd Ha; [exact Ha|].
  apply andb_prop in Hd. destruct Hd as [Hc Hd]. apply IH; [exact Hd|].
  unfold is_digit in Hc. apply andb_prop in Hc. destruct Hc as [Hlo _].
  apply Nat.leb_le in Hlo. unfold digit_value. lia.
Qed.

Lemma py_int_nonneg (s : string) (n : Z) : py_int s = Returned n -> 0 <= n.
Proof.
  unfold py_int. destruct (str_truthy s && all_digits s)%bool eqn:H; [|discriminate].
  destruct (within_int_limit s); [|discriminate].
  intros [= <-]. apply andb_prop in H. now apply int_acc_nonneg.
Qed.

Lemma land_3_range (n : Z) : 0 <= Z.land n 3 <= 3.
Proof.
  change 3 with (Z.ones 2). rewrite Z.land_ones by lia.
  pose proof (Z.mod_pos_bound n (2 ^ 2) ltac:(lia)). change (Z.ones 2) with 3. lia.
Qed.

(** ** Invariants of the events of a run *)

Section WholeRuns.

Variable MessageTarget : Type.
Variable get_ansi_sequence : string -> option (list string).
Variable repr : string -> string.
Variable str_keys : option (list string) -> string.

Implicit Types (self : XTermParser MessageTarget) (sent data : string).

Local Abbreviation resume_ := (resume get_ansi_sequence repr str_keys).
Local Abbreviation settle_peek_ := (settle_peek get_ansi_sequence repr str_keys).
Local Abbreviation feed_ := (feed get_ansi_sequence repr str_keys).
Local Abbreviation feed_all_ := (feed_all get_ansi_sequence repr str_keys).
Local Abbreviation end_of_stream_ := (end_of_stream get_ansi_sequence repr str_keys).
Local Abbreviation feed_to_end_ := (feed_to_end get_ansi_sequence repr str_keys).
Local Abbreviation resolves_ := (resolves get_ansi_sequence).
Local Abbreviation unresolved_before_ := (unresolved_before get_ansi_sequence).
Local Abbreviation no_key_from_ := (no_key_from get_ansi_sequence).
Local Abbreviation complete_token_ := (complete_token get_ansi_sequence).
Local Abbreviation unrecognised_ := (unrecognised get_ansi_sequence).
Local Abbreviation send_all_ := (send_all get_ansi_sequence repr str_keys).
Local Abbreviation within_limit_ := (fun data : string => within_int_limit data = true).

Lemma chain_app (P : Z * Z -> Event MessageTarget -> Prop) ev1 : forall pos ev2,
  chain P pos (ev1 ++ ev2)%list <-> chain P pos ev1 /\ chain P (track pos ev1) ev2.
Proof.
  induction ev1 as [|e ev1 IH]; intros pos ev2; simpl.
  - tauto.
  - rewrite IH. unfold track. simpl. tauto.
Qed.

Lemma chain_impl (P Q : Z * Z -> Event MessageTarget -> Prop) ev :
  (forall pos e, P pos e -> Q pos e) ->
  forall pos, chain P pos ev -> chain Q pos ev.
Proof.
  intros HPQ. induction ev as [|e ev IH]; intros pos; simpl; [auto|].
  intros [H1 H2]. split; auto.
Qed.

Lemma chain_keys (target : MessageTarget) pos (keys : list string) :
  chain (event_ok target) pos (map (Key target) keys).
Proof.
  induction keys as [|k ks IH]; simpl; [exact I|].
  split; [repeat split|exact IH].
Qed.

(** What [parse_mouse_code] returns: the event has the sender it was
    given, deltas counted from the last-seen position, a button between
    0 and 3, and a column and a row of at least -1. *)
Lemma parse_mouse_code_event_ok self code target self' e :
  parse_mouse_code self code target = Returned (self', Some e) ->
  event_ok target (MouseState self) e.
Proof.
  intros H.
  destruct (re_sgr_mouse_match code) as [[[[sb sx] sy] st]|] eqn:Hm.
  - pose proof (re_sgr_mouse_match_inv code sb sx sy st Hm) as (Hb & Hx & Hy & _ & _).
    destruct (within_int_limit sb && within_int_limit sx && within_int_limit sy)
      eqn:L.
    2:{ rewrite (parse_mouse_code_over_limit _ self code target _ _ _ _ Hm L) in H.
        discriminate. }
    apply andb_prop in L. destruct L as [L Ly].
    apply andb_prop in L. destruct L as [Lb Lx].
    pose proof (py_int_nonneg sb _ (py_int_digits sb Hb Lb)) as Nb.
    pose proof (py_int_nonneg sx _ (py_int_digits sx Hx Lx)) as Nx.
    pose proof (py_int_nonneg sy _ (py_int_digits sy Hy Ly)) as Ny.
    destruct (py_bool (Z.land (int_acc 0 sb) 64)) eqn:Hw.
    + rewrite (parse_mouse_code_wheel _ self code target sb sx sy st Hm Lb Lx Ly Hw) in H.
      injection H as _ <-.
      destruct (Z.land (int_acc 0 sb + 1) 3 =? 1);
        (split; [reflexivity|split; [exact I|simpl; lia]]).
    + rewrite (parse_mouse_code_button _ self code target sb sx sy st Hm Lb Lx Ly Hw) in H.
      injection H as _ <-.
      pose proof (land_3_range (int_acc 0 sb + 1)) as Hr.
      destruct (py_bool (Z.land (int_acc 0 sb) 32)); [|destruct (String.eqb st "M")];
        (split; [reflexivity|split; [split; reflexivity|simpl; repeat split; lia]]).
  - rewrite (parse_mouse_code_no_match _ self code target Hm) in H. discriminate.
Qed.

Lemma resume_event_ok self sent ev self' :
  resume_ self sent = Returned (ev, self') ->
  chain (event_ok (sender self)) (MouseState self) ev.
Proof.
  unfold resume.
  destruct (frame self) as [|sequence h|sequence h|] eqn:Ef; [| | |discriminate].
  - destruct (debug_log_fields _ self ["character=" ++ repr sent])
      as (S1 & _ & _ & _ & _ & _ & _).
    set (self1 := debug_log self ["character=" ++ repr sent]) in *.
    cbn [call_more_data]. destruct (String.eqb sent ESC).
    + intros [= <- _]. exact I.
    + destruct (get_ansi_sequence sent) as [keys|]; intros [= <- _];
        unfold key_events; cbn [sender]; rewrite S1.
      * apply chain_keys.
      * apply (chain_keys (sender self) _ [sent]).
  - destruct (str_truthy sent); intros [= <- _]; exact I.
  - set (a1 := ["sequence=" ++ repr (sequence ++ sent)]).
    set (a2 := ["matched ansi sequences: " ++ str_keys (get_ansi_sequence (sequence ++ sent))]).
    destruct (debug_log_fields _ self a1) as (S1 & _ & _ & X1 & Y1 & _ & _).
    destruct (debug_log_fields _ (debug_log self a1) a2) as (S2 & _ & _ & X2 & Y2 & _ & _).
    cbv zeta in *. set (self2 := debug_log (debug_log self a1) a2) in *.
    assert (HS : sender self2 = sender self) by congruence.
    assert (HP : MouseState self2 = MouseState self) by (unfold MouseState; congruence).
    destruct (get_ansi_sequence (sequence ++ sent)) as [keys|].
    + intros [= <- _]. unfold key_events. rewrite HS. apply chain_keys.
    + destruct (re_mouse_event_match (sequence ++ sent)) as [code|].
      * destruct (parse_mouse_code self2 code (sender self2)) as [[self3 [e|]]|] eqn:Hp;
          cbn [bind]; intros [= <- _]; [|exact I].
        apply parse_mouse_code_event_ok in Hp. rewrite HS, HP in Hp.
        split; [exact Hp|exact I].
      * intros [= <- _]. exact I.
Qed.

Lemma settle_peek_event_ok self data ev self' :
  settle_peek_ self data = Returned (ev, self') ->
  chain (event_ok (sender self)) (MouseState self) ev.
Proof.
  unfold settle_peek.
  destruct (awaiting (frame self)) as [[[|]|]|];
    try (intros [= <- _]; exact I).
  apply resume_event_ok.
Qed.

Lemma feed_event_ok data : forall self ev self',
  feed_ self data = Returned (ev, self') ->
  chain (event_ok (sender self)) (MouseState self) ev.
Proof.
  induction data as [|c rest IH]; intros self ev self' H.
  - exact (settle_peek_event_ok self "" ev self' H).
  - cbn [feed] in H.
    destruct (settle_peek_ self (String c rest)) as [[ev1 self1]|e] eqn:H1; [|discriminate].
    pose proof (settle_peek_step_ok _ get_ansi_sequence repr str_keys self _ ev1 self1 H1)
      as (P1 & S1 & _).
    pose proof (settle_peek_event_ok self _ ev1 self1 H1) as C1.
    cbn [bind] in H.
    destruct (awaiting (frame self1)) as [[[|]|]|] eqn:Ea;
      try (injection H as <- _; exact C1).
    destruct (resume_ self1 (String c "")) as [[ev2 self2]|e] eqn:H2; [|discriminate].
    pose proof (resume_step_ok _ get_ansi_sequence repr str_keys self1 _ ev2 self2 H2)
      as (P2 & S2 & _).
    pose proof (resume_event_ok self1 _ ev2 self2 H2) as C2.
    cbn [bind] in H.
    destruct (feed_ self2 rest) as [[ev3 self3]|e] eqn:H3; [|discriminate].
    cbn [bind] in H. injection H as <- _.
    pose proof (IH self2 ev3 self3 H3) as C3.
    rewrite S2, S1, P2, P1 in C3. rewrite S1, P1 in C2.
    apply chain_app. split; [exact C1|].
    apply chain_app. split; [exact C2|exact C3].
Qed.

Lemma feed_all_event_ok deliveries : forall self ev self',
  feed_all_ self deliveries = Returned (ev, self') ->
  chain (event_ok (sender self)) (MouseState self) ev.
Proof.
  induction deliveries as [|data more IH]; intros self ev self' H.
  - injection H as <- _. exact I.
  - cbn [feed_all] in H.
    destruct (feed_ self data) as [[ev1 self1]|e] eqn:H1; [|discriminate].
    pose proof (feed_step_ok _ get_ansi_sequence repr str_keys data self ev1 self1 H1)
      as (P1 & S1 & _).
    pose proof (feed_event_ok data self ev1 self1 H1) as C1.
    cbn [bind] in H.
    destruct (feed_all_ self1 more) as [[ev2 self2]|e] eqn:H2; [|discriminate].
    cbn [bind] in H. injection H as <- _.
    pose proof (IH self1 ev2 self2 H2) as C2. rewrite S1, P1 in C2.
    apply chain_app. split; assumption.
Qed.

(** The same of the generator driven by any driver whatever. *)
Lemma send_all_event_ok answers : forall self ev self',
  send_all_ self answers = Returned (ev, self') ->
  chain (event_ok (sender self)) (MouseState self) ev /\
  sender self' = sender self.
Proof.
  induction answers as [|sent more IH]; intros self ev self' H.
  - injection H as <- <-. split; [exact I|reflexivity].
  - cbn [send_all] in H.
    destruct (resume_ self sent) as [[ev1 self1]|e] eqn:H1; [|discriminate].
    pose proof (resume_step_ok _ get_ansi_sequence repr str_keys self _ ev1 self1 H1)
      as (P1 & S1 & _).
    pose proof (resume_event_ok self _ ev1 self1 H1) as C1.
    cbn [bind] in H.
    destruct (send_all_ self1 more) as [[ev2 self2]|e] eqn:H2; [|discriminate].
    cbn [bind] in H. injection H as <- <-.
    destruct (IH self1 ev2 self2 H2) as (C2 & S2). rewrite S1, P1 in C2.
    split; [|congruence].
    apply chain_app. split; assumption.
Qed.

(** Deliveries within the limit of [int], made to a decoder in Idle,
    return. *)
Lemma feed_all_returns_idle self deliveries :
  decoder_state self = Idle ->
  Forall within_limit_ deliveries ->
  exists ev self', feed_all_ self deliveries = Returned (ev, self').
Proof.
  intros Hd Hall.
  destruct (idle_not_pending _ self Hd) as [Hp Hn].
  exact (feed_all_returns _ get_ansi_sequence repr str_keys deliveries self Hp Hn Hall).
Qed.

Lemma chain_Forall (Q : Event MessageTarget -> Prop) ev : forall pos,
  chain (fun _ e => Q e) pos ev -> Forall Q ev.
Proof.
  induction ev as [|e ev IH]; intros pos; simpl; [constructor|].
  intros [H1 H2]. constructor; [exact H1|exact (IH _ H2)].
Qed.

(** X5: Whatever is delivered, in however many deliveries, the deltas of
    each MouseDown, MouseUp and MouseMove event emitted are its column
    and row minus those of the mouse event emitted before it, wheel
    events included; for the first mouse event of the run they are
    counted from the position the decoder held at the start. This holds
    of the events of any steps of the generator, whatever drives it, of
    the events of any deliveries that end without a failure, and
    deliveries within the limit of [int] made to a decoder in Idle do
    end so. *)
Theorem deltas_count_from_previous_mouse_event self :
  (forall answers ev self',
     send_all_ self answers = Returned (ev, self') ->
     chain (@deltas_from MessageTarget) (MouseState self) ev) /\
  (forall deliveries ev self',
     feed_all_ self deliveries = Returned (ev, self') ->
     chain (@deltas_from MessageTarget) (MouseState self) ev) /\
  (forall deliveries,
     decoder_state self = Idle ->
     Forall within_limit_ deliveries ->
     exists ev self',
       feed_all_ self deliveries = Returned (ev, self') /\
       chain (@deltas_from MessageTarget) (MouseState self) ev).
Proof.
  assert (Hd : forall pos ev,
            chain (event_ok (sender self)) pos ev ->
            chain (@deltas_from MessageTarget) pos ev).
  { intros pos ev. apply chain_impl. now intros pos' e (_ & Hd & _). }
  split; [|split].
  - intros answers ev self' H. apply Hd.
    exact (proj1 (send_all_event_ok answers self ev self' H)).
  - intros deliveries ev self' H. apply Hd.
    exact (feed_all_event_ok deliveries self ev self' H).
  - intros deliveries Hi Hall.
    destruct (feed_all_returns_idle self deliveries Hi Hall) as (ev & self' & H).
    exists ev, self'. split; [exact H|]. apply Hd.
    exact (feed_all_event_ok deliveries self ev self' H).
Qed.

(** X4: Every mouse event emitted has a button identity between 0 and 3
    (when it carries one), a column and a row of at least -1 (a wire
    field of 0 is not rejected), and screen coordinates equal to its
    column and row. This holds of the events of any steps of the
    generator, whatever drives it, of the events of any deliveries that
    end without a failure, and deliveries within the limit of [int] made
    to a decoder in Idle do end so. *)
Theorem emitted_events_in_range self :
  (forall answers ev self',
     send_all_ self answers = Returned (ev, self') ->
     Forall (@in_range MessageTarget) ev) /\
  (forall deliveries ev self',
     feed_all_ self deliveries = Returned (ev, self') ->
     Forall (@in_range MessageTarget) ev) /\
  (forall deliveries,
     decoder_state self = Idle ->
     Forall within_limit_ deliveries ->
     exists ev self',
       feed_all_ self deliveries = Returned (ev, self') /\
       Forall (@in_range MessageTarget) ev).
Proof.
  assert (Hr : forall pos ev,
            chain (event_ok (sender self)) pos ev ->
            Forall (@in_range MessageTarget) ev).
  { intros pos ev H. apply (chain_Forall _ ev pos).
    revert H. apply chain_impl. now intros pos' e (_ & _ & Hr). }
  split; [|split].
  - intros answers ev self' H.
    exact (Hr _ _ (proj1 (send_all_event_ok answers self ev self' H))).
  - intros deliveries ev self' H.
    exact (Hr _ _ (feed_all_event_ok deliveries self ev self' H)).
  - intros deliveries Hi Hall.
    destruct (feed_all_returns_idle self deliveries Hi Hall) as (ev & self' & H).
    exists ev, self'. split; [exact H|].
    exact (Hr _ _ (feed_all_event_ok deliveries self ev self' H)).
Qed.

(** X6: Every event emitted, Key or mouse, is constructed with the sender
    the decoder was created with, and the run leaves that sender in
    place. This holds of any steps of the generator, whatever drives it,
    of any deliveries that end without a failure, and deliveries within
    the limit of [int] made to a decoder in Idle do end so. *)
Theorem emitted_events_carry_sender self :
  (forall answers ev self',
     send_all_ self answers = Returned (ev, self') ->
     Forall (fun e => event_sender e = sender self) ev /\
     sender self' = sender self) /\
  (forall deliveries ev self',
     feed_all_ self deliveries = Returned (ev, self') ->
     Forall (fun e => event_sender e = sender self) ev /\
     sender self' = sender self) /\
  (forall deliveries,
     decoder_state self = Idle ->
     Forall within_limit_ deliveries ->
     exists ev self',
       feed_all_ self deliveries = Returned (ev, self') /\
       Forall (fun e => event_sender e = sender self) ev /\
       sender self' = sender self).
Proof.
  assert (Hs : forall pos ev,
            chain (event_ok (sender self)) pos ev ->
            Forall (fun e => event_sender e = sender self) ev).
  { intros pos ev H. apply (chain_Forall _ ev pos).
    revert H. apply chain_impl. now intros pos' e (Hs & _). }
  assert (Hrun : forall deliveries ev self',
            feed_all_ self deliveries = Returned (ev, self') ->
            Forall (fun e => event_sender e = sender self) ev /\
            sender self' = sender self).
  { intros deliveries ev self' H. split.
    - exact (Hs _ _ (feed_all_event_ok deliveries self ev self' H)).
    - exact (proj1 (proj2 (feed_all_step_ok _ get_ansi_sequence repr str_keys
                             deliveries self ev self' H))). }
  split; [|split].
  - intros answers ev self' H.
    destruct (send_all_event_ok answers self ev self' H) as (C & S).
    split; [exact (Hs _ _ C)|exact S].
  - exact Hrun.
  - intros deliveries Hi Hall.
    destruct (feed_all_returns_idle self deliveries Hi Hall) as (ev & self' & H).
    exists ev, self'. split; [exact H|]. exact (Hrun deliveries ev self' H).
Qed.

(** ** The answers of [more_data] *)

Lemma awaiting_forget_flag (f : Frame) : awaiting (forget_flag f) = awaiting f.
Proof. now destruct f. Qed.

Lemma resume_forget_more_data self sent :
  forget_more_data_in (resume_ (forget_more_data self) sent) =
  forget_more_data_in (resume_ self sent).
Proof.
  unfold resume. change (frame (forget_more_data self)) with (forget_flag (frame self)).
  destruct self as [s md n lx ly log eof fr].
  destruct fr as [|sequence h|sequence h|]; cbn [forget_flag frame].
  - destruct log as [written|]; cbn;
      destruct (String.eqb sent ESC); try reflexivity;
      destruct (get_ansi_sequence sent); reflexivity.
  - destruct (str_truthy sent); reflexivity.
  - destruct log as [written|]; cbn;
      (destruct (get_ansi_sequence (sequence ++ sent)); [reflexivity|]);
      (destruct (re_mouse_event_match (sequence ++ sent)) as [code|]; [|reflexivity]);
      unfold parse_mouse_code;
      (destruct (re_sgr_mouse_match code) as [[[[sb sx] sy] st]|]; [|reflexivity]);
      (destruct (py_int sb); [|reflexivity]);
      (destruct (py_int sx); [|reflexivity]);
      (destruct (py_int sy); reflexivity).
  - reflexivity.
Qed.

Lemma forget_more_data_in_inv
      (r1 r2 : outcome (list (Event MessageTarget) * XTermParser MessageTarget)) :
  forget_more_data_in r1 = forget_more_data_in r2 ->
  match r1, r2 with
  | Returned (ev1, s1), Returned (ev2, s2) =>
      ev1 = ev2 /\ forget_more_data s1 = forget_more_data s2
  | Raised e1, Raised e2 => e1 = e2
  | _, _ => False
  end.
Proof.
  destruct r1 as [[ev1 s1]|e1], r2 as [[ev2 s2]|e2];
    cbn [forget_more_data_in bind]; intros H; try discriminate.
  - split; congruence.
  - congruence.
Qed.

Lemma forget_more_data_idem self :
  forget_more_data (forget_more_data self) = forget_more_data self.
Proof. destruct self as [s md n lx ly log eof [| | |]]; reflexivity. Qed.

Lemma settle_peek_forget_more_data self data :
  forget_more_data_in (settle_peek_ (forget_more_data self) data) =
  forget_more_data_in (settle_peek_ self data).
Proof.
  unfold settle_peek. change (frame (forget_more_data self)) with (forget_flag (frame self)).
  rewrite awaiting_forget_flag.
  destruct (awaiting (frame self)) as [[[|]|]|];
    try (cbn [forget_more_data_in bind]; now rewrite forget_more_data_idem).
  apply resume_forget_more_data.
Qed.

Lemma frame_of_forget self1 self2 :
  forget_more_data self1 = forget_more_data self2 ->
  awaiting (frame self1) = awaiting (frame self2).
Proof.
  intros H. apply (f_equal (@frame MessageTarget)) in H. cbn in H.
  rewrite <- (awaiting_forget_flag (frame self1)), H. apply awaiting_forget_flag.
Qed.

Lemma feed_forget_more_data data : forall self,
  forget_more_data_in (feed_ (forget_more_data self) data) =
  forget_more_data_in (feed_ self data).
Proof.
  induction data as [|c rest IH]; intros self.
  - apply settle_peek_forget_more_data.
  - cbn [feed].
    pose proof (settle_peek_forget_more_data self (String c rest)) as H1.
    apply forget_more_data_in_inv in H1.
    destruct (settle_peek_ (forget_more_data self) (String c rest)) as [[ev1' s1']|e1'],
             (settle_peek_ self (String c rest)) as [[ev1 s1]|e1];
      try contradiction; [|now subst].
    destruct H1 as [-> F1]. cbn [bind].
    rewrite (frame_of_forget _ _ F1).
    destruct (awaiting (frame s1)) as [[[|]|]|];
      try (cbn [forget_more_data_in bind]; now rewrite F1).
    pose proof (resume_forget_more_data s1' (String c "")) as H2.
    rewrite F1, (resume_forget_more_data s1 (String c "")) in H2.
    apply forget_more_data_in_inv in H2.
    destruct (resume_ s1 (String c "")) as [[ev2 s2]|e2],
             (resume_ s1' (String c "")) as [[ev2' s2']|e2'];
      try contradiction; [|now subst].
    destruct H2 as [-> F2]. cbn [bind].
    pose proof (IH s2') as H3. rewrite <- F2, (IH s2) in H3.
    apply forget_more_data_in_inv in H3.
    destruct (feed_ s2 rest) as [[ev3 s3]|e3],
             (feed_ s2' rest) as [[ev3' s3']|e3'];
      try contradiction; [|now subst].
    destruct H3 as [-> F3]. cbn [bind forget_more_data_in]. now rewrite F3.
Qed.

Lemma feed_all_forget_more_data deliveries : forall self,
  forget_more_data_in (feed_all_ (forget_more_data self) deliveries) =
  forget_more_data_in (feed_all_ self deliveries).
Proof.
  induction deliveries as [|data more IH]; intros self.
  - cbn. now rewrite forget_more_data_idem.
  - cbn [feed_all].
    pose proof (feed_forget_more_data data self) as H1.
    apply forget_more_data_in_inv in H1.
    destruct (feed_ (forget_more_data self) data) as [[ev1' s1']|e1'],
             (feed_ self data) as [[ev1 s1]|e1];
      try contradiction; [|now subst].
    destruct H1 as [-> F1]. cbn [bind].
    pose proof (IH s1') as H2. rewrite F1, (IH s1) in H2.
    apply forget_more_data_in_inv in H2.
    destruct (feed_all_ s1 more) as [[ev2 s2]|e2],
             (feed_all_ s1' more) as [[ev2' s2']|e2'];
      try contradiction; [|now subst].
    destruct H2 as [-> F2]. cbn [bind forget_more_data_in]. now rewrite F2.
Qed.

(** X12: The answers of the driver's [more_data] callable have no effect on
    decoding: two decoders that differ only in that callable emit the
    same events over any deliveries, and end in the same state, the
    callable and what was recorded of it apart. *)
Theorem more_data_answers_are_ignored
        (target : MessageTarget) (md1 md2 : nat -> bool) debug deliveries :
  forget_more_data_in (feed_all_ (new_parser target md1 debug) deliveries) =
  forget_more_data_in (feed_all_ (new_parser target md2 debug) deliveries) /\
  events_of (feed_all_ (new_parser target md1 debug) deliveries) =
  events_of (feed_all_ (new_parser target md2 debug) deliveries).
Proof.
  assert (H : forget_more_data_in (feed_all_ (new_parser target md1 debug) deliveries) =
              forget_more_data_in (feed_all_ (new_parser target md2 debug) deliveries)).
  { rewrite <- (feed_all_forget_more_data deliveries (new_parser target md1 debug)).
    rewrite <- (feed_all_forget_more_data deliveries (new_parser target md2 debug)).
    reflexivity. }
  split; [exact H|].
  apply forget_more_data_in_inv in H.
  destruct (feed_all_ (new_parser target md1 debug) deliveries) as [[ev1 s1]|e1],
           (feed_all_ (new_parser target md2 debug) deliveries) as [[ev2 s2]|e2];
    try contradiction; cbn; [now destruct H as [-> _]|now subst].
Qed.

(** ** The debug file *)

Lemma log_extended_refl (log : option (list string)) : log_extended log log.
Proof.
  destruct log as [written|]; simpl; [|reflexivity].
  exists []. split; [now rewrite app_nil_r|constructor].
Qed.

Lemma log_extended_trans (l1 l2 l3 : option (list string)) :
  log_extended l1 l2 -> log_extended l2 l3 -> log_extended l1 l3.
Proof.
  destruct l1 as [w1|]; simpl.
  - intros (a1 & -> & F1). simpl. intros (a2 & -> & F2).
    exists (a1 ++ a2)%list. split; [now rewrite app_assoc|].
    apply Forall_app. split; assumption.
  - intros ->. simpl. auto.
Qed.

Lemma debug_log_extends self args :
  log_extended (_debug_log_file self) (_debug_log_file (debug_log self args)).
Proof.
  unfold debug_log. destruct (_debug_log_file self) as [written|] eqn:E; simpl.
  - exists [(join args ++ newline)%string]. split; [reflexivity|].
    constructor; [now exists (join args)|constructor].
  - exact E.
Qed.

Lemma resume_log_extended self sent ev self' :
  resume_ self sent = Returned (ev, self') ->
  log_extended (_debug_log_file self) (_debug_log_file self').
Proof.
  unfold resume.
  destruct (frame self) as [|sequence h|sequence h|] eqn:Ef; [| | |discriminate].
  - pose proof (debug_log_extends self ["character=" ++ repr sent]) as L1.
    set (self1 := debug_log self ["character=" ++ repr sent]) in *.
    cbn [call_more_data]. destruct (String.eqb sent ESC).
    + intros [= _ <-]. exact L1.
    + destruct (get_ansi_sequence sent); intros [= _ <-]; exact L1.
  - destruct (str_truthy sent); intros [= _ <-]; apply log_extended_refl.
  - set (a1 := ["sequence=" ++ repr (sequence ++ sent)]).
    set (a2 := ["matched ansi sequences: " ++ str_keys (get_ansi_sequence (sequence ++ sent))]).
    pose proof (log_extended_trans _ _ _ (debug_log_extends self a1)
                  (debug_log_extends (debug_log self a1) a2)) as L2.
    cbv zeta. set (self2 := debug_log (debug_log self a1) a2) in *.
    destruct (get_ansi_sequence (sequence ++ sent)) as [keys|].
    + intros [= _ <-]. exact L2.
    + destruct (re_mouse_event_match (sequence ++ sent)) as [code|].
      * destruct (parse_mouse_code self2 code (sender self2)) as [[self3 event]|e] eqn:Hp;
          cbn [bind]; [|discriminate].
        destruct (parse_mouse_code_fields _ self2 code (sender self2) self3 event Hp)
          as (_ & _ & _ & _ & L3 & _).
        destruct event; intros [= _ <-]; cbn; rewrite L3; exact L2.
      * intros [= _ <-]. exact L2.
Qed.

Lemma settle_peek_log_extended self data ev self' :
  settle_peek_ self data = Returned (ev, self') ->
  log_extended (_debug_log_file self) (_debug_log_file self').
Proof.
  unfold settle_peek.
  destruct (awaiting (frame self)) as [[[|]|]|];
    try (intros [= _ <-]; apply log_extended_refl).
  apply resume_log_extended.
Qed.

Lemma feed_log_extended data : forall self ev self',
  feed_ self data = Returned (ev, self') ->
  log_extended (_debug_log_file self) (_debug_log_file self').
Proof.
  induction data as [|c rest IH]; intros self ev self' H.
  - exact (settle_peek_log_extended self "" ev self' H).
  - cbn [feed] in H.
    destruct (settle_peek_ self (String c rest)) as [[ev1 self1]|e] eqn:H1; [|discriminate].
    apply settle_peek_log_extended in H1. cbn [bind] in H.
    destruct (awaiting (frame self1)) as [[[|]|]|];
      try (injection H as _ <-; exact H1).
    destruct (resume_ self1 (String c "")) as [[ev2 self2]|e] eqn:H2; [|discriminate].
    apply resume_log_extended in H2. cbn [bind] in H.
    destruct (feed_ self2 rest) as [[ev3 self3]|e] eqn:H3; [|discriminate].
    apply IH in H3. cbn [bind] in H. injection H as _ <-.
    eapply log_extended_trans; [exact H1|].
    eapply log_extended_trans; eassumption.
Qed.

Lemma feed_all_log_extended deliveries : forall self ev self',
  feed_all_ self deliveries = Returned (ev, self') ->
  log_extended (_debug_log_file self) (_debug_log_file self').
Proof.
  induction deliveries as [|data more IH]; intros self ev self' H.
  - injection H as _ <-. apply log_extended_refl.
  - cbn [feed_all] in H.
    destruct (feed_ self data) as [[ev1 self1]|e] eqn:H1; [|discriminate].
    cbn [bind] in H.
    destruct (feed_all_ self1 more) as [[ev2 self2]|e] eqn:H2; [|discriminate].
    cbn [bind] in H. injection H as _ <-.
    eapply log_extended_trans;
      [exact (feed_log_extended data self ev1 self1 H1)|exact (IH self1 ev2 self2 H2)].
Qed.

Lemma send_all_log_extended answers : forall self ev self',
  send_all_ self answers = Returned (ev, self') ->
  log_extended (_debug_log_file self) (_debug_log_file self').
Proof.
  induction answers as [|sent more IH]; intros self ev self' H.
  - injection H as _ <-. apply log_extended_refl.
  - cbn [send_all] in H.
    destruct (resume_ self sent) as [[ev1 self1]|e] eqn:H1; [|discriminate].
    cbn [bind] in H.
    destruct (send_all_ self1 more) as [[ev2 self2]|e] eqn:H2; [|discriminate].
    cbn [bind] in H. injection H as _ <-.
    eapply log_extended_trans;
      [exact (resume_log_extended self sent ev1 self1 H1)|exact (IH self1 ev2 self2 H2)].
Qed.

(** X15: The debug file is only ever appended to: what it held at the
    start is still there, in order, followed by the new lines, each
    ended by a newline; a decoder without a debug file never acquires
    one. This holds over any steps of the generator, whatever drives it,
    over any deliveries that end without a failure, and deliveries
    within the limit of [int] made to a decoder in Idle do end so. *)
Theorem debug_file_is_append_only self :
  (forall answers ev self',
     send_all_ self answers = Returned (ev, self') ->
     log_extended (_debug_log_file self) (_debug_log_file self')) /\
  (forall deliveries ev self',
     feed_all_ self deliveries = Returned (ev, self') ->
     log_extended (_debug_log_file self) (_debug_log_file self')) /\
  (forall deliveries,
     decoder_state self = Idle ->
     Forall within_limit_ deliveries ->
     exists ev self',
       feed_all_ self deliveries = Returned (ev, self') /\
       log_extended (_debug_log_file self) (_debug_log_file self')).
Proof.
  split; [|split].
  - intros answers. apply send_all_log_extended.
  - intros deliveries. apply feed_all_log_extended.
  - intros deliveries Hi Hall.
    destruct (feed_all_returns_idle self deliveries Hi Hall) as (ev & self' & H).
    exists ev, self'. split; [exact H|].
    exact (feed_all_log_extended deliveries self ev self' H).
Qed.

(** ** Pending sequences *)

Lemma resume_pending self sent ev self' :
  pending_begins_with_ESC self ->
  resume_ self sent = Returned (ev, self') ->
  pending_begins_with_ESC self'.
Proof.
  unfold pending_begins_with_ESC, decoder_state, resume.
  destruct (frame self) as [|sequence h|sequence h|] eqn:Ef; [| | |discriminate].
  - intros _. cbn [call_more_data]. destruct (String.eqb sent ESC) eqn:E.
    + apply String.eqb_eq in E. subst sent. intros [= _ <-]. cbn. now exists "".
    + destruct (get_ansi_sequence sent); intros [= _ <-]; cbn;
        now destruct (is_eof _).
  - intros Hp. destruct (str_truthy sent); intros [= _ <-]; cbn;
      [exact Hp|now destruct (is_eof self)].
  - intros (rest & ->).
    destruct (get_ansi_sequence (String ESC_char rest ++ sent)) as [keys|].
    + intros [= _ <-]. cbn. now destruct (is_eof _).
    + destruct (re_mouse_event_match (String ESC_char rest ++ sent)) as [code|].
      * destruct (parse_mouse_code _ code _) as [[self3 [e|]]|]; cbn [bind];
          intros [= _ <-]; cbn; now destruct (is_eof _).
      * intros [= _ <-]. cbn. now exists (rest ++ sent)%string.
Qed.

(** X14: Whatever values a driver sends into the generator of a fresh decoder,
    at every suspension a pending sequence begins with ESC. *)
Theorem pending_sequence_begins_with_ESC
        (target : MessageTarget) (md : nat -> bool) debug answers ev self' :
  send_all_ (new_parser target md debug) answers = Returned (ev, self') ->
  pending_begins_with_ESC self'.
Proof.
  assert (G : forall answers self ev self',
             pending_begins_with_ESC self ->
             send_all_ self answers = Returned (ev, self') ->
             pending_begins_with_ESC self').
  { clear. induction answers as [|sent more IH]; intros self ev self' Hp H.
    - injection H as _ <-. exact Hp.
    - cbn [send_all] in H.
      destruct (resume_ self sent) as [[ev1 self1]|e] eqn:H1; [|discriminate].
      cbn [bind] in H.
      destruct (send_all_ self1 more) as [[ev2 self2]|e] eqn:H2; [|discriminate].
      cbn [bind] in H. injection H as _ <-.
      eapply IH; [|exact H2]. eapply resume_pending; eassumption. }
  apply G. exact I.
Qed.

(** On an open stream a step leaves the generator at the top-level
    read or at the availability check, unless it is the answer to that
    check that says input is buffered. *)
Lemma resume_open_stream self sent ev self' :
  is_eof self = false ->
  demands_character self = true \/ frame self = AtRead1 ->
  resume_ self sent = Returned (ev, self') ->
  is_eof self' = false /\
  (frame self' = AtRead1 \/ exists sequence h, frame self' = AtPeek sequence h).
Proof.
  intros He Hd H.
  assert (Hs : is_eof self' = false).
  { destruct (resume_step_ok _ get_ansi_sequence repr str_keys self sent ev self' H)
      as (_ & _ & _ & E0).
    congruence. }
  split; [exact Hs|].
  revert H. unfold demands_character, resume in *.
  destruct (frame self) as [|sequence h|sequence h|] eqn:Ef;
    destruct Hd as [Hd|Hd]; try discriminate.
  - cbn [call_more_data]. destruct (String.eqb sent ESC).
    + intros [= _ <-]. right. cbn. eauto.
    + destruct (get_ansi_sequence sent); intros [= _ <-];
        cbn in Hs |- *; rewrite Hs; now left.
  - destruct (get_ansi_sequence (sequence ++ sent)) as [keys|].
    + intros [= _ <-]. cbn in Hs |- *. rewrite Hs. now left.
    + destruct (re_mouse_event_match (sequence ++ sent)) as [code|].
      * destruct (parse_mouse_code _ code _) as [[self3 [e|]]|]; cbn [bind];
          intros [= _ <-]; cbn in Hs |- *; rewrite Hs; now left.
      * intros [= _ <-]. right. cbn. eauto.
Qed.

Lemma feed_ends_idle data : forall self ev self',
  is_eof self = false ->
  (frame self = AtRead1 \/ exists sequence h, frame self = AtPeek sequence h) ->
  feed_ self data = Returned (ev, self') ->
  is_eof self' = false /\ frame self' = AtRead1.
Proof.
  induction data as [|c rest IH]; intros self ev self' He Hf H.
  - cbn [feed] in H. unfold settle_peek in H.
    destruct Hf as [Hf|(sequence & h & Hf)]; rewrite Hf in H; cbn in H.
    + injection H as _ <-. auto.
    + unfold resume in H. rewrite Hf in H. cbn in H. injection H as _ <-.
      cbn. rewrite He. auto.
  - cbn [feed] in H. unfold settle_peek in H.
    destruct Hf as [Hf|(sequence & h & Hf)]; rewrite Hf in H;
      cbn [awaiting py_or truthy bind] in H.
    + rewrite Hf in H. cbn [awaiting] in H.
      destruct (resume_ self (String c "")) as [[ev2 self2]|e] eqn:H2; [|discriminate].
      cbn [bind] in H.
      destruct (feed_ self2 rest) as [[ev3 self3]|e] eqn:H3; [|discriminate].
      cbn [bind] in H. injection H as _ <-.
      destruct (resume_open_stream self (String c "") ev2 self2 He (or_intror Hf) H2)
        as (E2 & F2).
      exact (IH self2 ev3 self3 E2 F2 H3).
    + unfold resume at 1 in H. rewrite Hf in H.
      cbn [str_truthy bind frame set_frame awaiting] in H.
      destruct (resume_ (set_frame self (AtRead1Seq sequence h)) (String c ""))
        as [[ev2 self2]|e] eqn:H2; [|discriminate].
      cbn [bind] in H.
      destruct (feed_ self2 rest) as [[ev3 self3]|e] eqn:H3; [|discriminate].
      cbn [bind] in H. injection H as _ <-.
      destruct (resume_open_stream (set_frame self (AtRead1Seq sequence h))
                  (String c "") ev2 self2 He (or_introl eq_refl) H2) as (E2 & F2).
      exact (IH self2 ev3 self3 E2 F2 H3).
Qed.

(** X13: An escape attempt never outlives the delivery it began in: after
    any deliveries that end without a failure a fresh decoder is in
    Idle, with no pending sequence, whatever the last delivery ended
    with (a lone ESC, half of a mouse report, ...), and deliveries within
    the limit of [int] do end so. Signalling the end of the stream then
    makes the generator return. *)
Theorem no_pending_sequence_after_delivery
        (target : MessageTarget) (md : nat -> bool) debug deliveries :
  (forall ev self',
     feed_all_ (new_parser target md debug) deliveries = Returned (ev, self') ->
     decoder_state self' = Idle /\ pending_sequence self' = "" /\
     exists ev2 self2,
       end_of_stream_ self' = Returned (ev2, self2) /\
       decoder_state self2 = Terminated) /\
  (Forall within_limit_ deliveries ->
   exists ev self',
     feed_all_ (new_parser target md debug) deliveries = Returned (ev, self') /\
     decoder_state self' = Idle).
Proof.
  assert (G : forall deliveries self ev self',
             frame self = AtRead1 -> is_eof self = false ->
             feed_all_ self deliveries = Returned (ev, self') ->
             frame self' = AtRead1 /\ is_eof self' = false).
  { clear. induction deliveries as [|data more IH]; intros self ev self' Hf He H.
    - injection H as _ <-. auto.
    - cbn [feed_all] in H.
      destruct (feed_ self data) as [[ev1 self1]|e] eqn:H1; [|discriminate].
      cbn [bind] in H.
      destruct (feed_all_ self1 more) as [[ev2 self2]|e] eqn:H2; [|discriminate].
      cbn [bind] in H. injection H as _ <-.
      destruct (feed_ends_idle data self ev1 self1 He (or_introl Hf) H1) as (E1 & F1).
      exact (IH self1 ev2 self2 F1 E1 H2). }
  assert (Hrun : forall ev self',
            feed_all_ (new_parser target md debug) deliveries = Returned (ev, self') ->
            frame self' = AtRead1).
  { intros ev self' H.
    exact (proj1 (G deliveries (new_parser target md debug) ev self' eq_refl eq_refl H)). }
  split.
  - intros ev self' H. pose proof (Hrun ev self' H) as F.
    unfold decoder_state, pending_sequence. rewrite F.
    split; [reflexivity|]. split; [reflexivity|].
    destruct (end_of_stream_at_idle _ get_ansi_sequence repr str_keys self' F)
      as (self2 & H2 & F2 & _).
    eexists _, self2. split; [exact H2|]. now rewrite F2.
  - intros Hall.
    destruct (feed_all_returns_idle (new_parser target md debug) deliveries eq_refl Hall)
      as (ev & self' & H).
    exists ev, self'. split; [exact H|].
    unfold decoder_state. now rewrite (Hrun ev self' H).
Qed.

(** ** Complete SGR reports *)

Lemma py_int_is_number (s : string) (n : Z) : py_int s = Returned n -> is_number s = true.
Proof. unfold py_int, is_number. now destruct (str_truthy s && all_digits s)%bool. Qed.

Lemma is_number_inv (s : string) :
  is_number s = true -> str_truthy s = true /\ all_digits s = true.
Proof. intros H. now apply andb_prop in H. Qed.

Lemma is_final_not_digit (c : ascii) : is_final c = true -> is_digit c = false.
Proof.
  unfold is_final. intros H. apply orb_prop in H.
  destruct H as [E|E]; apply Ascii.eqb_eq in E; now subst c.
Qed.

(** The match on a report, whatever follows the report. *)
Lemma re_sgr_mouse_match_report (sb sx sy : string) (c : ascii) (tail : string) :
  is_number sb = true -> is_number sx = true -> is_number sy = true ->
  is_final c = true ->
  re_sgr_mouse_match (sgr_report sb sx sy c ++ tail) = Some (sb, sx, sy, String c "").
Proof.
  intros Hb Hx Hy Hc.
  apply is_number_inv in Hb, Hx, Hy.
  destruct Hb as [Tb Db], Hx as [Tx Dx], Hy as [Ty Dy].
  unfold re_sgr_mouse_match, sgr_report, sgr_body. simpl.
  rewrite !append_assoc. simpl. rewrite !append_assoc. simpl.
  rewrite !append_assoc. simpl.
  rewrite (group_digits_stop sb ";" _ Tb Db eq_refl). simpl.
  rewrite (group_digits_stop sx ";" _ Tx Dx eq_refl). simpl.
  rewrite (group_digits_stop sy c _ Ty Dy (is_final_not_digit c Hc)). simpl.
  unfold is_final in Hc. now rewrite Hc.
Qed.

(** A string on which the match succeeds is a report followed by text. *)
Lemma re_sgr_mouse_match_is_report (code sb sx sy st : string) :
  re_sgr_mouse_match code = Some (sb, sx, sy, st) ->
  exists c rest,
    st = String c "" /\ is_final c = true /\
    is_number sb = true /\ is_number sx = true /\ is_number sy = true /\
    code = (sgr_report sb sx sy c ++ rest)%string.
Proof.
  intros H.
  destruct (re_sgr_mouse_match_inv code sb sx sy st H)
    as (Hb & Hx & Hy & Hst & rest & E).
  destruct Hst as [-> | ->]; [exists "M"%char, rest|exists "m"%char, rest];
    repeat split; try assumption; subst code; unfold sgr_report, sgr_body; simpl;
    rewrite !append_assoc; simpl; rewrite !append_assoc; simpl;
    rewrite !append_assoc; reflexivity.
Qed.

(** X2: [parse_mouse_code] reads a report at the head of [code] and ignores
    whatever follows it: the pattern is anchored at the start only. *)
Theorem parse_mouse_code_ignores_trailing_text
        (self : XTermParser MessageTarget) code tail target :
  re_sgr_mouse_match code <> None ->
  parse_mouse_code self (code ++ tail) target = parse_mouse_code self code target.
Proof.
  intros H.
  destruct (re_sgr_mouse_match code) as [[[[sb sx] sy] st]|] eqn:Hm; [|congruence].
  destruct (re_sgr_mouse_match_is_report code sb sx sy st Hm)
    as (c & rest & -> & Hc & Hb & Hx & Hy & E).
  unfold parse_mouse_code. rewrite Hm. subst code.
  rewrite append_assoc.
  now rewrite (re_sgr_mouse_match_report sb sx sy c (rest ++ tail) Hb Hx Hy Hc).
Qed.

Lemma forall_chars_app (p : ascii -> bool) (s1 s2 : string) :
  forall_chars p (s1 ++ s2) = forall_chars p s1 && forall_chars p s2.
Proof.
  induction s1 as [|c s1 IH]; simpl; [reflexivity|].
  now rewrite IH, andb_assoc.
Qed.

Lemma forall_chars_digits (p : ascii -> bool) (d : string) :
  (forall c, is_digit c = true -> p c = true) ->
  all_digits d = true -> forall_chars p d = true.
Proof.
  intros Hp. induction d as [|c d IH]; simpl; [reflexivity|].
  intros H. apply andb_prop in H. destruct H as [Hc Hd].
  now rewrite (Hp c Hc), (IH Hd).
Qed.

Lemma matches_star_class (p : ascii -> bool) (w : string) :
  forall_chars p w = true -> matches (Star (Class p)) w.
Proof.
  induction w as [|c w IH]; simpl; intros H; [constructor|].
  apply andb_prop in H. destruct H as [Hc Hw].
  change (String c w) with (String c "" ++ w)%string.
  constructor; [now constructor|auto].
Qed.

Lemma matches_plus_class (p : ascii -> bool) (w : string) :
  str_truthy w = true -> forall_chars p w = true -> matches (Plus (Class p)) w.
Proof.
  destruct w as [|c w]; simpl; intros Ht H; [discriminate|].
  apply andb_prop in H. destruct H as [Hc Hw].
  change (String c w) with (String c "" ++ w)%string.
  constructor; [now constructor|now apply matches_star_class].
Qed.

(** Every complete SGR report is a full match of [_re_mouse_event]: the
    filter of the escape loop lets all of them through to
    [parse_mouse_code]. *)
Lemma sgr_report_is_mouse_event (sb sx sy : string) (c : ascii) :
  is_number sb = true -> is_number sx = true -> is_number sy = true ->
  is_final c = true ->
  fullmatch _re_mouse_event (sgr_report sb sx sy c) = true.
Proof.
  intros Hb Hx Hy Hc. apply fullmatch_matches.
  apply is_number_inv in Hb, Hx, Hy.
  destruct Hb as [Tb Db], Hx as [Tx Dx], Hy as [Ty Dy].
  set (cls := fun c0 : ascii => (is_digit c0 || Ascii.eqb c0 ";")%bool).
  assert (Hcls : forall d, all_digits d = true -> forall_chars cls d = true).
  { intros d. apply forall_chars_digits. intros c0 H0. unfold cls. now rewrite H0. }
  replace (sgr_report sb sx sy c)
    with (String ESC_char "[" ++ ("<" ++ ((sb ++ ";" ++ sx ++ ";" ++ sy) ++ String c "")))%string.
  2:{ unfold sgr_report, sgr_body. simpl. rewrite !append_assoc. simpl.
      rewrite !append_assoc. reflexivity. }
  unfold _re_mouse_event. apply m_cat; [apply matches_lit|].
  apply m_alt_l. apply m_cat; [apply m_alt_l; constructor; reflexivity|].
  apply m_cat.
  - apply matches_plus_class.
    + destruct sb; [discriminate|reflexivity].
    + fold cls. rewrite !forall_chars_app. simpl.
      now rewrite (Hcls sb Db), (Hcls sx Dx), (Hcls sy Dy).
  - constructor. unfold is_final in Hc. now rewrite orb_comm.
Qed.

(** What a full match of [_re_mouse_event] looks like: after [ESC []
    comes text ending in [m] or [M], or text beginning with [M]. *)
Lemma mouse_event_shape (t : string) :
  matches _re_mouse_event t ->
  exists w, t = String ESC_char (String "[" w) /\
    ((exists w' c, w = (w' ++ String c "")%string /\ is_final c = true) \/
     (exists w', w = String "M" w')).
Proof.
  unfold _re_mouse_event. intros H.
  apply matches_cat_inv in H. destruct H as (s0 & w & -> & H0 & H).
  apply matches_lit_inv in H0. subst s0. exists w. split; [reflexivity|].
  inversion H as [| | | r1 r2 s Hl | r1 r2 s Hr | |]; subst.
  - left.
    apply matches_cat_inv in Hl. destruct Hl as (o & t1 & -> & _ & Hl).
    apply matches_cat_inv in Hl. destruct Hl as (d & t2 & -> & _ & Hl).
    apply matches_class_inv in Hl. destruct Hl as (c & -> & Hc).
    exists (o ++ d)%string, c. split; [now rewrite append_assoc|].
    unfold is_final. now rewrite orb_comm.
  - right.
    apply matches_cat_inv in Hr. destruct Hr as (m & t1 & -> & Hm & _).
    apply matches_class_inv in Hm. destruct Hm as (c & -> & Hc).
    apply Ascii.eqb_eq in Hc. subst c. now exists t1.
Qed.

(** A string with no [m] and no [M] in it is no full match. *)
Lemma no_final_no_mouse_event (t : string) :
  forall_chars (fun c => negb (is_final c)) t = true ->
  fullmatch _re_mouse_event t = false.
Proof.
  intros Hq. destruct (fullmatch _re_mouse_event t) eqn:Hm; [|reflexivity].
  apply fullmatch_matches in Hm. apply mouse_event_shape in Hm.
  destruct Hm as (w & -> & [(w' & c & -> & Hc)|(w' & ->)]); simpl in Hq.
  - rewrite forall_chars_app in Hq. simpl in Hq. rewrite Hc in Hq. simpl in Hq.
    now rewrite andb_false_r in Hq.
  - discriminate.
Qed.

Lemma prefix_of_snoc (t : string) : forall s u c,
  (t ++ u)%string = (s ++ String c "")%string -> u <> "" ->
  exists u', s = (t ++ u')%string.
Proof.
  induction t as [|a t IH]; intros s u c E Hu.
  - now exists s.
  - destruct s as [|a' s']; simpl in E.
    + injection E as _ E. apply append_eq_nil in E. now destruct E.
    + injection E as -> E. destruct (IH s' u c E Hu) as (u' & ->). now exists u'.
Qed.

(** No proper prefix of a report resolves an attempt by its shape. *)
Lemma sgr_report_unresolved (sb sx sy : string) (c : ascii) :
  is_number sb = true -> is_number sx = true -> is_number sy = true ->
  unresolved_before empty_table ESC (sgr_body sb sx sy c) = true.
Proof.
  intros Hb Hx Hy. apply is_number_inv in Hb, Hx, Hy.
  destruct Hb as [_ Db], Hx as [_ Dx], Hy as [_ Dy].
  apply unresolved_before_spec. intros t u E Ht Hu.
  unfold resolves, empty_table. apply no_final_no_mouse_event.
  assert (Hq : forall d, all_digits d = true ->
                         forall_chars (fun c0 => negb (is_final c0)) d = true).
  { intros d. apply forall_chars_digits. intros c0 H0.
    destruct (is_final c0) eqn:Hf; [|reflexivity].
    apply is_final_not_digit in Hf. congruence. }
  replace (sgr_body sb sx sy c)
    with (("[<" ++ sb ++ ";" ++ sx ++ ";" ++ sy) ++ String c "")%string in E.
  2:{ unfold sgr_body. simpl. rewrite !append_assoc. simpl.
      rewrite !append_assoc. reflexivity. }
  symmetry in E. destruct (prefix_of_snoc t _ u c E Hu) as (u' & E').
  assert (Hall : forall_chars (fun c0 => negb (is_final c0))
                   ("[<" ++ sb ++ ";" ++ sx ++ ";" ++ sy) = true).
  { rewrite !forall_chars_app. simpl.
    now rewrite (Hq sb Db), (Hq sx Dx), (Hq sy Dy). }
  rewrite E', forall_chars_app in Hall. apply andb_prop in Hall.
  simpl. exact (proj1 Hall).
Qed.

(** A complete SGR report delivered whole to a decoder in Idle, no prefix
    of it being a key of the table, reaches [parse_mouse_code], and what
    that call makes of it is what the delivery makes of it. *)
Lemma feed_sgr_report self sb sx sy c :
  frame self = AtRead1 ->
  is_number sb = true -> is_number sx = true -> is_number sy = true ->
  is_final c = true ->
  no_key_from_ ESC (sgr_body sb sx sy c) = true ->
  re_sgr_mouse_match (sgr_report sb sx sy c) = Some (sb, sx, sy, String c "") /\
  exists self2, same_instance self self2 /\
    feed_ self (sgr_report sb sx sy c) =
    ('(self3, event) <- parse_mouse_code self2 (sgr_report sb sx sy c) (sender self) ;;
     Returned (match event with Some e => [e] | None => [] end, loop_top self3)).
Proof.
  intros Hf Hb Hx Hy Hc Hn.
  assert (Hne : sgr_body sb sx sy c <> "") by (unfold sgr_body; discriminate).
  pose proof (no_key_from_unresolved get_ansi_sequence _ _ Hn
                (sgr_report_unresolved sb sx sy c Hb Hx Hy)) as Hu.
  pose proof (no_key_from_whole get_ansi_sequence _ ESC Hne Hn) as Hk.
  pose proof (sgr_report_is_mouse_event sb sx sy c Hb Hx Hy Hc) as Hm.
  pose proof (re_sgr_mouse_match_report sb sx sy c "" Hb Hx Hy Hc) as Hs.
  replace (sgr_report sb sx sy c ++ "")%string with (sgr_report sb sx sy c) in Hs.
  2:{ clear. induction (sgr_report sb sx sy c) as [|a s IH]; simpl; [reflexivity|].
      now rewrite <- IH. }
  split; [exact Hs|].
  destruct (feed_escape_mouse _ get_ansi_sequence repr str_keys self
              (sgr_body sb sx sy c) Hf Hne Hu Hk Hm)
    as (self2 & Hs2 & Hfeed).
  exists self2. split; [exact Hs2|exact Hfeed].
Qed.

(** X1: Every SGR report [ESC [ < B ; X ; Y] followed by [M] or [m] whose
    three numbers are within the limit of [int], delivered whole to a
    decoder in Idle, no prefix of it being a key of the table, decodes
    to exactly one event: the one [parse_mouse_code] assigns to it at
    the decoder's last-seen position. The decoder then holds the 0-based
    position of the report and is back at the top-level loop. *)
Theorem sgr_report_decodes_to_one_event self sb sx sy c :
  frame self = AtRead1 ->
  is_number sb = true -> is_number sx = true -> is_number sy = true ->
  within_int_limit sb = true -> within_int_limit sx = true ->
  within_int_limit sy = true ->
  is_final c = true ->
  no_key_from_ ESC (sgr_body sb sx sy c) = true ->
  exists e self',
    feed_ self (sgr_report sb sx sy c) = Returned ([e], self') /\
    parse_mouse_code self (sgr_report sb sx sy c) (sender self) =
      Returned (set_last self (int_acc 0 sx - 1) (int_acc 0 sy - 1), Some e) /\
    MouseState self' = (int_acc 0 sx - 1, int_acc 0 sy - 1) /\
    frame self' = (if is_eof self then Finished else AtRead1).
Proof.
  intros Hf Hb Hx Hy Lb Lx Ly Hc Hn.
  destruct (feed_sgr_report self sb sx sy c Hf Hb Hx Hy Hc Hn)
    as (Hs & self2 & (S2 & M2 & X2 & Y2 & E2) & Hfeed).
  destruct (parse_mouse_code_match _ self (sgr_report sb sx sy c) (sender self)
              sb sx sy (String c "") Hs Lb Lx Ly) as (e & Hp & _).
  exists e.
  assert (Hp2 : parse_mouse_code self2 (sgr_report sb sx sy c) (sender self) =
                Returned (set_last self2 (int_acc 0 sx - 1) (int_acc 0 sy - 1), Some e)).
  { revert Hp. unfold parse_mouse_code. rewrite Hs.
    destruct (py_int sb); [|discriminate]. destruct (py_int sx); [|discriminate].
    destruct (py_int sy); [|discriminate]. cbn [bind]. rewrite X2, Y2.
    intros [= -> -> <-]. reflexivity. }
  rewrite Hp2 in Hfeed. cbn [bind] in Hfeed.
  eexists. split; [exact Hfeed|]. split; [exact Hp|].
  unfold MouseState, loop_top. cbn. rewrite E2. auto.
Qed.


(** ** Reports and sequences that decode to nothing *)

Lemma ascii_neq_eqb (a b : ascii) : a <> b -> Ascii.eqb a b = false.
Proof. intros H. now apply Ascii.eqb_neq. Qed.

(** X7: The three-byte form [ESC [ M] followed by three characters is let
    through by [_re_mouse_event] (its characters not being newlines) but
    [parse_mouse_code] knows the SGR form only: the report is consumed
    whole and dropped, with no event and no change of the last-seen
    position. *)
Theorem three_byte_report_is_dropped self (a b c : ascii) :
  frame self = AtRead1 ->
  a <> "010"%char -> b <> "010"%char -> c <> "010"%char ->
  no_key_from_ ESC (String "[" (String "M" (String a (String b (String c ""))))) = true ->
  exists self',
    feed_ self (String ESC_char
                  (String "[" (String "M" (String a (String b (String c "")))))) =
      Returned ([], self') /\
    MouseState self' = MouseState self /\
    frame self' = (if is_eof self then Finished else AtRead1).
Proof.
  intros Hf Ha Hb Hc Hn.
  set (rest := String "[" (String "M" (String a (String b (String c ""))))) in *.
  assert (Hne : rest <> "") by discriminate.
  assert (Hu0 : unresolved_before empty_table ESC rest = true).
  { unfold rest. cbn.
    destruct (negb (Ascii.eqb a "010")); cbn;
      destruct (negb (Ascii.eqb b "010")); reflexivity. }
  pose proof (no_key_from_unresolved get_ansi_sequence _ _ Hn Hu0) as Hu.
  pose proof (no_key_from_whole get_ansi_sequence _ ESC Hne Hn) as Hk.
  assert (Hm : fullmatch _re_mouse_event (String ESC_char rest) = true).
  { unfold rest. cbn. rewrite (ascii_neq_eqb _ _ Ha). cbn.
    rewrite (ascii_neq_eqb _ _ Hb). cbn. now rewrite (ascii_neq_eqb _ _ Hc). }
  destruct (feed_escape_mouse _ get_ansi_sequence repr str_keys self rest Hf Hne Hu Hk Hm)
    as (self2 & (S2 & M2 & X2 & Y2 & E2) & Hfeed).
  rewrite (parse_mouse_code_no_match _ self2 (String ESC_char rest) (sender self) eq_refl)
    in Hfeed.
  cbn [bind] in Hfeed. eexists. split; [exact Hfeed|].
  unfold MouseState, loop_top. cbn. rewrite E2, X2, Y2. auto.
Qed.

(** X8: An escape sequence of which no prefix, the whole included, is a key
    of the table or a mouse report is consumed to the end of the
    delivery and dropped: no event is emitted, not even for the ordinary
    characters that follow the ESC, and the decoder is back in Idle. *)
Theorem unrecognised_sequence_is_swallowed self rest :
  frame self = AtRead1 ->
  unrecognised_ rest = true ->
  exists self',
    feed_ self (String ESC_char rest) = Returned ([], self') /\
    MouseState self' = MouseState self /\
    frame self' = (if is_eof self then Finished else AtRead1).
Proof.
  intros Hf Hu. unfold unrecognised in Hu. apply andb_prop in Hu. destruct Hu as [Hu Hl].
  destruct (feed_ESC_cons _ get_ansi_sequence repr str_keys self rest Hf)
    as (self1 & h & (S1 & M1 & X1 & Y1 & E1) & Hf1 & _ & ->).
  destruct rest as [|c0 r0].
  - cbn [feed]. unfold settle_peek. rewrite Hf1. cbn [awaiting py_or truthy].
    rewrite (resume_AtPeek _ get_ansi_sequence repr str_keys self1 ESC h "" Hf1).
    cbn. eexists. split; [reflexivity|].
    unfold MouseState. cbn. rewrite E1, X1, Y1. auto.
  - cbn in Hl. apply negb_true_iff in Hl.
    destruct (feed_escape_scan _ get_ansi_sequence repr str_keys (String c0 r0) ESC self1 h
                Hf1 ltac:(discriminate) Hu)
      as (self2 & pending & c & (S2 & M2 & X2 & Y2 & E2) & Hf2 & Hp & ->).
    change (ESC ++ String c0 r0)%string with (String ESC_char (String c0 r0)) in Hp.
    rewrite <- Hp in Hl.
    destruct (resume_AtRead1Seq_unresolved _ get_ansi_sequence repr str_keys
                self2 pending h (String c "") Hf2 Hl)
      as (self3 & (S3 & M3 & X3 & Y3 & E3) & ->).
    cbn [bind feed]. unfold settle_peek. cbn [frame set_frame awaiting py_or truthy].
    rewrite (resume_AtPeek _ get_ansi_sequence repr str_keys
               (set_frame self3 (AtPeek (pending ++ String c "") h))
               (pending ++ String c "") h "" eq_refl).
    cbn. eexists. split; [reflexivity|].
    unfold MouseState. cbn. rewrite E3, E2, E1, X3, X2, X1, Y3, Y2, Y1. auto.
Qed.

(** ** Tokens delivered back to back *)

Lemma feed_ESC_any self :
  frame self = AtRead1 ->
  exists self1 h, same_instance self self1 /\ frame self1 = AtPeek ESC h /\
    forall rest, feed_ self (String ESC_char rest) = feed_ self1 rest.
Proof.
  intros Hf.
  destruct (resume_AtRead1_ESC _ get_ansi_sequence repr str_keys self Hf)
    as (self1 & Hs & Hr).
  exists (set_frame self1 (AtPeek ESC (more_data self (more_data_calls self)))),
    (more_data self (more_data_calls self)).
  split; [|split; [reflexivity|]].
  - eapply same_instance_trans; [exact Hs|apply same_instance_set_frame].
  - intros rest. cbn [feed]. unfold settle_peek. rewrite Hf. cbn [awaiting bind].
    rewrite Hf. cbn [awaiting]. change (String ESC_char "") with ESC. rewrite Hr.
    cbn [bind]. destruct (feed_ _ rest) as [[ev3 self3]|e]; reflexivity.
Qed.

Lemma feed_escape_scan_tail rest : forall sequence self h,
  frame self = AtPeek sequence h ->
  rest <> "" ->
  unresolved_before_ sequence rest = true ->
  exists self2 pending c,
    same_instance self self2 /\
    frame self2 = AtRead1Seq pending h /\
    (pending ++ String c "")%string = (sequence ++ rest)%string /\
    forall tail,
      feed_ self (rest ++ tail) =
      ('(ev2, self3) <- resume_ self2 (String c "") ;;
       '(ev3, self4) <- feed_ self3 tail ;;
       Returned ((ev2 ++ ev3)%list, self4)).
Proof.
  induction rest as [|c r IH]; intros sequence self h Hf Hne Hu; [congruence|].
  destruct r as [|c2 r2].
  - exists (set_frame self (AtRead1Seq sequence h)), sequence, c.
    split; [apply same_instance_set_frame|]. split; [reflexivity|].
    split; [reflexivity|]. intros tail.
    exact (feed_AtPeek_cons _ get_ansi_sequence repr str_keys self sequence h c tail Hf).
  - rewrite (unresolved_before_cons get_ansi_sequence) in Hu.
    apply andb_prop in Hu. destruct Hu as [Hn Hu].
    apply negb_true_iff in Hn.
    destruct (resume_AtRead1Seq_unresolved _ get_ansi_sequence repr str_keys
                (set_frame self (AtRead1Seq sequence h)) sequence h (String c "")
                eq_refl Hn) as (self1 & Hs1 & Hr1).
    destruct (IH (sequence ++ String c "")%string
                 (set_frame self1 (AtPeek (sequence ++ String c "") h)) h
                 eq_refl ltac:(discriminate) Hu)
      as (self2 & pending & c' & Hs2 & Hf2 & Hp & Hfeed).
    exists self2, pending, c'. split; [|split; [exact Hf2|split]].
    + eapply same_instance_trans; [|exact Hs2].
      eapply same_instance_trans; [apply same_instance_set_frame|].
      eapply same_instance_trans; [exact Hs1|apply same_instance_set_frame].
    + rewrite Hp. rewrite append_assoc. reflexivity.
    + intros tail.
      change (String c (String c2 r2) ++ tail)%string
        with (String c (String c2 r2 ++ tail)).
      rewrite (feed_AtPeek_cons _ get_ansi_sequence repr str_keys self sequence h c _ Hf).
      rewrite Hr1. cbn [bind]. rewrite (Hfeed tail).
      destruct (resume_ self2 (String c' "")) as [[ev2 self3]|e]; [|reflexivity].
      cbn [bind]. destruct (feed_ self3 tail) as [[ev3 self4]|e]; reflexivity.
Qed.

Lemma append_empty_r (s : string) : (s ++ "")%string = s.
Proof. induction s as [|a s IH]; simpl; [reflexivity|now rewrite IH]. Qed.

Lemma concat_tokens_cons (t : string) (ts : list string) :
  String.concat "" (t :: ts) = (t ++ String.concat "" ts)%string.
Proof. destruct ts; simpl; [now rewrite append_empty_r|reflexivity]. Qed.

(** A read that resolves the attempt leaves the generator back at the
    loop condition, when it raises nothing. *)
Lemma resume_AtRead1Seq_resolved self sequence h sent ev self' :
  frame self = AtRead1Seq sequence h ->
  resolves_ (sequence ++ sent) = true ->
  resume_ self sent = Returned (ev, self') ->
  frame self' = (if is_eof self then Finished else AtRead1) /\
  is_eof self' = is_eof self.
Proof.
  intros Hf Hr H. unfold resolves in Hr.
  pose proof (resume_step_ok _ get_ansi_sequence repr str_keys self sent ev self' H)
    as (_ & _ & _ & E).
  split; [|exact E].
  destruct (resume_next_frame _ get_ansi_sequence repr str_keys self sent ev self' H)
    as [F|[(sq & h' & F)|(sq & h' & F & _)]]; [exact F| |congruence].
  exfalso. revert H. unfold resume, re_mouse_event_match. rewrite Hf.
  destruct (get_ansi_sequence (sequence ++ sent)) as [keys|].
  - intros [= _ <-]. rewrite frame_loop_top in F. now destruct (is_eof _).
  - rewrite Hr.
    destruct (parse_mouse_code _ _ _) as [[self3 [e|]]|]; cbn [bind]; try discriminate;
      intros [= _ <-]; rewrite frame_loop_top in F; now destruct (is_eof _).
Qed.

Lemma feed_top self :
  frame self = AtRead1 \/ frame self = Finished ->
  feed_ self "" = Returned ([], self).
Proof.
  intros [Hf|Hf]; cbn [feed]; unfold settle_peek; now rewrite Hf.
Qed.

Lemma loop_top_cases (b : bool) (f : Frame) :
  f = (if b then Finished else AtRead1) -> f = AtRead1 \/ f = Finished.
Proof. destruct b; auto. Qed.

(** A complete token and what follows it: the delivery is the token's
    own delivery followed by that of the rest, failures included. *)
Lemma feed_complete_token self token :
  frame self = AtRead1 ->
  complete_token_ token = true ->
  (forall tail,
     feed_ self (token ++ tail) =
     ('(ev1, self1) <- feed_ self token ;;
      '(ev2, self2) <- feed_ self1 tail ;;
      Returned ((ev1 ++ ev2)%list, self2))) /\
  (forall ev1 self1,
     feed_ self token = Returned (ev1, self1) ->
     frame self1 = (if is_eof self then Finished else AtRead1) /\
     is_eof self1 = is_eof self).
Proof.
  intros Hf Ht. unfold complete_token in Ht.
  destruct token as [|c rest]; [discriminate|].
  destruct (Ascii.eqb c ESC_char) eqn:Ec.
  - apply Ascii.eqb_eq in Ec. subst c.
    apply andb_prop in Ht. destruct Ht as [Ht Hr].
    apply andb_prop in Ht. destruct Ht as [Hne Hu].
    assert (Hne' : rest <> "") by (destruct rest; [discriminate|discriminate]).
    destruct (feed_ESC_any self Hf) as (self1 & h & (_ & _ & _ & _ & E1) & Hf1 & Hesc).
    destruct (feed_escape_scan_tail rest ESC self1 h Hf1 Hne' Hu)
      as (self2 & pending & c & (_ & _ & _ & _ & E2) & Hf2 & Hp & Hscan).
    change (ESC ++ rest)%string with (String ESC_char rest) in Hp.
    rewrite <- Hp in Hr.
    assert (Hnil : feed_ self (String ESC_char rest) =
                   ('(ev2, self3) <- resume_ self2 (String c "") ;;
                    '(ev3, self4) <- feed_ self3 "" ;;
                    Returned ((ev2 ++ ev3)%list, self4))).
    { rewrite Hesc. specialize (Hscan "").
      replace (rest ++ "")%string with rest in Hscan
        by (clear; induction rest as [|a s IH]; simpl; [reflexivity|now rewrite <- IH]).
      exact Hscan. }
    split.
    + intros tail. change (String ESC_char rest ++ tail)%string
        with (String ESC_char (rest ++ tail)).
      rewrite Hnil, Hesc, (Hscan tail).
      destruct (resume_ self2 (String c "")) as [[ev2 self3]|e] eqn:Hres; [|reflexivity].
      cbn [bind].
      destruct (resume_AtRead1Seq_resolved self2 pending h (String c "") ev2 self3
                  Hf2 Hr Hres) as (F3 & _).
      rewrite (feed_top self3 (loop_top_cases _ _ F3)). cbn [bind].
      rewrite app_nil_r.
      destruct (feed_ self3 tail) as [[ev3 self4]|e]; reflexivity.
    + intros ev1 s1. rewrite Hnil.
      destruct (resume_ self2 (String c "")) as [[ev2 self3]|e] eqn:Hres; [|discriminate].
      cbn [bind].
      destruct (resume_AtRead1Seq_resolved self2 pending h (String c "") ev2 self3
                  Hf2 Hr Hres) as (F3 & E3).
      rewrite (feed_top self3 (loop_top_cases _ _ F3)). cbn [bind].
      intros [= _ <-]. rewrite F3, E3, E2, E1. auto.
  - destruct rest as [|c2 r2]; [|discriminate].
    assert (Hc : c <> ESC_char) by (now apply Ascii.eqb_neq).
    destruct (resume_AtRead1_plain _ get_ansi_sequence repr str_keys self c Hf Hc)
      as (self1 & (_ & _ & _ & _ & E1) & Hr).
    set (evk := match get_ansi_sequence (String c "") with
                | Some keys => map (Key (sender self)) keys
                | None => [Key (sender self) (String c "")]
                end) in Hr.
    assert (Hstep : forall tail,
              feed_ self (String c tail) =
              ('(ev2, self2) <- feed_ (loop_top self1) tail ;;
               Returned ((evk ++ ev2)%list, self2))).
    { intros tail. cbn [feed]. unfold settle_peek at 1. rewrite Hf. cbn [awaiting bind].
      rewrite Hf. cbn [awaiting]. rewrite Hr. cbn [bind].
      destruct tail as [|t0 tl]; [|reflexivity]. reflexivity. }
    assert (Hone : feed_ self (String c "") = Returned (evk, loop_top self1)).
    { rewrite (Hstep ""). rewrite (feed_top_nil _ get_ansi_sequence repr str_keys self1).
      cbn [bind]. now rewrite app_nil_r. }
    split.
    + intros tail. change (String c "" ++ tail)%string with (String c tail).
      rewrite Hone, (Hstep tail). reflexivity.
    + intros ev1 s1. rewrite Hone. intros [= _ <-].
      rewrite (frame_loop_top _ self1). cbn [is_eof loop_top set_frame].
      now rewrite E1.
Qed.

(** X9: A complete token followed by anything else in the same delivery is
    decoded on its own, whatever follows it (further tokens, half a
    sequence, a lone ESC): the delivery is the delivery of the token
    followed by that of the rest, made to the state the token leaves;
    its events are those of the token followed by those of the rest, and
    if the token ends in a failure so does the delivery. A token within
    the limit of [int] does not end in a failure, and leaves the decoder
    back at the top-level loop. *)
Theorem complete_token_then_rest self token tail :
  frame self = AtRead1 ->
  complete_token_ token = true ->
  feed_ self (token ++ tail) =
    ('(ev1, self1) <- feed_ self token ;;
     '(ev2, self2) <- feed_ self1 tail ;;
     Returned ((ev1 ++ ev2)%list, self2)) /\
  (within_int_limit token = true ->
   exists ev1 self1,
     feed_ self token = Returned (ev1, self1) /\
     frame self1 = (if is_eof self then Finished else AtRead1)).
Proof.
  intros Hf Ht.
  destruct (feed_complete_token self token Hf Ht) as (Htail & Hend).
  split; [exact (Htail tail)|].
  intros L.
  destruct (feed_returns _ get_ansi_sequence repr str_keys token self)
    as (ev1 & self1 & H1 & _).
  - unfold demands_character. now rewrite Hf.
  - unfold pending_sequence. now rewrite Hf.
  - exists ev1, self1. split; [exact H1|]. exact (proj1 (Hend ev1 self1 H1)).
Qed.

(** X10: Complete tokens delivered back to back in one delivery decode
    exactly as if each had been delivered on its own: the same events in
    the same order, and the same final state. *)
Theorem back_to_back_tokens_decode_one_by_one tokens : forall self,
  decoder_state self = Idle ->
  is_eof self = false ->
  Forall (fun token => complete_token_ token = true) tokens ->
  feed_ self (String.concat "" tokens) = feed_all_ self tokens.
Proof.
  assert (Hidle : forall self, decoder_state self = Idle -> frame self = AtRead1).
  { intros self. unfold decoder_state. now destruct (frame self). }
  induction tokens as [|t ts IH]; intros self Hd He Hall.
  - cbn. unfold settle_peek. now rewrite (Hidle self Hd).
  - inversion Hall as [|t' ts' Ht Hts]; subst.
    rewrite concat_tokens_cons.
    destruct (feed_complete_token self t (Hidle self Hd) Ht) as (Htail & Hend).
    rewrite (Htail (String.concat "" ts)). cbn [feed_all].
    destruct (feed_ self t) as [[ev1 self1]|e] eqn:H1; [|reflexivity].
    cbn [bind].
    destruct (Hend ev1 self1 eq_refl) as (F1 & E1).
    rewrite He in F1. rewrite He in E1.
    rewrite (IH self1); [reflexivity| |exact E1|exact Hts].
    unfold decoder_state. now rewrite F1.
Qed.

(** ** Text without ESC *)

(** X11: A delivery with no ESC in it is decoded character by character:
    its events are, for each character in order, the Key events of the
    character's table entry, or one Key event named by the character
    when the table has no entry for it. Keys of the table that are longer
    than one character and do not begin with ESC are therefore never
    looked up. *)
Theorem text_without_ESC_decodes_per_character data : forall self,
  frame self = AtRead1 ->
  is_eof self = false ->
  forall_chars (fun c => negb (Ascii.eqb c ESC_char)) data = true ->
  exists self',
    feed_ self data =
      Returned (flat_map (character_events get_ansi_sequence (sender self))
                         (list_ascii_of_string data), self') /\
    decoder_state self' = Idle /\
    MouseState self' = MouseState self.
Proof.
  induction data as [|c rest IH]; intros self Hf He Hq.
  - exists self. cbn. unfold settle_peek, decoder_state. rewrite Hf. auto.
  - cbn [forall_chars] in Hq. apply andb_prop in Hq. destruct Hq as [Hc Hq].
    apply negb_true_iff, Ascii.eqb_neq in Hc.
    destruct (resume_AtRead1_plain _ get_ansi_sequence repr str_keys self c Hf Hc)
      as (self1 & (S1 & M1 & X1 & Y1 & E1) & Hr).
    destruct (IH (loop_top self1)) as (self' & H' & D' & P'); [| |exact Hq|].
    + rewrite (frame_loop_top _ self1). now rewrite E1, He.
    + cbn. congruence.
    + exists self'. split; [|split; [exact D'|]].
      * cbn [feed]. unfold settle_peek at 1. rewrite Hf. cbn [awaiting bind].
        rewrite Hf. cbn [awaiting]. rewrite Hr. cbn [bind].
        change (feed get_ansi_sequence repr str_keys (loop_top self1) rest)
          with (feed_ (loop_top self1) rest).
        rewrite H'. cbn [bind List.app list_ascii_of_string flat_map].
        unfold character_events at 2. cbn [sender loop_top set_frame].
        now rewrite S1.
      * rewrite P'. unfold MouseState. cbn. congruence.
Qed.

(** ** The kind of a button or motion report *)

(** X3: For a report whose button field has bit 0x40 clear, and whose
    three numbers are within the limit of [int], the motion bit 0x20
    decides before the final character does: with it the event is
    MouseMove whether the report ends in [M] or in [m]; without it the
    event is MouseDown for [M] and MouseUp for [m]. *)
Theorem button_report_kind (self : XTermParser MessageTarget) sb sx sy c target :
  is_number sb = true -> is_number sx = true -> is_number sy = true ->
  within_int_limit sb = true -> within_int_limit sx = true ->
  within_int_limit sy = true ->
  is_final c = true ->
  Z.land (int_acc 0 sb) 64 = 0 ->
  exists args,
    parse_mouse_code self (sgr_report sb sx sy c) target =
      Returned (set_last self (int_acc 0 sx - 1) (int_acc 0 sy - 1),
                Some (if negb (Z.land (int_acc 0 sb) 32 =? 0) then MouseMove target args
                      else if Ascii.eqb c "M" then MouseDown target args
                           else MouseUp target args)).
Proof.
  intros Hb Hx Hy Lb Lx Ly Hc H64.
  pose proof (re_sgr_mouse_match_report sb sx sy c "" Hb Hx Hy Hc) as Hs.
  rewrite append_empty_r in Hs.
  assert (Hw : py_bool (Z.land (int_acc 0 sb) 64) = false)
    by (unfold py_bool; now rewrite H64).
  rewrite (parse_mouse_code_button _ self _ target sb sx sy (String c "") Hs Lb Lx Ly Hw).
  eexists. unfold py_bool.
  destruct (negb (Z.land (int_acc 0 sb) 32 =? 0)); [reflexivity|].
  change (String.eqb (String c "") "M") with (Ascii.eqb c "M" && true)%bool.
  rewrite andb_true_r. destruct (Ascii.eqb c "M"); reflexivity.
Qed.

End WholeRuns.

(** * The further properties on sample inputs *)

(** A release report with the motion bit and two modifier bits, at
    column 120, row 7 on the wire. *)
Lemma sgr_report_witness :
  exists e self',
    feed empty_table plain_repr plain_str_keys fresh_decoder
         (sgr_report "44" "120" "7" "m") = Returned ([e], self') /\
    parse_mouse_code fresh_decoder (sgr_report "44" "120" "7" "m") tt =
      Returned (set_last fresh_decoder 119 6, Some e) /\
    MouseState self' = (119, 6) /\
    frame self' = AtRead1.
Proof.
  exact (sgr_report_decodes_to_one_event unit empty_table plain_repr plain_str_keys
           fresh_decoder "44" "120" "7" "m"%char
           eq_refl eq_refl eq_refl eq_refl eq_refl eq_refl eq_refl eq_refl eq_refl).
Defined.

(** A press report followed by text. *)
Lemma trailing_text_witness :
  parse_mouse_code fresh_decoder (String ESC_char "[<0;3;4M" ++ "and more") tt =
  parse_mouse_code fresh_decoder (String ESC_char "[<0;3;4M") tt.
Proof.
  apply (parse_mouse_code_ignores_trailing_text unit fresh_decoder
           (String ESC_char "[<0;3;4M") "and more" tt).
  vm_compute. discriminate.
Defined.

(** Button field 35: motion bit set, wheel bit clear, final [m]. *)
Lemma button_report_kind_witness :
  exists args,
    parse_mouse_code fresh_decoder (sgr_report "35" "1" "1" "m") tt =
      Returned (set_last fresh_decoder 0 0, Some (MouseMove tt args)).
Proof.
  exact (button_report_kind unit fresh_decoder "35" "1" "1" "m"%char tt
           eq_refl eq_refl eq_refl eq_refl eq_refl eq_refl eq_refl eq_refl).
Defined.

(** The three-byte report of a press at column 1, row 1. *)
Lemma three_byte_report_witness :
  exists self',
    feed empty_table plain_repr plain_str_keys fresh_decoder
         (String ESC_char "[M !!") = Returned ([], self') /\
    MouseState self' = (0, 0) /\ frame self' = AtRead1.
Proof.
  exact (three_byte_report_is_dropped unit empty_table plain_repr plain_str_keys
           fresh_decoder " "%char "!"%char "!"%char eq_refl
           ltac:(discriminate) ltac:(discriminate) ltac:(discriminate) eq_refl).
Defined.

(** ESC followed by ordinary text, on the sample table. *)
Lemma unrecognised_sequence_witness :
  exists self',
    feed sample_table plain_repr plain_str_keys fresh_decoder
         (String ESC_char "hello") = Returned ([], self') /\
    MouseState self' = (0, 0) /\ frame self' = AtRead1.
Proof.
  exact (unrecognised_sequence_is_swallowed unit sample_table plain_repr plain_str_keys
           fresh_decoder "hello" eq_refl eq_refl).
Defined.

(** The up arrow followed by a lone ESC. *)
Lemma complete_token_then_rest_witness :
  feed sample_table plain_repr plain_str_keys fresh_decoder
       (String ESC_char "[A" ++ ESC) =
    ('(ev1, self1) <- feed sample_table plain_repr plain_str_keys fresh_decoder
                           (String ESC_char "[A") ;;
     '(ev2, self2) <- feed sample_table plain_repr plain_str_keys self1 ESC ;;
     Returned ((ev1 ++ ev2)%list, self2)) /\
  exists ev1 self1,
    feed sample_table plain_repr plain_str_keys fresh_decoder (String ESC_char "[A") =
      Returned (ev1, self1) /\
    frame self1 = AtRead1.
Proof.
  destruct (complete_token_then_rest unit sample_table plain_repr plain_str_keys
              fresh_decoder (String ESC_char "[A") ESC eq_refl eq_refl) as (H1 & H2).
  split; [exact H1|exact (H2 eq_refl)].
Defined.

(** A letter, the up arrow, a mouse report and Control-A in one delivery. *)
Lemma back_to_back_tokens_witness :
  feed sample_table plain_repr plain_str_keys fresh_decoder
       (String.concat "" ["a"; String ESC_char "[A"; sgr_report "0" "11" "21" "M";
                          String "001"%char ""]) =
  feed_all sample_table plain_repr plain_str_keys fresh_decoder
       ["a"; String ESC_char "[A"; sgr_report "0" "11" "21" "M"; String "001"%char ""].
Proof.
  apply (back_to_back_tokens_decode_one_by_one unit sample_table plain_repr plain_str_keys
           ["a"; String ESC_char "[A"; sgr_report "0" "11" "21" "M"; String "001"%char ""]
           fresh_decoder eq_refl eq_refl).
  repeat (apply Forall_cons; [vm_compute; reflexivity|]). apply Forall_nil.
Defined.

(** Two letters around Control-A. *)
Lemma text_without_ESC_witness :
  exists self',
    feed sample_table plain_repr plain_str_keys fresh_decoder
         (String "h" (String "001"%char "i")) =
      Returned ([Key tt "h"; Key tt "ctrl+a"; Key tt "i"], self') /\
    decoder_state self' = Idle /\ MouseState self' = (0, 0).
Proof.
  exact (text_without_ESC_decodes_per_character unit sample_table plain_repr
           plain_str_keys (String "h" (String "001"%char "i")) fresh_decoder
           eq_refl eq_refl eq_refl).
Defined.

(** A driver that answers the availability check with buffered input
    once, then sends one more character. *)
Lemma pending_sequence_witness :
  exists ev self',
    send_all sample_table plain_repr plain_str_keys fresh_decoder [ESC; "["; "["] =
      Returned (ev, self') /\
    decoder_state self' = InEscape (String ESC_char "[") /\
    pending_begins_with_ESC self'.
Proof.
  eexists _, _. split; [vm_compute; reflexivity|]. split; [reflexivity|].
  apply (pending_sequence_begins_with_ESC unit sample_table plain_repr plain_str_keys
           tt never_more false [ESC; "["; "["] []).
  vm_compute. reflexivity.
Defined.

(** A press report with column and row 0 on the wire, then a letter. *)
Lemma emitted_events_in_range_witness :
  exists ev self',
    feed_all empty_table plain_repr plain_str_keys fresh_decoder
             [sgr_report "0" "0" "0" "M"; "a"] = Returned (ev, self') /\
    Forall (@in_range unit) ev.
Proof.
  exact (proj2 (proj2 (emitted_events_in_range unit empty_table plain_repr
                         plain_str_keys fresh_decoder))
           [sgr_report "0" "0" "0" "M"; "a"] eq_refl
           ltac:(repeat (apply Forall_cons; [reflexivity|]); apply Forall_nil)).
Defined.

(** A press, a wheel report and a release in two deliveries. *)
Lemma deltas_witness :
  exists ev self',
    feed_all empty_table plain_repr plain_str_keys fresh_decoder
             [(sgr_report "0" "11" "21" "M" ++ sgr_report "64" "5" "5" "M")%string;
              sgr_report "0" "12" "21" "m"] = Returned (ev, self') /\
    chain (@deltas_from unit) (MouseState fresh_decoder) ev.
Proof.
  exact (proj2 (proj2 (deltas_count_from_previous_mouse_event unit empty_table
                         plain_repr plain_str_keys fresh_decoder))
           [(sgr_report "0" "11" "21" "M" ++ sgr_report "64" "5" "5" "M")%string;
            sgr_report "0" "12" "21" "m"] eq_refl
           ltac:(repeat (apply Forall_cons; [reflexivity|]); apply Forall_nil)).
Defined.

(** The up arrow, a letter and a press report on the sample table. *)
Lemma emitted_events_carry_sender_witness :
  exists ev self',
    feed_all sample_table plain_repr plain_str_keys fresh_decoder
             [String ESC_char "[A"; "a"; sgr_report "0" "11" "21" "M"] =
      Returned (ev, self') /\
    Forall (fun e => event_sender e = sender fresh_decoder) ev /\
    sender self' = sender fresh_decoder.
Proof.
  exact (proj2 (proj2 (emitted_events_carry_sender unit sample_table plain_repr
                         plain_str_keys fresh_decoder))
           [String ESC_char "[A"; "a"; sgr_report "0" "11" "21" "M"] eq_refl
           ltac:(repeat (apply Forall_cons; [reflexivity|]); apply Forall_nil)).
Defined.

(** A decoder created with the debug file, fed a letter and the up
    arrow. *)
Lemma debug_file_witness :
  exists ev self',
    feed_all sample_table plain_repr plain_str_keys (new_parser tt never_more true)
             ["a"; String ESC_char "[A"] = Returned (ev, self') /\
    log_extended (_debug_log_file (new_parser tt never_more true))
                 (_debug_log_file self').
Proof.
  exact (proj2 (proj2 (debug_file_is_append_only unit sample_table plain_repr
                         plain_str_keys (new_parser tt never_more true)))
           ["a"; String ESC_char "[A"] eq_refl
           ltac:(repeat (apply Forall_cons; [reflexivity|]); apply Forall_nil)).
Defined.

(** A lone ESC, then half of a mouse report: the decoder is in Idle after
    them, and the end of the stream makes the generator return. *)
Lemma no_pending_sequence_witness :
  exists ev self',
    feed_all empty_table plain_repr plain_str_keys (new_parser tt never_more false)
             [ESC; String ESC_char "[<0;3"] = Returned (ev, self') /\
    decoder_state self' = Idle /\ pending_sequence self' = "" /\
    exists ev2 self2,
      end_of_stream empty_table plain_repr plain_str_keys self' = Returned (ev2, self2) /\
      decoder_state self2 = Terminated.
Proof.
  destruct (proj2 (no_pending_sequence_after_delivery unit empty_table plain_repr
                     plain_str_keys tt never_more false [ESC; String ESC_char "[<0;3"])
              ltac:(repeat (apply Forall_cons; [reflexivity|]); apply Forall_nil))
    as (ev & self' & H & _).
  exists ev, self'. split; [exact H|].
  exact (proj1 (no_pending_sequence_after_delivery unit empty_table plain_repr
                  plain_str_keys tt never_more false [ESC; String ESC_char "[<0;3"])
           ev self' H).
Defined.

(** ** A field beyond the limit of [int] (C9) *)


